(** * aimet_torch.tensor_quantizer: a shallow embedding and its verified properties

    The development follows
    [TrainingExtensions/torch/src/python/aimet_torch/tensor_quantizer.py].
    Python objects that are mutated in place (quantizers, the wrapper's
    parameter dictionary) are modelled by explicit state passing; a raised
    exception leaves the state as mutated so far.  Scalar arithmetic of the
    host tensor runtime is an interface ([Scalar]); every theorem holds for any
    implementation of it, and exact rationals are used to run the code. *)

From Stdlib Require Import ZArith QArith Qround Qpower Qabs Lia.
From stdpp Require Import base decidable option list gmap strings.

Set Default Proof Using "Type".
Open Scope Z_scope.
Open Scope nat_scope.

(** ** Python exceptions and results *)

Inductive exn_kind :=
| RuntimeError | ValueError | AssertionError | AttributeError
| IndexError | TypeError | KeyError | OutsideModel.

Record exn := Exn { exn_kind_of : exn_kind; exn_msg : string }.

Inductive res (A : Type) :=
| Ok (a : A)
| Raise (e : exn).
Arguments Ok {A} a.
Arguments Raise {A} e.

Definition res_bind {A B} (m : res A) (k : A -> res B) : res B :=
  match m with Ok a => k a | Raise e => Raise e end.

Declare Scope res_scope.
Delimit Scope res_scope with res.
Notation "x <- m ;;; k" := (res_bind m (fun x => k))
  (at level 100, m at next level, right associativity) : res_scope.

(** A method of a mutable object: it returns a value or raises, and in both
    cases leaves the object in some state. *)
Definition method (S A : Type) : Type := S -> res A * S.

Definition m_ret {S A} (a : A) : method S A := fun s => (Ok a, s).
Definition m_raise {S A} (e : exn) : method S A := fun s => (Raise e, s).
Definition m_bind {S A B} (m : method S A) (k : A -> method S B) : method S B :=
  fun s => match m s with
           | (Ok a, s') => k a s'
           | (Raise e, s') => (Raise e, s')
           end.
Definition m_get {S} : method S S := fun s => (Ok s, s).
Definition m_put {S} (s : S) : method S unit := fun _ => (Ok tt, s).
Definition m_modify {S} (f : S -> S) : method S unit := fun s => (Ok tt, f s).
Definition m_lift {S A} (r : res A) : method S A := fun s => (r, s).

Fixpoint res_mapM {A B} (f : A -> res B) (l : list A) : res (list B) :=
  match l with
  | [] => Ok []
  | x :: l' => res_bind (f x) (fun y => res_bind (res_mapM f l') (fun ys => Ok (y :: ys)))
  end.

Definition assert_ (b : bool) (msg : string) : res unit :=
  if b then Ok tt else Raise (Exn AssertionError msg).

Declare Scope method_scope.
Delimit Scope method_scope with method.
Notation "x <-- m ;; k" := (m_bind m (fun x => k))
  (at level 100, m at next level, right associativity) : method_scope.
Notation "m ;; k" := (m_bind m (fun _ => k))
  (at level 100, right associativity) : method_scope.

(** ** Scalars of the tensor runtime *)

(** Element types a tensor is converted to: the integer types a saved tensor
    can be cast to (the values of [_encoding_params_to_dtype] and its default),
    and the single-precision type of [torch.FloatTensor]. *)
Inductive dtype := uint8 | int8 | int16 | int32 | float32.

Class Scalar (R : Type) := {
  of_Z : Z -> R;
  add : R -> R -> R;
  sub : R -> R -> R;
  mul : R -> R -> R;
  div : R -> R -> R;
  neg : R -> R;
  round : R -> R;          (* torch.round *)
  pow : R -> Z -> R;       (* torch.pow with an integer exponent *)
  leb : R -> R -> bool;    (* a <= b *)
  cast : dtype -> R -> R;  (* Tensor.to(dtype=...) followed by promotion back *)
}.

Section Tensors.
Context {R : Type} `{Scalar R}.

(** A tensor is a shape and its elements in row-major order. *)
Record tensor := Tensor { shape : list nat; data : list R }.

Definition numel (s : list nat) : nat := foldr Nat.mul 1 s.

(** Multi-index of the flat position [i] in a tensor of shape [s]. *)
Fixpoint unravel (s : list nat) (i : nat) : list nat :=
  match s with
  | [] => []
  | _ :: s' => i / numel s' :: unravel s' (i mod numel s')
  end.

Fixpoint ravel (s idx : list nat) : nat :=
  match s, idx with
  | _ :: s', k :: idx' => k * numel s' + ravel s' idx'
  | _, _ => 0
  end.

(** Index along [axis] of the element at flat position [i]. *)
Definition chan_of (s : list nat) (axis i : nat) : nat :=
  nth axis (unravel s i) 0.

(** [len(t)]: size of the first dimension. *)
Definition len (t : tensor) : res nat :=
  match shape t with
  | [] => Raise (Exn TypeError "len() of a 0-d tensor")
  | d :: _ => Ok d
  end.

Definition scalar_tensor (x : R) : tensor := Tensor [] [x].
Definition vec (l : list R) : tensor := Tensor [length l] l.

Definition is_single (t : tensor) : bool :=
  bool_decide (shape t = [] \/ shape t = [1]).

Definition tmap (f : R -> R) (t : tensor) : tensor :=
  Tensor (shape t) (f <$> data t).

(** Elementwise binary operation with the broadcasting used in this file:
    equal shapes, or one operand holding a single element.  Other pairs of
    shapes are not produced by the functions below on inputs that satisfy
    their shape preconditions. *)
Definition ew2 (f : R -> R -> R) (a b : tensor) : res tensor :=
  if decide (shape a = shape b) then
    Ok (Tensor (shape a) (zip_with f (data a) (data b)))
  else if is_single b then
    match data b with
    | [y] => Ok (Tensor (if decide (shape a = []) then shape b else shape a)
                        ((fun x => f x y) <$> data a))
    | _ => Raise (Exn OutsideModel "malformed tensor")
    end
  else if is_single a then
    match data a with
    | [x] => Ok (Tensor (if decide (shape b = []) then shape a else shape b)
                        (f x <$> data b))
    | _ => Raise (Exn OutsideModel "malformed tensor")
    end
  else Raise (Exn OutsideModel "broadcast of these shapes is not modelled").

Definition tadd := ew2 add.
Definition tsub := ew2 sub.
Definition tmul := ew2 mul.
Definition tdiv := ew2 div.
Definition tround := tmap round.
Definition tneg := tmap neg.

Definition clamp1 (lo hi x : R) : R :=
  let y := if leb lo x then x else lo in
  if leb y hi then y else hi.

(** [t.clamp(n, p)] with one-element bounds. *)
Definition tclamp (t : tensor) (n p : R) : tensor := tmap (clamp1 n p) t.

(** Boolean tensors ([ge], [le] and their product) share the shape of their
    operand; only their elements are kept. *)
Definition mask_of (t : tensor) (n p : R) : list bool :=
  (fun q => leb n q && leb q p) <$> data t.

(** [mask.type_as(float_tensor)] *)
Definition mask_as (s : list nat) (m : list bool) : tensor :=
  Tensor s ((fun b : bool => if b then of_Z 1 else of_Z 0) <$> m).

Definition lsum (l : list R) : R := foldl add (of_Z 0) l.

(** A list with the positions of its elements. *)
Definition indexed {A} (l : list A) : list (nat * A) := imap (fun i x => (i, x)) l.

(** Positions of [l] whose index is not in [dims]. *)
Definition drop_dims {A} (dims : list nat) (l : list A) : list A :=
  snd <$> filter (fun ix => ix.1 ∉ dims) (indexed l).

(** The elements of a tensor of shape [s] whose index along [axis] is [c],
    in row-major order. *)
Definition channel_elements {A} (s : list nat) (axis c : nat) (l : list A) : list A :=
  snd <$> filter (fun ix => chan_of s axis ix.1 = c) (indexed l).

(** [t.sum(dim=dims)]: the dimensions in [dims] are reduced; an empty
    [dims] reduces every dimension. *)
Definition tsum (t : tensor) (dims : list nat) : tensor :=
  let dims' := match dims with [] => seq 0 (length (shape t)) | _ => dims end in
  let out_shape := drop_dims dims' (shape t) in
  Tensor out_shape
    ((fun j =>
        lsum (snd <$> filter
                (fun ix => ravel out_shape (drop_dims dims' (unravel (shape t) ix.1)) = j)
                (indexed (data t))))
       <$> seq 0 (numel out_shape)).

(** [t.select(axis, index)]: the slice of [t] at [index] along [axis]. *)
Definition tselect (t : tensor) (axis index : nat) : res tensor :=
  match shape t !! axis with
  | None => Raise (Exn IndexError "Dimension out of range")
  | Some d =>
      if decide (index < d) then
        Ok (Tensor (take axis (shape t) ++ drop (S axis) (shape t))
              (channel_elements (shape t) axis index (data t)))
      else Raise (Exn IndexError "index out of range")
  end.

(** [torch.stack(ts, dim)] for tensors of one shape. *)
Definition tstack (ts : list tensor) (dim : nat) : res tensor :=
  match ts with
  | [] => Raise (Exn RuntimeError "stack expects a non-empty TensorList")
  | t0 :: _ =>
      if negb (forallb (fun t => bool_decide (shape t = shape t0)) ts) then
        Raise (Exn RuntimeError "stack expects each tensor to be equal size")
      else if decide (dim <= length (shape t0)) then
        let rs := take dim (shape t0) ++ length ts :: drop dim (shape t0) in
        Ok (Tensor rs
              ((fun i =>
                  let idx := unravel rs i in
                  let k := nth dim idx 0 in
                  let rest := take dim idx ++ drop (S dim) idx in
                  default (of_Z 0)
                    (t ← ts !! k; data t !! ravel (shape t0) rest))
                 <$> seq 0 (numel rs)))
      else Raise (Exn IndexError "Dimension out of range")
  end.

(** [list.pop(i)] for a non-negative index. *)
Definition list_pop {A} (l : list A) (i : nat) : res (list A) :=
  if decide (i < length l) then Ok (take i l ++ drop (S i) l)
  else Raise (Exn IndexError "pop index out of range").

End Tensors.
Arguments tensor R : clear implicits.

(** ** Encoding parameters and the storage type of the saved clamp output *)

Record _EncodingParams := EncodingParams {
  ep_bitwidth : Z;
  is_symmetric : bool;
  ep_use_unsigned_symmetric : bool;
}.

(** [_encoding_params_to_dtype.get(params, torch.int32)] *)
Definition _encoding_params_to_dtype (k : _EncodingParams) : dtype :=
  match k with
  | EncodingParams 8 true true => uint8
  | EncodingParams 8 true false => int8
  | EncodingParams 8 false true => uint8
  | EncodingParams 8 false false => uint8
  | EncodingParams 16 true false => int16
  | _ => int32
  end%Z.

Inductive QuantizationDataType := DT_int | DT_float.

#[global] Instance QuantizationDataType_eq_dec : EqDecision QuantizationDataType.
Proof. solve_decision. Defined.

(** [libpymo.TfEncoding] *)
Record TfEncoding (R : Type) := MkTfEncoding {
  enc_min : R;
  enc_max : R;
  enc_delta : R;
  enc_offset : R;
  bw : Z;
}.
Arguments MkTfEncoding {R}.
Arguments enc_min {R}.
Arguments enc_max {R}.
Arguments enc_delta {R}.
Arguments enc_offset {R}.
Arguments bw {R}.

(** Modelled from the spec: [aimet_common.defs.QuantScheme] is imported by the
    source but is not part of the sources at hand; the spec names a
    histogram-producing scheme among several quantization schemes. *)
Inductive QuantScheme :=
| post_training_tf
| post_training_tf_enhanced
| training_range_learning_with_tf_init
| training_range_learning_with_tf_enhanced_init
| post_training_percentile.

#[global] Instance QuantScheme_eq_dec : EqDecision QuantScheme.
Proof. solve_decision. Defined.

(** The attributes set by [TensorQuantizer.__init__]. *)
Record TensorQuantizer := MkTensorQuantizer {
  round_mode : string;
  _quant_scheme : QuantScheme;
  use_symmetric_encodings : bool;
  use_strict_symmetric : bool;
  use_unsigned_symmetric : bool;
  bitwidth : Z;
  enabled : bool;
  data_type : QuantizationDataType;
  _is_encoding_frozen : bool;
}.

Definition TensorQuantizer_init (bitwidth : Z) (round_mode : string)
           (quant_scheme : QuantScheme) (use_symmetric_encodings enabled_by_default : bool)
           (data_type : QuantizationDataType) : TensorQuantizer :=
  MkTensorQuantizer round_mode quant_scheme use_symmetric_encodings false true
                    bitwidth enabled_by_default data_type false.


Definition set_enabled (b : bool) (q : TensorQuantizer) : TensorQuantizer :=
  MkTensorQuantizer (round_mode q) (_quant_scheme q) (use_symmetric_encodings q)
    (use_strict_symmetric q) (use_unsigned_symmetric q) (bitwidth q) b
    (data_type q) (_is_encoding_frozen q).

Definition set_bitwidth (b : Z) (q : TensorQuantizer) : TensorQuantizer :=
  MkTensorQuantizer (round_mode q) (_quant_scheme q) (use_symmetric_encodings q)
    (use_strict_symmetric q) (use_unsigned_symmetric q) b (enabled q)
    (data_type q) (_is_encoding_frozen q).

Definition set_frozen (b : bool) (q : TensorQuantizer) : TensorQuantizer :=
  MkTensorQuantizer (round_mode q) (_quant_scheme q) (use_symmetric_encodings q)
    (use_strict_symmetric q) (use_unsigned_symmetric q) (bitwidth q) (enabled q)
    (data_type q) b.

Definition set_quant_scheme (s : QuantScheme) (q : TensorQuantizer) : TensorQuantizer :=
  MkTensorQuantizer (round_mode q) s (use_symmetric_encodings q)
    (use_strict_symmetric q) (use_unsigned_symmetric q) (bitwidth q) (enabled q)
    (data_type q) (_is_encoding_frozen q).

(** A Python value in the position of an encoding: [None], one
    [libpymo.TfEncoding], or a list of such values. *)
#[local] Unset Elimination Schemes.
Inductive pyenc (R : Type) :=
| PyNone
| PyEnc (e : TfEncoding R)
| PyList (l : list (pyenc R)).
#[local] Set Elimination Schemes.
Arguments PyNone {R}.
Arguments PyEnc {R} e.
Arguments PyList {R} l.

(** Truth value of such an object: [None] and the empty list are false. *)
Definition truthy {R} (v : pyenc R) : bool :=
  match v with
  | PyNone => false
  | PyEnc _ => true
  | PyList [] => false
  | PyList (_ :: _) => true
  end.

(** Attribute access [v.min], [v.max], [v.bw]. *)
Definition getattr {R A} (attr : string) (f : TfEncoding R -> A) (v : pyenc R) : res A :=
  match v with
  | PyEnc e => Ok (f e)
  | PyNone => Raise (Exn AttributeError ("'NoneType' object has no attribute " +:+ attr))
  | PyList _ => Raise (Exn AttributeError ("'list' object has no attribute " +:+ attr))
  end.

(** Subscript [v[0]]. *)
Definition getitem0 {R} (v : pyenc R) : res (pyenc R) :=
  match v with
  | PyList (x :: _) => Ok x
  | PyList [] => Raise (Exn IndexError "list index out of range")
  | PyNone => Raise (Exn TypeError "'NoneType' object is not subscriptable")
  | PyEnc _ => Raise (Exn TypeError "'TfEncoding' object is not subscriptable")
  end.

Definition is_TfEncoding {R} (v : pyenc R) : bool :=
  match v with PyEnc _ => true | _ => false end.

Section Broadcast.
Context {R : Type} `{Scalar R}.
Local Open Scope res_scope.

(** Modelled from the spec: [quantsim_straight_through_grad.broadcast_to_tensor]
    is not part of the sources at hand.  The spec (4.1) has it align a
    per-channel vector with the channel axis of the target tensor so that
    elementwise operations against the full tensor are valid: the result has
    the tensor's shape and holds, at every position, the vector's entry for
    that position's channel. *)
Definition broadcast_to_tensor (t : tensor R) (encoding : tensor R) (ch_axis : nat)
  : res (tensor R) :=
  match shape t !! ch_axis with
  | None => Raise (Exn IndexError "pop index out of range")
  | Some num_channels =>
      if decide (length (data encoding) = num_channels) then
        Ok (Tensor (shape t)
              ((fun i => default (of_Z 0) (data encoding !! chan_of (shape t) ch_axis i))
                 <$> seq 0 (numel (shape t))))
      else if decide (length (data encoding) = 1) then
        Ok (Tensor (shape t)
              ((fun _ => default (of_Z 0) (data encoding !! 0))
                 <$> seq 0 (numel (shape t))))
      else Raise (Exn RuntimeError "The size of tensor a must match the size of tensor b")
  end.

Definition _compute_delta_and_offset (t encoding_min encoding_max : tensor R)
           (steps : R) (channel_axis : nat) : res (tensor R * tensor R) :=
  d0 <- tsub encoding_max encoding_min ;;;
  delta <- tdiv d0 (vec [steps]) ;;;
  q0 <- tdiv encoding_min delta ;;;
  let offset := tround q0 in
  l <- len encoding_min ;;;
  if decide (1 < l) then
    delta' <- broadcast_to_tensor t delta channel_axis ;;;
    offset' <- broadcast_to_tensor t offset channel_axis ;;;
    Ok (delta', offset')
  else Ok (delta, offset).

End Broadcast.

Module Learned.
Section LearnedGrid.
Context {R : Type} `{Scalar R}.
Local Open Scope res_scope.

(** The attributes [LearnedGridTensorQuantizer.__init__] adds to those of
    [TensorQuantizer].  [n] and [p] are one-element tensors in the source;
    their element is kept.  The wrapper the quantizer refers to is part of
    the state its methods run in. *)
Record LearnedGridTensorQuantizer := MkLearnedGrid {
  base : TensorQuantizer;
  name : string;
  n : R;
  p : R;
  scaling : option (tensor R);
  offset : option (tensor R);
  _ch_axis : nat;
}.

Definition get_n_and_p (bitwidth : Z) (use_symmetric_encoding use_strict_symmetric : bool)
  : res (R * R) :=
  if negb use_symmetric_encoding && use_strict_symmetric then
    Raise (Exn ValueError "Strict symmetric can be enabled only when using symmetric encoding")
  else
    let n := of_Z 0 in
    let p := sub (pow (of_Z 2) bitwidth) (of_Z 1) in
    let p := if use_symmetric_encoding && use_strict_symmetric
             then sub p (of_Z 1) else p in
    Ok (n, p).

(** What [ctx.save_for_backward] and [ctx.channel_axis] keep. *)
Record QdqCtx := MkQdqCtx {
  ctx_tensor : tensor R;
  ctx_clamp_out : tensor R;
  ctx_delta : tensor R;
  ctx_offset : tensor R;
  ctx_encoding_min : tensor R;
  ctx_encoding_max : tensor R;
  ctx_mask_tensor : list bool;
  ctx_steps : R;
  ctx_channel_axis : nat;
}.

(** [QuantizeDequantizeFunc.forward] *)
Definition QuantizeDequantizeFunc_forward (t encoding_min encoding_max : tensor R)
           (tensor_quantizer : LearnedGridTensorQuantizer) : res (tensor R * QdqCtx) :=
  let bitwidth := bitwidth (base tensor_quantizer) in
  let channel_axis := _ch_axis tensor_quantizer in
  let n := n tensor_quantizer in
  let p := p tensor_quantizer in
  let steps := p in
  r <- _compute_delta_and_offset t encoding_min encoding_max steps channel_axis ;;;
  let delta := r.1 in
  let offset := r.2 in
  q0 <- tdiv t delta ;;;
  quantize_out <- tsub (tround q0) offset ;;;
  let clamp_out := tclamp quantize_out n p in
  s0 <- tadd clamp_out offset ;;;
  dequantize_out <- tmul s0 delta ;;;
  let mask_tensor := mask_of quantize_out n p in
  let encoding_params :=
    EncodingParams bitwidth (use_symmetric_encodings (base tensor_quantizer))
                   (use_unsigned_symmetric (base tensor_quantizer)) in
  let dtype_for_clamp_out := _encoding_params_to_dtype encoding_params in
  Ok (dequantize_out,
      MkQdqCtx t (tmap (cast dtype_for_clamp_out) clamp_out) delta offset
               encoding_min encoding_max mask_tensor steps channel_axis).

(** [QuantizeDequantizeFunc.backward]: gradients for the tensor, the
    encoding min and the encoding max (the fourth result is [None]). *)
Definition QuantizeDequantizeFunc_backward (ctx : QdqCtx) (grad : tensor R)
  : res (tensor R * tensor R * tensor R) :=
  let t := ctx_tensor ctx in
  let clamp_out := ctx_clamp_out ctx in
  let delta := ctx_delta ctx in
  let offset := ctx_offset ctx in
  let encoding_min := ctx_encoding_min ctx in
  let encoding_max := ctx_encoding_max ctx in
  let steps := ctx_steps ctx in
  let channel_axis := ctx_channel_axis ctx in
  dequantize_grad <- tmul delta grad ;;;
  let mask_tensor := mask_as (shape t) (ctx_mask_tensor ctx) in
  tensor_grad <- tmul grad mask_tensor ;;;
  a0 <- tadd clamp_out offset ;;;
  a1 <- tmul t mask_tensor ;;;
  a2 <- tdiv a1 delta ;;;
  a3 <- tsub a0 a2 ;;;
  scale_grad <- tmul a3 grad ;;;
  b0 <- tsub (scalar_tensor (of_Z 1)) mask_tensor ;;;
  offset_grad <- tmul dequantize_grad b0 ;;;
  let dim := seq 0 (length (shape t)) in
  ld <- len delta ;;;
  dim <- (if decide (1 < ld) then
            if decide (1 < length (shape t)) then list_pop dim channel_axis
            else Ok dim
          else Ok dim) ;;;
  intermediate_term1 <- tdiv (tsum scale_grad dim) (vec [steps]) ;;;
  c0 <- tsub encoding_max encoding_min ;;;
  let c1 := tmap (fun x => pow x 2) c0 in
  c2 <- tdiv (vec [steps]) c1 ;;;
  intermediate_term2 <- tmul c2 (tsum offset_grad dim) ;;;
  d0 <- tmul encoding_max intermediate_term2 ;;;
  tensor_encoding_min_grad <- tadd (tneg intermediate_term1) d0 ;;;
  d1 <- tmul encoding_min intermediate_term2 ;;;
  tensor_encoding_max_grad <- tsub intermediate_term1 d1 ;;;
  Ok (tensor_grad, tensor_encoding_min_grad, tensor_encoding_max_grad).

(** The backward pass as the specification words it, to be compared with
    [QuantizeDequantizeFunc_backward]: the two sums always leave out the
    channel axis. *)
Definition backward_as_specified (ctx : QdqCtx) (grad : tensor R)
  : res (tensor R * tensor R * tensor R) :=
  let t := ctx_tensor ctx in
  let delta := ctx_delta ctx in
  let mask_tensor := mask_as (shape t) (ctx_mask_tensor ctx) in
  tensor_grad <- tmul grad mask_tensor ;;;
  a0 <- tadd (ctx_clamp_out ctx) (ctx_offset ctx) ;;;
  a1 <- tmul t mask_tensor ;;;
  a2 <- tdiv a1 delta ;;;
  a3 <- tsub a0 a2 ;;;
  scale_grad <- tmul a3 grad ;;;
  dequantize_grad <- tmul delta grad ;;;
  b0 <- tsub (scalar_tensor (of_Z 1)) mask_tensor ;;;
  offset_grad <- tmul dequantize_grad b0 ;;;
  dim <- list_pop (seq 0 (length (shape t))) (ctx_channel_axis ctx) ;;;
  scale_term <- tdiv (tsum scale_grad dim) (vec [ctx_steps ctx]) ;;;
  c0 <- tsub (ctx_encoding_max ctx) (ctx_encoding_min ctx) ;;;
  c2 <- tdiv (vec [ctx_steps ctx]) (tmap (fun x => pow x 2) c0) ;;;
  offset_term <- tmul c2 (tsum offset_grad dim) ;;;
  d0 <- tmul (ctx_encoding_max ctx) offset_term ;;;
  min_grad <- tadd (tneg scale_term) d0 ;;;
  d1 <- tmul (ctx_encoding_min ctx) offset_term ;;;
  max_grad <- tsub scale_term d1 ;;;
  Ok (tensor_grad, min_grad, max_grad).

(** *** Methods of [LearnedGridTensorQuantizer] *)

(** A [torch.nn.Parameter] stored in the wrapper. *)
Record NNParameter := MkParameter { param_data : tensor R; requires_grad : bool }.

(** The quantizer together with [wrapper_ref._parameters], the dictionary it
    reads and writes through its back-reference. *)
Record State := MkState {
  quantizer : LearnedGridTensorQuantizer;
  _parameters : gmap string NNParameter;
}.

Definition with_base (f : TensorQuantizer -> TensorQuantizer)
           (q : LearnedGridTensorQuantizer) : LearnedGridTensorQuantizer :=
  MkLearnedGrid (f (base q)) (name q) (n q) (p q) (scaling q) (offset q) (_ch_axis q).

Definition with_n_p (n' p' : R) (q : LearnedGridTensorQuantizer)
  : LearnedGridTensorQuantizer :=
  MkLearnedGrid (base q) (name q) n' p' (scaling q) (offset q) (_ch_axis q).

Definition with_scaling_offset (s o : tensor R) (q : LearnedGridTensorQuantizer)
  : LearnedGridTensorQuantizer :=
  MkLearnedGrid (base q) (name q) (n q) (p q) (Some s) (Some o) (_ch_axis q).

Definition on_quantizer (f : LearnedGridTensorQuantizer -> LearnedGridTensorQuantizer)
  : method State unit :=
  m_modify (fun st => MkState (f (quantizer st)) (_parameters st)).

Definition set_param (k : string) (v : NNParameter) : method State unit :=
  m_modify (fun st => MkState (quantizer st) (<[k := v]> (_parameters st))).

Definition bitwidth_mismatched : string := "Bitwidth mismatched.".

(** [torch.FloatTensor(l)]: the vector of the numbers of [l], each converted
    to single precision. *)
Definition FloatTensor (l : list R) : tensor R := vec (cast float32 <$> l).

Local Open Scope method_scope.

Definition _set_encoding_min_max_parameters (encodings : pyenc R) : method State unit :=
  st <-- m_get ;;
  let enc_min_param := name (quantizer st) +:+ "_encoding_min" in
  let enc_max_param := name (quantizer st) +:+ "_encoding_max" in
  r <-- (match encodings with
         | PyList l =>
             e0 <-- m_lift (getitem0 encodings) ;;
             m_lift (assert_ (is_TfEncoding e0)
                       "Encodings should be a libpymo.TfEncoding() object") ;;
             encodings_min <-- m_lift (res_mapM (getattr "min" enc_min) l) ;;
             encodings_max <-- m_lift (res_mapM (getattr "max" enc_max) l) ;;
             b <-- m_lift (getattr "bw" bw e0) ;;
             on_quantizer (with_base (set_bitwidth b)) ;;
             m_ret (encodings_min, encodings_max)
         | _ =>
             m_lift (assert_ (is_TfEncoding encodings)
                       "Encodings should be a libpymo.TfEncoding() object") ;;
             mn <-- m_lift (getattr "min" enc_min encodings) ;;
             mx <-- m_lift (getattr "max" enc_max encodings) ;;
             b <-- m_lift (getattr "bw" bw encodings) ;;
             on_quantizer (with_base (set_bitwidth b)) ;;
             m_ret ([mn], [mx])
         end) ;;
  set_param enc_min_param (MkParameter (FloatTensor r.1) true) ;;
  set_param enc_max_param (MkParameter (FloatTensor r.2) true).

Definition _set_p_and_n (encodings : pyenc R) : method State unit :=
  b <-- m_lift (match encodings with
                | PyList _ => res_bind (getitem0 encodings) (getattr "bw" bw)
                | _ => getattr "bw" bw encodings
                end) ;;
  st <-- m_get ;;
  m_lift (assert_ (bool_decide (b = bitwidth (base (quantizer st)))) bitwidth_mismatched) ;;
  np <-- m_lift (get_n_and_p (bitwidth (base (quantizer st)))
                   (use_symmetric_encodings (base (quantizer st)))
                   (use_strict_symmetric (base (quantizer st)))) ;;
  on_quantizer (with_n_p np.1 np.2).

(** The [encoding] setter. *)
Definition set_encoding (encoding : pyenc R) : method State unit :=
  st <-- m_get ;;
  if enabled (base (quantizer st)) then
    m_lift (assert_ (match encoding with PyNone => false | _ => true end)
              "Encodings cannot be None if Quantizer is enabled.") ;;
    (if _is_encoding_frozen (base (quantizer st)) then
       m_raise (Exn RuntimeError "Encoding can be set only when it is not frozen.")
     else
       _set_encoding_min_max_parameters encoding ;;
       _set_p_and_n encoding)
  else m_ret tt.

Definition compute_scaling_offset (q : LearnedGridTensorQuantizer)
           (encoding_min encoding_max : tensor R) : res (tensor R * tensor R) :=
  (d <- tsub encoding_max encoding_min ;;;
   scaling <- tdiv d (vec [p q]) ;;;
   o <- tdiv (tneg encoding_min) scaling ;;;
   Ok (scaling, tround o))%res.

(** [quantize_dequantize]; moving [n] and [p] to the tensor's device does
    not change their values. *)
Definition quantize_dequantize (q : LearnedGridTensorQuantizer) (t : tensor R)
           (encoding_min encoding_max : option (tensor R)) : res (tensor R) :=
  if enabled (base q) then
    match encoding_max, encoding_min with
    | Some mx, Some mn =>
        res_bind (QuantizeDequantizeFunc_forward t mn mx q) (fun r => Ok r.1)
    | _, _ =>
        Raise (Exn RuntimeError
                 "Forward pass used for compute_encodings differs from forward pass used during training")
    end
  else Ok t.

End LearnedGrid.
Arguments LearnedGridTensorQuantizer R : clear implicits.
Arguments NNParameter R : clear implicits.
Arguments State R : clear implicits.
Arguments QdqCtx R : clear implicits.

Section LearnedGridRest.
Context {R : Type} `{Scalar R}.
Local Open Scope res_scope.

(** [float(t)] / [t.item()]: the element of a one-element tensor. *)
Definition item (t : tensor R) : res R :=
  match data t with
  | [x] => Ok x
  | _ => Raise (Exn ValueError "only one element tensors can be converted to Python scalars")
  end.

(** [bool(t)] of the tensor runtime: a one-element tensor is true when its
    element differs from zero, a tensor of several elements has no truth
    value.  The empty tensor follows the current runtime, which refuses it. *)
Definition tensor_bool (t : tensor R) : res bool :=
  match data t with
  | [x] => Ok (negb (leb x (of_Z 0) && leb (of_Z 0) x))
  | [] => Raise (Exn RuntimeError "Boolean value of Tensor with no values is ambiguous")
  | _ => Raise (Exn RuntimeError "Boolean value of Tensor with more than one value is ambiguous")
  end.

(** [getattr(self.wrapper_ref, key)] for a registered parameter. *)
Definition wrapper_getattr (st : State R) (key : string) : res (tensor R) :=
  match _parameters st !! key with
  | Some prm => Ok (param_data prm)
  | None => Raise (Exn AttributeError key)
  end.

(** The elements a [for] loop over a tensor visits; each is handed on as a
    0-d tensor.  Only vectors are iterated in this file. *)
Definition iterate (t : tensor R) : res (list R) :=
  match shape t with
  | [] => Raise (Exn TypeError "iteration over a 0-d tensor")
  | [_] => Ok (data t)
  | _ => Raise (Exn OutsideModel "iteration over a tensor of several dimensions")
  end.

Definition updated_encoding (q : LearnedGridTensorQuantizer R) (mm : R * R) : res (pyenc R) :=
  so <- compute_scaling_offset q (scalar_tensor mm.1) (scalar_tensor mm.2) ;;;
  scale <- item so.1 ;;;
  off <- item so.2 ;;;
  Ok (PyEnc (MkTfEncoding mm.1 mm.2 scale off (bitwidth (base q)))).

Definition _compute_updated_encoding (st : State R) : res (pyenc R) :=
  let q := quantizer st in
  encoding_min <- wrapper_getattr st (name q +:+ "_encoding_min") ;;;
  encoding_max <- wrapper_getattr st (name q +:+ "_encoding_max") ;;;
  mins <- iterate encoding_min ;;;
  maxs <- iterate encoding_max ;;;
  encodings <- res_mapM (updated_encoding q) (zip mins maxs) ;;;
  match encodings with
  | [e] => Ok e
  | _ => Ok (PyList encodings)
  end.

(** The [encoding] getter. *)
Definition get_encoding (st : State R) : res (pyenc R) :=
  if enabled (base (quantizer st)) then _compute_updated_encoding st
  else Ok PyNone.

Definition dict_get (st : State R) (key : string) : res (NNParameter R) :=
  match _parameters st !! key with
  | Some prm => Ok prm
  | None => Raise (Exn KeyError key)
  end.

Definition not_frozen_msg : string := "Encoding can be frozen only when it is not None.".

Local Open Scope method_scope.

Definition clear_requires_grad (key : string) : method (State R) unit :=
  st <-- m_get ;;
  prm <-- m_lift (dict_get st key) ;;
  set_param key (MkParameter (param_data prm) false).

(** [freeze_encoding] of the learned-grid quantizer. *)
Definition freeze_encoding : method (State R) unit :=
  st <-- m_get ;;
  let enc_min_param := name (quantizer st) +:+ "_encoding_min" in
  let enc_max_param := name (quantizer st) +:+ "_encoding_max" in
  pmin <-- m_lift (dict_get st enc_min_param) ;;
  bmin <-- m_lift (tensor_bool (param_data pmin)) ;;
  none <-- (if negb bmin then
              pmax <-- m_lift (dict_get st enc_max_param) ;;
              bmax <-- m_lift (tensor_bool (param_data pmax)) ;;
              m_ret (negb bmax)
            else m_ret false) ;;
  if (none : bool) then m_raise (Exn RuntimeError not_frozen_msg)
  else
    on_quantizer (with_base (set_frozen true)) ;;
    clear_requires_grad enc_min_param ;;
    clear_requires_grad enc_max_param.

End LearnedGridRest.
End Learned.

(** ** Static-grid quantizers *)

Module Static.
Section StaticGrid.
Context {R : Type} `{Scalar R}.

(** The native engine ([AimetTensorQuantizer]) is an external collaborator:
    its state and the operations the source calls on it are assumed. *)
Context {Engine : Type}.
Context (new_engine : QuantScheme -> Engine).
Context (getEncoding : Engine -> Z -> bool -> bool -> bool -> TfEncoding R * bool).
Context (updateStats : Engine -> tensor R -> Engine).
Context (resetEncodingStats : Engine -> Engine).
Context (quantizeDequantize : Engine -> tensor R -> pyenc R -> string -> res (tensor R)).
(** [tensor.half().float()] *)
Context (half_float : tensor R -> tensor R).

Inductive variant := PerTensor | PerChannel.

Record StaticGridTensorQuantizer := MkStaticGrid {
  variant_of : variant;
  base : TensorQuantizer;
  _cppOp : list Engine;
  _encoding : pyenc R;
  _ch_axis : nat;
}.

Definition with_base (f : TensorQuantizer -> TensorQuantizer)
           (q : StaticGridTensorQuantizer) : StaticGridTensorQuantizer :=
  MkStaticGrid (variant_of q) (f (base q)) (_cppOp q) (_encoding q) (_ch_axis q).

Definition with_encoding (e : pyenc R) (q : StaticGridTensorQuantizer)
  : StaticGridTensorQuantizer :=
  MkStaticGrid (variant_of q) (base q) (_cppOp q) e (_ch_axis q).

Definition with_cppOp (ops : list Engine) (q : StaticGridTensorQuantizer)
  : StaticGridTensorQuantizer :=
  MkStaticGrid (variant_of q) (base q) ops (_encoding q) (_ch_axis q).


Definition StaticGridPerChannelQuantizer_init (bitwidth : Z) (round_mode : string)
           (quant_scheme : QuantScheme) (use_symmetric_encodings : bool)
           (num_channels : nat) (enabled_by_default : bool) (ch_axis : nat)
           (data_type : QuantizationDataType) : StaticGridTensorQuantizer :=
  MkStaticGrid PerChannel
    (TensorQuantizer_init bitwidth round_mode quant_scheme use_symmetric_encodings
                          enabled_by_default data_type)
    (replicate num_channels (new_engine quant_scheme)) PyNone ch_axis.

(** The [encoding] getter: the per-tensor quantizer hands out its single
    encoding, the per-channel one its list. *)
Definition encoding (q : StaticGridTensorQuantizer) : res (pyenc R) :=
  match variant_of q with
  | PerTensor => if truthy (_encoding q) then getitem0 (_encoding q) else Ok PyNone
  | PerChannel => Ok (_encoding q)
  end.

Local Open Scope method_scope.

(** The [encoding] setter of [StaticGridTensorQuantizer], which
    [StaticGridPerChannelQuantizer] repeats. *)
Definition StaticGridTensorQuantizer_set_encoding (e : pyenc R)
  : method StaticGridTensorQuantizer unit :=
  q <-- m_get ;;
  if _is_encoding_frozen (base q) then
    m_raise (Exn RuntimeError "Encoding can be set only when it is not frozen.")
  else m_modify (with_encoding e).

(** The [encoding] setter of the quantizer at hand. *)
Definition set_encoding (e : pyenc R) : method StaticGridTensorQuantizer unit :=
  q <-- m_get ;;
  match variant_of q with
  | PerTensor =>
      if _is_encoding_frozen (base q) then
        m_raise (Exn RuntimeError "Encoding can be set only when it is not frozen.")
      else
        match e with
        | PyList [_] => m_modify (with_encoding e)
        | _ => m_modify (with_encoding (PyList [e]))
        end
  | PerChannel => StaticGridTensorQuantizer_set_encoding e
  end.

(** The loop of [compute_encoding] over the engines still to be asked;
    [self._encoding] is the list [acc] being appended to. *)
Fixpoint compute_encoding_loop (ops : list Engine) : method StaticGridTensorQuantizer unit :=
  match ops with
  | [] => m_ret tt
  | op :: ops' =>
      q <-- m_get ;;
      let r := getEncoding op (bitwidth (base q)) (use_symmetric_encodings (base q))
                           (use_strict_symmetric (base q))
                           (use_unsigned_symmetric (base q)) in
      (if negb r.2 then m_modify (with_base (set_enabled false))
       else
         match _encoding q with
         | PyList acc => m_modify (with_encoding (PyList (acc ++ [PyEnc r.1])))
         | PyNone => m_raise (Exn AttributeError "'NoneType' object has no attribute append")
         | PyEnc _ => m_raise (Exn AttributeError "'TfEncoding' object has no attribute append")
         end) ;;
      compute_encoding_loop ops'
  end.

Definition invalid_encoding_msg : string :=
  "At least one encoding for a multi-encoding quantizer is invalid.".

Definition compute_encoding : method StaticGridTensorQuantizer unit :=
  q <-- m_get ;;
  if enabled (base q) && negb (_is_encoding_frozen (base q)) then
    m_modify (with_encoding (PyList [])) ;;
    if decide (data_type (base q) = DT_float) then
      m_modify (with_encoding PyNone)
    else
      compute_encoding_loop (_cppOp q) ;;
      q' <-- m_get ;;
      if negb (enabled (base q')) && truthy (_encoding q') then
        m_lift (assert_ (negb (negb (enabled (base q')) && truthy (_encoding q')))
                  invalid_encoding_msg)
      else m_ret tt
  else m_ret tt.

Definition freeze_encoding : method StaticGridTensorQuantizer unit :=
  q <-- m_get ;;
  if negb (truthy (_encoding q)) then
    m_raise (Exn RuntimeError "Encoding can be frozen only when it is not None.")
  else m_modify (with_base (set_frozen true)).

Definition reset_encoding_stats : method StaticGridTensorQuantizer unit :=
  q <-- m_get ;;
  if negb (_is_encoding_frozen (base q)) then
    m_modify (with_cppOp (resetEncodingStats <$> _cppOp q)) ;;
    m_modify (with_encoding PyNone)
  else m_ret tt.

(** The [quant_scheme] setter. *)
Definition set_scheme (s : QuantScheme) : method StaticGridTensorQuantizer unit :=
  m_modify (with_base (set_quant_scheme s)) ;;
  q <-- m_get ;;
  m_lift (assert_ (bool_decide (_cppOp q <> [])) "") ;;
  m_modify (with_cppOp ((fun _ => new_engine s) <$> _cppOp q)).

(** The loop of the per-channel [update_encoding_stats] from channel [idx]
    on: engine [idx] is fed the slice of its channel. *)
Fixpoint update_channels (t : tensor R) (idx : nat) (ops : list Engine)
  : method StaticGridTensorQuantizer unit :=
  match ops with
  | [] => m_ret tt
  | op :: ops' =>
      q <-- m_get ;;
      tensor_slice <-- m_lift (tselect t (_ch_axis q) idx) ;;
      m_modify (with_cppOp (<[idx := updateStats op tensor_slice]> (_cppOp q))) ;;
      update_channels t (S idx) ops'
  end.

Definition update_encoding_stats (t : tensor R) : method StaticGridTensorQuantizer unit :=
  q <-- m_get ;;
  if enabled (base q) && negb (_is_encoding_frozen (base q)) then
    match variant_of q with
    | PerTensor => m_modify (with_cppOp ((fun op => updateStats op t) <$> _cppOp q))
    | PerChannel => update_channels t 0 (_cppOp q)
    end
  else m_ret tt.

(** *** The differentiable operator [QuantizeDequantize] *)

Local Open Scope res_scope.

Definition float16_only : exn := Exn ValueError "float data_type only supports bitwidth=16".

Definition _per_tensor_quantize_dequantize (t : tensor R) (q : StaticGridTensorQuantizer)
           (round_mode : string) : res (tensor R) :=
  if decide (data_type (base q) = DT_float) then
    if decide (bitwidth (base q) <> 16%Z) then Raise float16_only
    else Ok (half_float t)
  else
    match _cppOp q with
    | [] => Raise (Exn IndexError "list index out of range")
    | op :: _ =>
        e <- encoding q ;;;
        quantizeDequantize op t e round_mode
    end.

Fixpoint per_channel_loop (t : tensor R) (q : StaticGridTensorQuantizer)
         (round_mode : string) (index : nat) (ops : list Engine) : res (list (tensor R)) :=
  match ops with
  | [] => Ok []
  | op :: ops' =>
      tensor_slice <- tselect t (_ch_axis q) index ;;;
      e <- (match _encoding q with
            | PyList l =>
                match l !! index with
                | Some e => Ok e
                | None => Raise (Exn IndexError "list index out of range")
                end
            | PyNone => Raise (Exn TypeError "'NoneType' object is not subscriptable")
            | PyEnc _ => Raise (Exn TypeError "'TfEncoding' object is not subscriptable")
            end) ;;;
      computed_tensor <- quantizeDequantize op tensor_slice e round_mode ;;;
      rest <- per_channel_loop t q round_mode (S index) ops' ;;;
      Ok (computed_tensor :: rest)
  end.

Definition _per_channel_quantize_dequantize (t : tensor R) (q : StaticGridTensorQuantizer)
           (round_mode : string) : res (tensor R) :=
  if decide (data_type (base q) = DT_float) then
    if decide (bitwidth (base q) <> 16%Z) then Raise float16_only
    else Ok (half_float t)
  else
    quantized_tensors <- per_channel_loop t q round_mode 0 (_cppOp q) ;;;
    tstack quantized_tensors (_ch_axis q).

(** [QuantizeDequantize.forward]; the result is also what is saved for
    backward, next to the reference to the quantizer. *)
Definition QuantizeDequantize_forward (t : tensor R) (q : StaticGridTensorQuantizer)
           (round_mode : string) : res (tensor R) :=
  if enabled (base q) then
    match variant_of q with
    | PerChannel => _per_channel_quantize_dequantize t q round_mode
    | PerTensor => _per_tensor_quantize_dequantize t q round_mode
    end
  else Ok t.

(** [Tensor.clone()] copies the values. *)
Definition clone (t : tensor R) : tensor R := Tensor (shape t) (data t).

(** [StaticGridTensorQuantizer.quantize_dequantize] *)
Definition quantize_dequantize (q : StaticGridTensorQuantizer) (t : tensor R)
           (round_mode : string) : res (tensor R) :=
  output <- QuantizeDequantize_forward t q round_mode ;;;
  Ok (clone output).

(** Modelled from the spec: [quantsim_straight_through_grad.compute_dloss_by_dx]
    is not part of the sources at hand.  The spec (4.4, 8) gives the
    masked-gradient formula: an element outside [min, max] gets gradient
    exactly 0, any other element the upstream gradient unchanged. *)
Definition compute_dloss_by_dx (x grad : tensor R) (encoding_min encoding_max : R)
           (ch_axis : nat) : res (tensor R) :=
  if decide (shape x = shape grad) then
    Ok (Tensor (shape x)
          (zip_with (fun xi g => if leb encoding_min xi && leb xi encoding_max
                                 then g else of_Z 0)
                    (data x) (data grad)))
  else Raise (Exn RuntimeError "The size of tensor a must match the size of tensor b").

(** [QuantizeDequantize.backward]: [saved] is the tensor saved by forward,
    [q] the quantizer as it is when backward runs.  Only the first of the
    three results can differ from [None]. *)
Definition QuantizeDequantize_backward (saved : tensor R) (q : StaticGridTensorQuantizer)
           (output_grad : tensor R) : res (tensor R) :=
  if enabled (base q) && bool_decide (data_type (base q) = DT_int) then
    let ch_axis := match variant_of q with PerChannel => _ch_axis q | PerTensor => 0 end in
    e1 <- encoding q ;;;
    mn <- getattr "min" enc_min e1 ;;;
    e2 <- encoding q ;;;
    mx <- getattr "max" enc_max e2 ;;;
    compute_dloss_by_dx saved output_grad mn mx ch_axis
  else Ok output_grad.

End StaticGrid.
Arguments StaticGridTensorQuantizer R Engine : clear implicits.

Section StaticGridRest.
Context {R : Type} `{Scalar R}.
Context {Engine : Type}.
Context (new_engine : QuantScheme -> Engine).
Context (getStatsHistogram : Engine -> list (R * R)).
Context (setPercentileValue : Engine -> R -> Engine).
Context (quantize : Engine -> tensor R -> pyenc R -> string -> bool -> res (tensor R)).
(** [a < b] on the scalars of an encoding. *)
Context (ltb : R -> R -> bool).
Local Open Scope res_scope.

Abbreviation quantizer := (StaticGridTensorQuantizer R Engine).

(** *** Pickling *)

(** [PickableState]: the attribute dictionary without [_cppOp] and
    [_encoding], the number of engines, and the encodings as tuples when an
    encoding is present. *)
Record PickableState := MkPickableState {
  dict_variant : variant;
  dict_base : TensorQuantizer;
  dict_ch_axis : nat;
  num_channels : nat;
  encodings : option (list (R * R * R * R * Z));
}.

Definition encoding_tuple (v : pyenc R) : res (R * R * R * R * Z) :=
  mn <- getattr "min" enc_min v ;;;
  mx <- getattr "max" enc_max v ;;;
  dl <- getattr "delta" enc_delta v ;;;
  off <- getattr "offset" enc_offset v ;;;
  b <- getattr "bw" bw v ;;;
  Ok (mn, mx, dl, off, b).

Definition __getstate__ (q : quantizer) : res PickableState :=
  if truthy (_encoding q) then
    match _encoding q with
    | PyList l =>
        encs <- res_mapM encoding_tuple l ;;;
        Ok (MkPickableState (variant_of q) (base q) (_ch_axis q) (length (_cppOp q))
                            (Some encs))
    | _ => Raise (Exn TypeError "'TfEncoding' object is not iterable")
    end
  else Ok (MkPickableState (variant_of q) (base q) (_ch_axis q) (length (_cppOp q)) None).

Definition tuple_encoding (enc : R * R * R * R * Z) : pyenc R :=
  let '(enc_min, enc_max, delta, offset, bw) := enc in
  PyEnc (MkTfEncoding enc_min enc_max delta offset bw).

Definition __setstate__ (state : PickableState) : quantizer :=
  MkStaticGrid (dict_variant state) (dict_base state)
    (replicate (num_channels state) (new_engine (_quant_scheme (dict_base state))))
    (match encodings state with
     | Some encs => PyList (tuple_encoding <$> encs)
     | None => PyNone
     end)
    (dict_ch_axis state).

(** *** Histograms and percentile *)

Definition wrong_scheme_msg : string :=
  "get_stats_histogram() can be invoked only when quantization scheme is TF-Enhanced.".
Definition no_encoding_msg : string :=
  "get_stats_histogram() can be invoked only when encoding is computed.".

Definition get_stats_histogram (q : quantizer) : res (list (list (R * R))) :=
  if decide (_quant_scheme (base q) <> post_training_tf_enhanced) then
    Raise (Exn RuntimeError wrong_scheme_msg)
  else if negb (truthy (_encoding q)) then
    Raise (Exn RuntimeError no_encoding_msg)
  else Ok (getStatsHistogram <$> _cppOp q).

Definition set_percentile_value (percentile_value : R) : method quantizer unit :=
  m_modify (fun q => with_cppOp ((fun op => setPercentileValue op percentile_value)
                                   <$> _cppOp q) q).

(** *** The quantize-only operator [Quantize] *)

Definition Quantize_forward (t : tensor R) (q : quantizer) (round_mode : string)
  : res (tensor R) :=
  if enabled (base q) then
    shift_to_signed <-
      (if use_symmetric_encodings (base q) then
         e <- encoding q ;;;
         off <- getattr "offset" enc_offset e ;;;
         Ok (ltb off (of_Z 0))
       else Ok false) ;;;
    match _cppOp q with
    | [] => Raise (Exn IndexError "list index out of range")
    | op :: _ =>
        e <- encoding q ;;;
        quantize op t e round_mode shift_to_signed
    end
  else Ok t.

Definition Quantize_backward (output_grad : tensor R) : res (tensor R) :=
  Raise (Exn AssertionError "Backward pass for quantize only not implemented").

(** [StaticGridTensorQuantizer.quantize] *)
Definition quantize_only (q : quantizer) (t : tensor R) (round_mode : string)
  : res (tensor R) :=
  output <- Quantize_forward t q round_mode ;;;
  Ok (clone output).

End StaticGridRest.
Arguments PickableState R : clear implicits.
End Static.

(** ** The parameter-quantization operator *)

Module ParameterQuantizer.
Section ParameterQuantizer.
Context {R : Type} `{Scalar R}.
Import Learned.

(** [grad_fn.LearnedGridParams], a plain carrier of its four arguments. *)
Record LearnedGridParams := MkLearnedGridParams {
  gp_scaling : tensor R;
  gp_offset : tensor R;
  gp_n : R;
  gp_p : R;
}.

(** The gradient formulas of [quantsim_straight_through_grad] that
    [compute_gradients] calls are not part of the sources at hand; they are
    taken as given and assumed to return. *)
Context {IntermediateResult : Type}.
Context (compute_intermediate_result_for_learned_grid :
           tensor R -> tensor R -> tensor R -> IntermediateResult).
Context (compute_dloss_by_dx_using_scale_offset :
           tensor R -> tensor R -> LearnedGridParams -> tensor R).
Context (compute_dloss_by_dmax compute_dloss_by_dmin :
           tensor R -> tensor R -> IntermediateResult -> LearnedGridParams -> nat -> tensor R).

(** A parameter of the wrapped layer: its values and its [grad]. *)
Record LayerParam := MkLayerParam {
  param_values : tensor R;
  param_grad : option (tensor R);
}.

(** The part of [LearnedGridQuantWrapper] the operator touches. *)
Record Wrapper := MkWrapper {
  named_parameters : list (string * LayerParam);
  param_quantizers : gmap string (LearnedGridTensorQuantizer R);
  _is_replica : bool;
}.

Local Open Scope res_scope.

Definition broadcast_if_vector (t v : tensor R) (channel_axis : nat) : res (tensor R) :=
  l <- len v ;;;
  if decide (1 < l) then
    if decide (1 < length (shape t)) then broadcast_to_tensor t v channel_axis
    else Ok v
  else Ok v.

(** [compute_gradients]: the gradients of the encoding min and max, and the
    value assigned to [tensor.grad]. *)
Definition compute_gradients (t : tensor R) (tensor_quantizer : LearnedGridTensorQuantizer R)
           (grad : tensor R) : res (tensor R * tensor R * tensor R) :=
  match scaling tensor_quantizer, offset tensor_quantizer with
  | Some scaling, Some offset =>
      let channel_axis := _ch_axis tensor_quantizer in
      scaling <- broadcast_if_vector t scaling channel_axis ;;;
      offset <- broadcast_if_vector t offset channel_axis ;;;
      let grid_params := MkLearnedGridParams scaling offset (n tensor_quantizer)
                                             (p tensor_quantizer) in
      let intermediate_result :=
        compute_intermediate_result_for_learned_grid t scaling offset in
      let new_grad := compute_dloss_by_dx_using_scale_offset t grad grid_params in
      let tensor_encoding_max_grad :=
        compute_dloss_by_dmax t grad intermediate_result grid_params channel_axis in
      let tensor_encoding_min_grad :=
        compute_dloss_by_dmin t grad intermediate_result grid_params channel_axis in
      Ok (tensor_encoding_min_grad, tensor_encoding_max_grad, new_grad)
  | _, _ => Raise (Exn TypeError "object of type 'NoneType' has no len()")
  end.

Definition lookup_quantizer (w : Wrapper) (name : string)
  : res (LearnedGridTensorQuantizer R) :=
  match param_quantizers w !! name with
  | Some q => Ok q
  | None => Raise (Exn KeyError name)
  end.

Definition set_named_parameter (index : nat) (name : string) (v : LayerParam) (w : Wrapper)
  : Wrapper :=
  MkWrapper (<[index := (name, v)]> (named_parameters w)) (param_quantizers w)
            (_is_replica w).

Definition set_quantizer (name : string) (q : LearnedGridTensorQuantizer R) (w : Wrapper)
  : Wrapper :=
  MkWrapper (named_parameters w) (<[name := q]> (param_quantizers w)) (_is_replica w).

Definition list_get {A} (l : list A) (i : nat) : res A :=
  match l !! i with
  | Some x => Ok x
  | None => Raise (Exn IndexError "tuple index out of range")
  end.

Local Open Scope method_scope.

(** The loop of [quantize_parameters] from position [index] on. *)
Fixpoint quantize_parameters_loop (encoding_params : list (option (tensor R)))
         (index : nat) (todo : list (string * LayerParam)) : method Wrapper unit :=
  match todo with
  | [] => m_ret tt
  | (name, param) :: todo' =>
      w <-- m_get ;;
      q <-- m_lift (lookup_quantizer w name) ;;
      (if enabled (Learned.base q) then
         encoding_min <-- m_lift (list_get encoding_params (index * 2)) ;;
         encoding_max <-- m_lift (list_get encoding_params (index * 2 + 1)) ;;
         so <-- m_lift (match encoding_min, encoding_max with
                       | Some mn, Some mx => compute_scaling_offset q mn mx
                       | _, _ => Raise (Exn TypeError "unsupported operand type(s) for -")
                       end) ;;
         let q' := with_scaling_offset so.1 so.2 q in
         m_modify (set_quantizer name q') ;;
         new_data <-- m_lift (Learned.quantize_dequantize q' (param_values param)
                                encoding_min encoding_max) ;;
         m_modify (set_named_parameter index name (MkLayerParam new_data (param_grad param)))
       else m_ret tt) ;;
      quantize_parameters_loop encoding_params (S index) todo'
  end.

Definition quantize_parameters (encoding_params : list (option (tensor R)))
  : method Wrapper unit :=
  w <-- m_get ;;
  quantize_parameters_loop encoding_params 0 (named_parameters w).

(** The loop of [backward_pass_for_parameters]; [param_encoding_grads] is
    the list being appended to. *)
Fixpoint backward_loop (index : nat) (todo : list (string * LayerParam))
         (param_encoding_grads : list (option (tensor R)))
  : method Wrapper (list (option (tensor R))) :=
  match todo with
  | [] => m_ret param_encoding_grads
  | (name, param) :: todo' =>
      w <-- m_get ;;
      param_quantizer <-- m_lift (lookup_quantizer w name) ;;
      acc <-- (if enabled (Learned.base param_quantizer) then
                 match param_grad param with
                 | Some g =>
                     r <-- m_lift (compute_gradients (param_values param)
                                     param_quantizer g) ;;
                     m_modify (set_named_parameter index name
                                 (MkLayerParam (param_values param) (Some r.2))) ;;
                     m_ret (param_encoding_grads ++ [Some r.1.1; Some r.1.2])
                 | None => m_ret (param_encoding_grads ++ [None; None])
                 end
               else m_ret param_encoding_grads) ;;
      backward_loop (S index) todo' acc
  end.

Definition backward_pass_for_parameters : method Wrapper (list (option (tensor R))) :=
  w <-- m_get ;;
  backward_loop 0 (named_parameters w) [].

(** [ParameterQuantizer.forward]: the input is returned as it is. *)
Definition forward (input_tensor : tensor R) (encoding_params : list (option (tensor R)))
  : method Wrapper (tensor R) :=
  quantize_parameters encoding_params ;;
  m_ret input_tensor.

(** [ParameterQuantizer.backward]: the gradients of the inputs, [None] for
    the wrapper, then the encoding gradients. *)
Definition backward (output_grad : list (option (tensor R)))
  : method Wrapper (list (option (tensor R))) :=
  param_encoding_grads <-- backward_pass_for_parameters ;;
  m_ret (output_grad ++ None :: param_encoding_grads).

End ParameterQuantizer.
Arguments LayerParam R : clear implicits.
Arguments Wrapper R : clear implicits.
Arguments LearnedGridParams R : clear implicits.
End ParameterQuantizer.

(** ** Exact rationals as scalars, to run the code *)

Module QScalar.

(** Round half to even, as [torch.round] does. *)
Definition Qround_half_even (x : Q) : Z :=
  let f := Qfloor x in
  match Qcompare (x - inject_Z f) (1 # 2) with
  | Lt => f
  | Gt => (f + 1)%Z
  | Eq => if Z.even f then f else (f + 1)%Z
  end.

(** Conversion to an integer type: truncation, then wrap-around. *)
Definition wrap (dt : dtype) (z : Z) : Z :=
  match dt with
  | uint8 => z mod 256
  | int8 => (z + 128) mod 256 - 128
  | int16 => (z + 32768) mod 65536 - 32768
  | int32 => (z + 2147483648) mod 4294967296 - 2147483648
  | float32 => z
  end%Z.

(** The nearest single-precision number (24 significant bits, ties to even,
    subnormals below [2^-126]).  Magnitudes beyond the single-precision range,
    which the runtime turns into infinities, are not covered by exact
    rationals. *)
Definition Qfloat32 (x : Q) : Q :=
  if Qeq_bool x 0 then 0%Q
  else
    let a := Qabs x in
    let e0 := (Z.log2 (Qnum a) - Z.log2 (Zpos (Qden a)))%Z in
    let e := if Qle_bool (Qpower 2 e0) a then e0 else (e0 - 1)%Z in
    let quantum := Qpower 2 (Z.max e (-126) - 23) in
    Qred (inject_Z (Qround_half_even (x / quantum)) * quantum).

Definition Qcast (dt : dtype) (x : Q) : Q :=
  match dt with
  | float32 => Qfloat32 x
  | _ => inject_Z (wrap dt (Z.quot (Qnum x) (Zpos (Qden x))))
  end.

#[global] Instance Q_Scalar : Scalar Q := {|
  of_Z := inject_Z;
  add x y := Qred (x + y);
  sub x y := Qred (x - y);
  mul x y := Qred (x * y);
  div x y := Qred (x / y);
  neg x := Qred (- x);
  round x := inject_Z (Qround_half_even x);
  pow x k := Qred (Qpower x k);
  leb := Qle_bool;
  cast := Qcast;
|}.

Definition qt (s : list nat) (l : list Z) : tensor Q := Tensor s (inject_Z <$> l).

End QScalar.

(** * Verified properties *)

(** ** Bounds [n] and [p] of the learned grid *)

Section LearnedGridBounds.
Context {R : Type} `{Scalar R}.


End LearnedGridBounds.

Lemma Qred_inject_Z (z : Z) : Qred (inject_Z z) = inject_Z z.
Proof.
  unfold Qred, inject_Z; simpl.
  pose proof (Z.ggcd_gcd z 1) as Hg.
  pose proof (Z.ggcd_correct_divisors z 1) as Hd.
  destruct (Z.ggcd z 1) as [g [a b]]; simpl in *.
  rewrite Z.gcd_1_r in Hg; subst g.
  destruct Hd as [-> Hb]. rewrite Z.mul_1_l in Hb. subst b.
  by rewrite Z.mul_1_l.
Qed.

(** With exact scalars the upper bound is the number [2^b - 1]. *)
Lemma get_n_and_p_exact (b : Z) (sym : bool) :
  (0 <= b)%Z ->
  Learned.get_n_and_p (R := Q) b sym false = Ok (inject_Z 0, inject_Z (2 ^ b - 1)).
Proof.
  intros Hb. unfold Learned.get_n_and_p. rewrite !andb_false_r.
  assert (Hp : sub (pow (of_Z 2) b) (of_Z 1) = inject_Z (2 ^ b - 1)).
  { cbn. rewrite <- (Qred_inject_Z (2 ^ b - 1)). apply Qred_complete.
    rewrite Qred_correct. unfold Z.sub. rewrite inject_Z_plus, inject_Z_opp.
    rewrite (Zpower_Qpower 2 b Hb). reflexivity. }
  by rewrite Hp.
Qed.

(** ** The encoding setter of the learned-grid quantizer *)

Section LearnedGridSetter.
Context {R : Type} `{Scalar R}.
Import Learned.

(** The encoding whose [bw] the setter reads: the encoding itself, or the
    first one of a list. *)
Definition first_encoding (v : pyenc R) : option (TfEncoding R) :=
  match v with
  | PyEnc e => Some e
  | PyList (PyEnc e :: _) => Some e
  | _ => None
  end.

Ltac run_method :=
  cbv [set_encoding _set_encoding_min_max_parameters _set_p_and_n on_quantizer
       set_param m_bind m_get m_ret m_raise m_lift m_modify assert_] in *;
  cbn [quantizer _parameters base with_base with_n_p set_bitwidth bitwidth
       enabled _is_encoding_frozen use_symmetric_encodings use_strict_symmetric
       name n p fst snd] in *.

(** C9: on a disabled learned-grid quantizer the encoding setter changes
    nothing and raises nothing, whatever is assigned ([None] included) and
    whether or not the quantizer is frozen. *)
Theorem set_encoding_disabled_noop (st : State R) (encoding : pyenc R) :
  enabled (base (quantizer st)) = false ->
  set_encoding encoding st = (Ok tt, st).
Proof. intros Hd. run_method. by rewrite Hd. Qed.

(** C10: a successful assignment to an enabled, unfrozen learned-grid
    quantizer leaves the stored bitwidth equal to the [bw] of the assigned
    encoding (of the first one for a list), [n] and [p] are those computed
    from that bitwidth, and a failing assignment never fails with the
    bitwidth-mismatch assertion of [_set_p_and_n]. *)
Theorem set_encoding_overwrites_bitwidth (st : State R) (encoding : pyenc R) :
  enabled (base (quantizer st)) = true ->
  _is_encoding_frozen (base (quantizer st)) = false ->
  match set_encoding encoding st with
  | (Ok _, st') =>
      exists e0, first_encoding encoding = Some e0 /\
                 bitwidth (base (quantizer st')) = bw e0 /\
                 get_n_and_p (bw e0) (use_symmetric_encodings (base (quantizer st)))
                             (use_strict_symmetric (base (quantizer st)))
                 = Ok (n (quantizer st'), p (quantizer st'))
  | (Raise e, _) => e <> Exn AssertionError bitwidth_mismatched
  end.
Proof.
  intros He Hf. destruct st as [q ps].
  destruct encoding as [|e|[|[|e0|l0] l]]; run_method; rewrite He, ?Hf; cbn;
    try discriminate.
  - rewrite bool_decide_eq_true_2 by done.
    destruct (get_n_and_p _ _ _) as [[n' p']|err] eqn:Hnp; cbn.
    + exists e. by rewrite Hnp.
    + unfold get_n_and_p in Hnp. repeat case_match; simplify_eq. discriminate.
  - destruct (res_mapM (getattr "min" enc_min) l) as [mins|err] eqn:Hmin; cbn.
    2:{ clear -Hmin. induction l as [|x l IH] in err, Hmin |- *; [done|].
        cbn in Hmin. destruct x; cbn in Hmin; simplify_eq; try discriminate.
        destruct (res_mapM _ l); cbn in Hmin; simplify_eq. by eapply IH. }
    destruct (res_mapM (getattr "max" enc_max) l) as [maxs|err] eqn:Hmax; cbn.
    2:{ clear -Hmax. induction l as [|x l IH] in err, Hmax |- *; [done|].
        cbn in Hmax. destruct x; cbn in Hmax; simplify_eq; try discriminate.
        destruct (res_mapM _ l); cbn in Hmax; simplify_eq. by eapply IH. }
    rewrite bool_decide_eq_true_2 by done.
    destruct (get_n_and_p _ _ _) as [[n' p']|err] eqn:Hnp; cbn.
    + exists e0. by rewrite Hnp.
    + unfold get_n_and_p in Hnp. repeat case_match; simplify_eq. discriminate.
Qed.

End LearnedGridSetter.

(** ** Static-grid quantizers: computing and freezing the encoding *)

Section StaticGridFacts.
Context {R : Type} `{Scalar R}.
Context {Engine : Type}.
Context (new_engine : QuantScheme -> Engine).
Context (getEncoding : Engine -> Z -> bool -> bool -> bool -> TfEncoding R * bool).
Context (updateStats : Engine -> tensor R -> Engine).
Context (resetEncodingStats : Engine -> Engine).
Import Static.

Abbreviation quantizer := (StaticGridTensorQuantizer R Engine).

Ltac run_method :=
  cbv [Static.set_encoding StaticGridTensorQuantizer_set_encoding compute_encoding
       freeze_encoding reset_encoding_stats set_scheme update_encoding_stats
       m_bind m_get m_ret m_raise m_lift m_modify assert_] in *;
  cbn [base with_base with_encoding with_cppOp _encoding _cppOp variant_of _ch_axis
       set_enabled set_frozen set_quant_scheme enabled _is_encoding_frozen
       data_type bitwidth fst snd] in *.

(** What the engine [op] answers to the query of quantizer [q]. *)
Definition answer (q : quantizer) (op : Engine) : TfEncoding R * bool :=
  getEncoding op (bitwidth (base q)) (use_symmetric_encodings (base q))
              (use_strict_symmetric (base q)) (use_unsigned_symmetric (base q)).

(** The encodings of the engines that report a valid one, in engine order. *)
Definition valid_encodings (q : quantizer) (ops : list Engine) : list (pyenc R) :=
  (fun r => PyEnc r.1) <$> filter (fun r => r.2 = true) (answer q <$> ops).

Definition all_valid (q : quantizer) (ops : list Engine) : bool :=
  forallb (fun op => (answer q op).2) ops.

Lemma compute_encoding_loop_spec (ops : list Engine) (q : quantizer) (acc : list (pyenc R)) :
  _encoding q = PyList acc ->
  compute_encoding_loop getEncoding ops q =
  (Ok tt,
   with_base (set_enabled (enabled (base q) && all_valid q ops))
             (with_encoding (PyList (acc ++ valid_encodings q ops)) q)).
Proof.
  revert q acc. induction ops as [|op ops IH]; intros q acc Hacc.
  - cbn. rewrite app_nil_r, andb_true_r. destruct q as [v [] ops e ax].
    cbn in *. by subst.
  - cbn [compute_encoding_loop]. unfold m_bind at 1. unfold m_get at 1.
    unfold m_bind at 1.
    unfold valid_encodings, all_valid. cbn [fmap list_fmap forallb].
    fold (answer q op). rewrite filter_cons.
    destruct (answer q op) as [e valid] eqn:Hans. cbn [fst snd negb].
    destruct valid; cbn [negb].
    + rewrite Hacc. unfold m_modify at 1.
      erewrite IH by reflexivity.
      destruct (decide (true = true)) as [_|]; [|done].
      cbn [fmap list_fmap]. rewrite <- app_assoc. cbn [app fst].
      destruct q as [v [] ops' e' ax]; reflexivity.
    + unfold m_modify at 1.
      erewrite IH by (cbn; exact Hacc).
      destruct (decide (false = true)) as [|_]; [done|].
      rewrite andb_false_r.
      destruct q as [v [] ops' e' ax]; reflexivity.
Qed.

(** C4: on an enabled, unfrozen static-grid quantizer [compute_encoding]
    sets the encoding to [None] for the float data type; for the integer
    data type it asks every engine and keeps the valid encodings in engine
    order, the quantizer stays enabled exactly when every engine reported a
    valid encoding, and the call fails with an assertion error exactly when
    the quantizer ended up disabled with a non-empty list of encodings. *)
Theorem compute_encoding_spec (q : quantizer) :
  enabled (base q) = true ->
  _is_encoding_frozen (base q) = false ->
  compute_encoding getEncoding q =
  match data_type (base q) with
  | DT_float => (Ok tt, with_encoding PyNone q)
  | DT_int =>
      let q' := with_base (set_enabled (all_valid q (_cppOp q)))
                          (with_encoding (PyList (valid_encodings q (_cppOp q))) q) in
      if negb (all_valid q (_cppOp q)) && truthy (PyList (valid_encodings q (_cppOp q)))
      then (Raise (Exn AssertionError invalid_encoding_msg), q')
      else (Ok tt, q')
  end.
Proof.
  intros He Hf. run_method. rewrite He, Hf. cbn [andb negb].
  destruct (data_type (base q)) eqn:Hdt; cbn.
  - destruct (decide (DT_int = DT_float)) as [?|_]; [done|].
    rewrite (compute_encoding_loop_spec _ _ []) by done.
    cbn [app base with_base with_encoding enabled set_enabled _encoding].
    assert (Hsame : forall ops,
               valid_encodings (with_encoding (PyList []) q) ops = valid_encodings q ops
               /\ all_valid (with_encoding (PyList []) q) ops = all_valid q ops)
      by (by destruct q).
    destruct (Hsame (_cppOp q)) as [-> ->]. rewrite He. cbn [andb].
    destruct (all_valid q (_cppOp q)); cbn [negb andb].
    + by destruct q.
    + destruct (valid_encodings q (_cppOp q)); cbn; by destruct q.
  - destruct (decide (DT_float = DT_float)) as [_|]; [|done]. by destruct q.
Qed.

End StaticGridFacts.

Section StaticGridFreeze.
Context {R : Type} `{Scalar R}.
Context {Engine : Type}.
Context (new_engine : QuantScheme -> Engine).
Context (getEncoding : Engine -> Z -> bool -> bool -> bool -> TfEncoding R * bool).
Context (updateStats : Engine -> tensor R -> Engine).
Context (resetEncodingStats : Engine -> Engine).
Import Static.

Abbreviation quantizer := (StaticGridTensorQuantizer R Engine).

(** What a client can do to a static-grid quantizer between two forward
    passes. *)
Inductive op :=
| AssignEncoding (e : pyenc R)
| ComputeEncoding
| FreezeEncoding
| ResetEncodingStats
| UpdateEncodingStats (t : tensor R)
| AssignQuantScheme (s : QuantScheme)
| AssignEnabled (b : bool).



Ltac run_method :=
  cbv [Static.set_encoding StaticGridTensorQuantizer_set_encoding compute_encoding
       freeze_encoding reset_encoding_stats set_scheme update_encoding_stats
       m_bind m_get m_ret m_raise m_lift m_modify assert_] in *;
  cbn [base with_base with_encoding with_cppOp _encoding _cppOp variant_of _ch_axis
       set_enabled set_frozen set_quant_scheme enabled _is_encoding_frozen
       data_type bitwidth fst snd] in *.








End StaticGridFreeze.

(** ** The static-grid operator [QuantizeDequantize] *)

Section StaticGridOperator.
Context {R : Type} `{Scalar R}.
Context {Engine : Type}.
Context (quantizeDequantize : Engine -> tensor R -> pyenc R -> string -> res (tensor R)).
Context (half_float : tensor R -> tensor R).
Import Static.

Abbreviation quantizer := (StaticGridTensorQuantizer R Engine).

(** The masked gradient of one element. *)
Definition masked (mn mx x g : R) : R :=
  if leb mn x && leb x mx then g else of_Z 0.

(** With a per-tensor quantizer that holds an encoding, backward passes the
    upstream gradient where the saved value lies in [min, max] of the stored
    encoding and 0 elsewhere. *)
Lemma backward_per_tensor_masked (saved : tensor R) (q : quantizer) (g : tensor R)
      (e : TfEncoding R) (l : list (pyenc R)) :
  variant_of q = PerTensor ->
  enabled (base q) = true ->
  data_type (base q) = DT_int ->
  _encoding q = PyList (PyEnc e :: l) ->
  shape saved = shape g ->
  exists out,
    QuantizeDequantize_backward saved q g = Ok out
    /\ shape out = shape g
    /\ forall i x gi, data saved !! i = Some x -> data g !! i = Some gi ->
                      data out !! i = Some (masked (enc_min e) (enc_max e) x gi).
Proof.
  intros Hv He Hdt Henc Hsh.
  unfold QuantizeDequantize_backward, encoding, compute_dloss_by_dx.
  rewrite He, Hdt, Hv, Henc. cbn.
  destruct (decide (shape saved = shape g)) as [_|]; [|done].
  eexists; split; [reflexivity|]. split; [done|].
  intros i x gi Hx Hg. cbn. rewrite lookup_zip_with, Hx. cbn. by rewrite Hg.
Qed.

Definition list_has_no_min : exn :=
  Exn AttributeError "'list' object has no attribute min".

(** C3 (the per-channel half): with an enabled integer per-channel
    quantizer that holds its list of encodings, backward does not compute a
    gradient: reading [min] off the list of encodings raises. *)
Theorem backward_per_channel_raises (saved : tensor R) (q : quantizer) (g : tensor R)
        (l : list (pyenc R)) :
  variant_of q = PerChannel ->
  enabled (base q) = true ->
  data_type (base q) = DT_int ->
  _encoding q = PyList l ->
  QuantizeDequantize_backward saved q g = Raise list_has_no_min.
Proof.
  intros Hv He Hdt Henc. unfold QuantizeDequantize_backward, encoding.
  by rewrite He, Hdt, Hv, Henc.
Qed.

End StaticGridOperator.

(** ** A disabled quantizer is the identity *)

Section Disabled.
Context {R : Type} `{Scalar R}.
Context {Engine : Type}.
Context (quantizeDequantize : Engine -> tensor R -> pyenc R -> string -> res (tensor R)).
Context (half_float : tensor R -> tensor R).

Definition forward_mismatch : exn :=
  Exn RuntimeError
      "Forward pass used for compute_encodings differs from forward pass used during training".

(** C6: with [enabled = False] the static-grid [quantize_dequantize] and
    the learned-grid [quantize_dequantize] both return the tensor they were
    given, unchanged; the enabled learned-grid quantizer raises when the
    encoding min or max is [None]. *)
Theorem disabled_is_identity (sq : Static.StaticGridTensorQuantizer R Engine)
        (lq : Learned.LearnedGridTensorQuantizer R) (t : tensor R) (round_mode : string)
        (encoding_min encoding_max : option (tensor R)) :
  (enabled (Static.base sq) = false ->
   Static.QuantizeDequantize_forward quantizeDequantize half_float t sq round_mode = Ok t
   /\ Static.quantize_dequantize quantizeDequantize half_float sq t round_mode = Ok t)
  /\ (enabled (Learned.base lq) = false ->
      Learned.quantize_dequantize lq t encoding_min encoding_max = Ok t)
  /\ (enabled (Learned.base lq) = true ->
      encoding_min = None \/ encoding_max = None ->
      Learned.quantize_dequantize lq t encoding_min encoding_max = Raise forward_mismatch).
Proof.
  split; [|split].
  - intros Hd. unfold Static.quantize_dequantize, Static.QuantizeDequantize_forward.
    rewrite Hd. cbn. by destruct t.
  - intros Hd. unfold Learned.quantize_dequantize. by rewrite Hd.
  - intros He Hn. unfold Learned.quantize_dequantize. rewrite He.
    destruct Hn as [-> | ->]; [by destruct encoding_max | by destruct encoding_min].
Qed.

End Disabled.

(** ** Encoding gradients of the parameter-quantization operator *)

Section ParameterGradients.
Context {R : Type} `{Scalar R}.
Context {IntermediateResult : Type}.
Context (compute_intermediate_result_for_learned_grid :
           tensor R -> tensor R -> tensor R -> IntermediateResult).
Context (compute_dloss_by_dx_using_scale_offset :
           tensor R -> tensor R -> ParameterQuantizer.LearnedGridParams R -> tensor R).
Context (compute_dloss_by_dmax compute_dloss_by_dmin :
           tensor R -> tensor R -> IntermediateResult ->
           ParameterQuantizer.LearnedGridParams R -> nat -> tensor R).
Import ParameterQuantizer.

Abbreviation quantizers := (gmap string (Learned.LearnedGridTensorQuantizer R)).
Abbreviation gradients :=
  (compute_gradients compute_intermediate_result_for_learned_grid
     compute_dloss_by_dx_using_scale_offset compute_dloss_by_dmax compute_dloss_by_dmin).
Abbreviation backward_pass :=
  (backward_pass_for_parameters compute_intermediate_result_for_learned_grid
     compute_dloss_by_dx_using_scale_offset compute_dloss_by_dmax compute_dloss_by_dmin).

(** The entries one named parameter contributes: nothing when its quantizer
    is disabled, a pair of [None] when it is enabled and the parameter has no
    gradient, its encoding-min and encoding-max gradients otherwise. *)
Definition pair_of (qs : quantizers) (np : string * LayerParam R)
  : list (option (tensor R)) :=
  match qs !! np.1 with
  | Some q =>
      if enabled (Learned.base q) then
        match param_grad np.2 with
        | Some g =>
            match gradients (param_values np.2) q g with
            | Ok r => [Some r.1.1; Some r.1.2]
            | Raise _ => []
            end
        | None => [None; None]
        end
      else []
  | None => []
  end.

Definition enabled_pairs (w : Wrapper R) : list (option (tensor R)) :=
  flat_map (pair_of (param_quantizers w)) (named_parameters w).

(** The claim read literally: one pair for every named parameter, a pair
    of [None] for every parameter without a computed gradient. *)
Definition pair_per_parameter (qs : quantizers) (np : string * LayerParam R)
  : list (option (tensor R)) :=
  match pair_of qs np with
  | [Some mn; Some mx] => [Some mn; Some mx]
  | _ => [None; None]
  end.

Definition pairs_per_parameter (w : Wrapper R) : list (option (tensor R)) :=
  flat_map (pair_per_parameter (param_quantizers w)) (named_parameters w).

(** Every named parameter has a quantizer, and the gradient computation
    succeeds wherever backward runs it. *)
Definition computable (qs : quantizers) (np : string * LayerParam R) : bool :=
  match qs !! np.1 with
  | Some q =>
      negb (enabled (Learned.base q)) ||
      match param_grad np.2 with
      | Some g => match gradients (param_values np.2) q g with
                  | Ok _ => true
                  | Raise _ => false
                  end
      | None => true
      end
  | None => false
  end.

Definition gradients_computable (w : Wrapper R) : bool :=
  forallb (computable (param_quantizers w)) (named_parameters w).

Definition all_enabled (w : Wrapper R) : bool :=
  forallb (fun np : string * LayerParam R =>
             match param_quantizers w !! np.1 with
             | Some q => enabled (Learned.base q)
             | None => false
             end) (named_parameters w).

Lemma backward_loop_spec (todo : list (string * LayerParam R)) (index : nat)
      (acc : list (option (tensor R))) (w : Wrapper R) :
  forallb (computable (param_quantizers w)) todo = true ->
  exists w',
    backward_loop compute_intermediate_result_for_learned_grid
      compute_dloss_by_dx_using_scale_offset compute_dloss_by_dmax compute_dloss_by_dmin
      index todo acc w
    = (Ok (acc ++ flat_map (pair_of (param_quantizers w)) todo), w')
    /\ param_quantizers w' = param_quantizers w.
Proof.
  revert index acc w. induction todo as [|[name param] todo IH]; intros index acc w Hc.
  - exists w. cbn. by rewrite app_nil_r.
  - cbn [forallb] in Hc. apply andb_true_iff in Hc as [Hc1 Hc2].
    cbn [backward_loop flat_map].
    unfold computable in Hc1. unfold pair_of at 1. cbn [fst snd] in *.
    cbv [m_bind m_get m_lift lookup_quantizer].
    destruct (param_quantizers w !! name) as [q|] eqn:Hq; [|done].
    destruct (enabled (Learned.base q)) eqn:He; cbn [negb orb] in Hc1.
    + destruct (param_grad param) as [g|] eqn:Hg.
      * destruct (gradients (param_values param) q g) as [r|] eqn:Hr; [|done].
        cbv [m_modify m_ret].
        set (w1 := set_named_parameter index name _ w).
        destruct (IH (S index) (acc ++ [Some r.1.1; Some r.1.2]) w1 Hc2)
          as (w' & Hrun & Hqs).
        exists w'. rewrite Hrun. split; [|done].
        by rewrite <- app_assoc.
      * cbv [m_ret].
        destruct (IH (S index) (acc ++ [None; None]) w Hc2) as (w' & Hrun & Hqs).
        exists w'. rewrite Hrun. split; [|done]. by rewrite <- app_assoc.
    + cbv [m_ret]. destruct (IH (S index) acc w Hc2) as (w' & Hrun & Hqs).
      exists w'. by rewrite Hrun.
Qed.

Lemma flat_map_chunks {A B} (f : A -> list B) (l : list A) (i : nat) (x : A) :
  (forall y, y ∈ l -> length (f y) = 2) ->
  l !! i = Some x ->
  take 2 (drop (i * 2) (flat_map f l)) = f x.
Proof.
  revert i. induction l as [|y l IH]; intros i Hlen Hi; [done|].
  assert (Hy : length (f y) = 2) by (apply Hlen; left).
  destruct i as [|i]; cbn in Hi; cbn [flat_map].
  - simplify_eq. change (0 * 2) with 0. rewrite drop_0.
    by rewrite take_app_length'.
  - replace (S i * 2) with (length (f y) + i * 2) by lia.
    rewrite drop_app_add. apply IH; [|done].
    intros z Hz. apply Hlen. by right.
Qed.

(** C8 (as the code has it): backward returns, in the order of the
    wrapper's named parameters, one pair for every parameter whose quantizer
    is enabled (its encoding-min and encoding-max gradients, or a pair of
    [None] when the parameter received no gradient) and nothing for a
    parameter whose quantizer is disabled; when every quantizer is enabled,
    the pair of parameter [i] sits at positions [2i] and [2i+1], the
    positions forward reads its encoding min and max from. *)
Theorem backward_pass_enabled_pairs (w : Wrapper R) :
  gradients_computable w = true ->
  exists w',
    backward_pass w = (Ok (enabled_pairs w), w')
    /\ param_quantizers w' = param_quantizers w
    /\ (all_enabled w = true ->
        length (enabled_pairs w) = 2 * length (named_parameters w)
        /\ forall i np, named_parameters w !! i = Some np ->
                        take 2 (drop (i * 2) (enabled_pairs w))
                        = pair_per_parameter (param_quantizers w) np).
Proof.
  intros Hc. unfold backward_pass_for_parameters. cbv [m_bind m_get].
  destruct (backward_loop_spec (named_parameters w) 0 [] w Hc) as (w' & Hrun & Hqs).
  exists w'. rewrite Hrun. split; [done|]. split; [done|].
  intros Hall.
  assert (Hlen : forall y, y ∈ named_parameters w ->
                           length (pair_of (param_quantizers w) y) = 2
                           /\ pair_per_parameter (param_quantizers w) y
                              = pair_of (param_quantizers w) y).
  { intros y Hy. unfold gradients_computable, all_enabled in *.
    rewrite forallb_forall in Hc, Hall.
    apply list_elem_of_In in Hy. specialize (Hc y Hy). specialize (Hall y Hy).
    unfold pair_per_parameter, pair_of, computable in *.
    destruct (param_quantizers w !! y.1) as [q|]; [|done].
    rewrite Hall in *. cbn in Hc.
    destruct (param_grad y.2); [|done].
    by destruct (gradients _ _ _). }
  split.
  - unfold enabled_pairs. clear -Hlen.
    induction (named_parameters w) as [|y l IH]; [done|].
    cbn. rewrite length_app, IH.
    + destruct (Hlen y) as [-> _]; [left|]. lia.
    + intros z Hz. apply Hlen. by right.
  - intros i np Hi. unfold enabled_pairs.
    rewrite (flat_map_chunks _ _ i np); [| intros y Hy; by apply Hlen | done].
    symmetry. apply Hlen. by eapply list_elem_of_lookup_2.
Qed.

End ParameterGradients.

(** ** Tensors: positions, broadcasting and elementwise operations *)

Section TensorFacts.
Context {R : Type} `{Scalar R}.

Lemma chan_of_lt (s : list nat) (axis i d : nat) :
  s !! axis = Some d -> i < numel s -> chan_of s axis i < d.
Proof.
  unfold chan_of. revert axis i. induction s as [|d0 s IH]; intros axis i Hd Hi; [done|].
  cbn [numel foldr] in Hi. fold (numel s) in Hi.
  assert (numel s <> 0) by (intros E; rewrite E in Hi; lia).
  destruct axis as [|axis]; cbn in Hd |- *.
  - simplify_eq. apply Nat.Div0.div_lt_upper_bound. lia.
  - apply IH; [done|]. by apply Nat.mod_upper_bound.
Qed.

Lemma zip_with_imap_seq {A B C} (f : A -> B -> C) (F : nat -> R -> A) (G : nat -> B)
      (d : list R) :
  zip_with f (imap F d) (G <$> seq 0 (length d)) = imap (fun i x => f (F i x) (G i)) d.
Proof.
  apply list_eq; intros i.
  rewrite lookup_zip_with, !list_lookup_imap, list_lookup_fmap.
  destruct (d !! i) as [x|] eqn:Hx; cbn; [|done].
  rewrite lookup_seq_lt by (by eapply lookup_lt_Some). done.
Qed.

Lemma fmap_imap_comp {A B} (h : A -> B) (F : nat -> R -> A) (d : list R) :
  h <$> imap F d = imap (fun i x => h (F i x)) d.
Proof.
  apply list_eq; intros i. rewrite list_lookup_fmap, !list_lookup_imap.
  by destruct (d !! i).
Qed.

Lemma imap_id (d : list R) : imap (fun _ x => x) d = d.
Proof.
  apply list_eq; intros i. rewrite list_lookup_imap. by destruct (d !! i).
Qed.

Lemma fmap_as_imap {A} (f : R -> A) (d : list R) : f <$> d = imap (fun _ x => f x) d.
Proof.
  apply list_eq; intros i. by rewrite list_lookup_fmap, list_lookup_imap.
Qed.

Lemma zip_with_seq {A B} (f : R -> A -> B) (G : nat -> A) (d : list R) :
  zip_with f d (G <$> seq 0 (length d)) = imap (fun i x => f x (G i)) d.
Proof.
  rewrite <- (imap_id d) at 1. by rewrite zip_with_imap_seq.
Qed.

(** An operation against a one-element vector acts on every element. *)
Lemma ew2_vec1 (f : R -> R -> R) (a : tensor R) (y : R) :
  length (data a) = numel (shape a) ->
  exists s', ew2 f a (Tensor [1] [y]) = Ok (Tensor s' ((fun x => f x y) <$> data a))
             /\ numel s' = numel (shape a)
             /\ (shape a <> [] -> s' = shape a).
Proof.
  intros Hlen. unfold ew2. cbn [shape data].
  destruct (decide (shape a = [1])) as [E|NE].
  - exists (shape a). rewrite E in Hlen. cbn in Hlen.
    destruct (data a) as [|x [|? ?]]; cbn in Hlen; try lia. done.
  - cbn. destruct (decide (shape a = [])) as [E|NE'].
    + exists [1]. by rewrite E.
    + by exists (shape a).
Qed.

(** An operation between tensors of one shape acts position by position. *)
Lemma ew2_same (f : R -> R -> R) (a b : tensor R) :
  shape a = shape b ->
  ew2 f a b = Ok (Tensor (shape a) (zip_with f (data a) (data b))).
Proof. intros E. unfold ew2. by destruct (decide (shape a = shape b)). Qed.

Lemma broadcast_to_tensor_spec (t v : tensor R) (axis c : nat) :
  shape t !! axis = Some c ->
  length (data v) = c ->
  broadcast_to_tensor t v axis
  = Ok (Tensor (shape t)
          ((fun i => default (of_Z 0) (data v !! chan_of (shape t) axis i))
             <$> seq 0 (numel (shape t)))).
Proof.
  intros Hs Hl. unfold broadcast_to_tensor. rewrite Hs.
  by destruct (decide (length (data v) = c)).
Qed.

End TensorFacts.

(** ** The learned-grid operator: forward *)

Section Forward.
Context {R : Type} `{Scalar R}.
Import Learned.

(** Per-channel step sizes and offsets of an encoding. *)
Definition deltas (mins maxs : list R) (steps : R) : list R :=
  (fun x => div x steps) <$> zip_with sub maxs mins.

Definition offsets (mins maxs : list R) (steps : R) : list R :=
  round <$> zip_with div mins (deltas mins maxs steps).

Lemma compute_delta_and_offset_vectors (t emin emax : tensor R) (steps : R)
      (axis c : nat) :
  shape emin = [c] -> shape emax = [c] ->
  length (data emin) = c -> length (data emax) = c ->
  _compute_delta_and_offset t emin emax steps axis =
  let dl := Tensor [c] (deltas (data emin) (data emax) steps) in
  let off := Tensor [c] (offsets (data emin) (data emax) steps) in
  if decide (1 < c) then
    res_bind (broadcast_to_tensor t dl axis) (fun d' =>
    res_bind (broadcast_to_tensor t off axis) (fun o' => Ok (d', o')))
  else Ok (dl, off).
Proof.
  intros Hsn Hsx Hln Hlx. unfold _compute_delta_and_offset, tsub, tdiv, tround, tmap.
  rewrite (ew2_same sub emax emin) by congruence. cbn [res_bind].
  change (vec [steps]) with (Tensor [1] [steps]).
  edestruct (ew2_vec1 div (Tensor (shape emax) (zip_with sub (data emax) (data emin))) steps)
    as (s' & -> & _ & Hs').
  { cbn. rewrite length_zip_with, Hsx. cbn. lia. }
  cbn [shape] in Hs'. rewrite Hs' by (by rewrite Hsx). cbn [res_bind].
  rewrite (ew2_same div emin) by (cbn; congruence). cbn [res_bind data shape].
  unfold len. rewrite Hsn, Hsx. cbn [res_bind]. reflexivity.
Qed.

(** The channel whose encoding applies at flat position [i]: the position's
    index along the channel axis for per-channel encodings, the only one
    otherwise. *)
Definition channel_at (emin : tensor R) (s : list nat) (axis i : nat) : nat :=
  if decide (1 < length (data emin)) then chan_of s axis i else 0.

Definition delta_of (mn mx steps : R) : R := div (sub mx mn) steps.
Definition offset_of (mn mx steps : R) : R := round (div mn (delta_of mn mx steps)).
Definition quantize_of (mn mx steps x : R) : R :=
  sub (round (div x (delta_of mn mx steps))) (offset_of mn mx steps).

Lemma deltas_lookup (mins maxs : list R) (steps : R) (c : nat) (mn mx : R) :
  mins !! c = Some mn -> maxs !! c = Some mx ->
  deltas mins maxs steps !! c = Some (delta_of mn mx steps)
  /\ offsets mins maxs steps !! c = Some (offset_of mn mx steps).
Proof.
  intros Hn Hx. unfold offsets, deltas.
  rewrite !list_lookup_fmap, !lookup_zip_with, Hn. cbn.
  rewrite list_lookup_fmap, lookup_zip_with, Hx. cbn. by rewrite Hn.
Qed.

(** The values forward computes at position [i] from the element [x],
    with the step size [dl] and the offset [off] that apply there. *)
Definition out_at (n p dl off x : R) : R :=
  mul (add (clamp1 n p (sub (round (div x dl)) off)) off) dl.
Definition mask_at (n p dl off x : R) : bool :=
  leb n (sub (round (div x dl)) off) && leb (sub (round (div x dl)) off) p.

(** Forward once step sizes and offsets are known at every position. *)
Lemma forward_positions (t emin emax : tensor R) (q : LearnedGridTensorQuantizer R)
      (delta offset : tensor R) (D O : nat -> R) :
  length (data t) = numel (shape t) ->
  _compute_delta_and_offset t emin emax (p q) (_ch_axis q) = Ok (delta, offset) ->
  (delta = Tensor (shape t) (D <$> seq 0 (numel (shape t)))
   /\ offset = Tensor (shape t) (O <$> seq 0 (numel (shape t)))
   \/ exists dl off, delta = Tensor [1] [dl] /\ offset = Tensor [1] [off]
                     /\ D = (fun _ => dl) /\ O = (fun _ => off)) ->
  exists s' ctx,
    QuantizeDequantizeFunc_forward t emin emax q
    = Ok (Tensor s' (imap (fun i x => out_at (n q) (p q) (D i) (O i) x) (data t)), ctx)
    /\ (shape t <> [] -> s' = shape t)
    /\ ctx_mask_tensor ctx = imap (fun i x => mask_at (n q) (p q) (D i) (O i) x) (data t)
    /\ ctx_tensor ctx = t /\ ctx_delta ctx = delta /\ ctx_offset ctx = offset
    /\ ctx_encoding_min ctx = emin /\ ctx_encoding_max ctx = emax
    /\ ctx_steps ctx = p q /\ ctx_channel_axis ctx = _ch_axis q
    /\ numel (shape (ctx_clamp_out ctx)) = numel (shape t)
    /\ (shape t <> [] -> shape (ctx_clamp_out ctx) = shape t)
    /\ length (data (ctx_clamp_out ctx)) = length (data t).
Proof.
  intros Hlen Hdo Hcase. unfold QuantizeDequantizeFunc_forward.
  rewrite Hdo. cbn [res_bind fst snd].
  unfold tdiv, tsub, tadd, tmul, tround, tclamp, tmap, mask_of.
  destruct Hcase as [[-> ->] | (dl & off & -> & -> & -> & ->)].
  - rewrite (ew2_same div t) by done. cbn [res_bind shape data].
    rewrite (ew2_same sub) by done. cbn [res_bind shape data].
    rewrite (ew2_same add) by done. cbn [res_bind shape data].
    rewrite (ew2_same mul) by done. cbn [res_bind shape data].
    rewrite <- Hlen.
    repeat (rewrite zip_with_seq || rewrite fmap_imap_comp || rewrite zip_with_imap_seq).
    eexists _, _. split; [reflexivity|]. cbn.
    rewrite !length_imap. repeat split; done.
  - edestruct (ew2_vec1 div t dl) as (s1 & -> & Hn1 & Hs1); [done|].
    cbn [res_bind shape data].
    edestruct (ew2_vec1 sub (Tensor s1 (round <$> ((fun x => div x dl) <$> data t))) off)
      as (s2 & -> & Hn2 & Hs2); [cbn [shape data]; rewrite !length_fmap; lia|].
    cbn [res_bind shape data] in *.
    edestruct (ew2_vec1 add
                 (Tensor s2 (clamp1 (n q) (p q) <$>
                               ((fun x => sub x off) <$>
                                  (round <$> ((fun x => div x dl) <$> data t))))) off)
      as (s3 & -> & Hn3 & Hs3); [cbn [shape data]; rewrite !length_fmap; lia|].
    cbn [res_bind shape data] in *.
    edestruct (ew2_vec1 mul
                 (Tensor s3 ((fun x => add x off) <$>
                               (clamp1 (n q) (p q) <$>
                                  ((fun x => sub x off) <$>
                                     (round <$> ((fun x => div x dl) <$> data t)))))) dl)
      as (s4 & -> & Hn4 & Hs4); [cbn [shape data]; rewrite !length_fmap; lia|].
    cbn [res_bind shape data] in *.
    rewrite (fmap_as_imap (fun x => div x dl) (data t)).
    rewrite !fmap_imap_comp.
    eexists _, _. split; [reflexivity|]. cbn.
    rewrite !length_imap.
    repeat split; try done.
    + intros NE. specialize (Hs1 NE). subst s1.
      specialize (Hs2 NE). subst s2. specialize (Hs3 NE). subst s3. by apply Hs4.
    + change (numel s2 = numel (shape t)). lia.
    + intros NE. specialize (Hs1 NE). subst s1. by apply Hs2.
Qed.

Lemma clamp1_inside (lo hi x : R) :
  leb lo x && leb x hi = true -> clamp1 lo hi x = x.
Proof.
  intros [Hlo Hhi]%andb_true_iff. unfold clamp1. by rewrite Hlo, Hhi.
Qed.

(** C1: on a tensor and encodings whose shapes fit, forward returns at every
    position [(clamp(round(x/delta) - offset, n, p) + offset) * delta], with
    [delta = (max - min) / steps], [offset = round(min / delta)] and
    [steps = p], where [min] and [max] are those of the position's channel
    when the encoding vectors are longer than one; the mask it records is 1
    exactly where [round(x/delta) - offset] lies in [n, p], and there the
    clamp changed nothing. *)
Theorem forward_spec (t emin emax : tensor R) (q : LearnedGridTensorQuantizer R)
        (c : nat) :
  length (data t) = numel (shape t) ->
  shape emin = [c] -> shape emax = [c] ->
  length (data emin) = c -> length (data emax) = c ->
  1 <= c ->
  (1 < c -> shape t !! _ch_axis q = Some c) ->
  exists out ctx,
    QuantizeDequantizeFunc_forward t emin emax q = Ok (out, ctx)
    /\ length (data out) = length (data t)
    /\ (shape t <> [] -> shape out = shape t)
    /\ length (ctx_mask_tensor ctx) = length (data t)
    /\ forall i x,
        data t !! i = Some x ->
        exists mn mx,
          data emin !! channel_at emin (shape t) (_ch_axis q) i = Some mn
          /\ data emax !! channel_at emin (shape t) (_ch_axis q) i = Some mx
          /\ let delta := div (sub mx mn) (p q) in
             let offset := round (div mn delta) in
             let quantized := sub (round (div x delta)) offset in
             let inside := leb (n q) quantized && leb quantized (p q) in
             data out !! i
             = Some (mul (add (clamp1 (n q) (p q) quantized) offset) delta)
             /\ ctx_mask_tensor ctx !! i = Some inside
             /\ (inside = true -> clamp1 (n q) (p q) quantized = quantized).
Proof.
  intros Hlen Hsn Hsx Hln Hlx Hc Hax.
  pose proof (compute_delta_and_offset_vectors t emin emax (p q) (_ch_axis q) c
                Hsn Hsx Hln Hlx) as Hdo.
  cbv zeta in Hdo.
  destruct (decide (1 < c)) as [Hgt|Hle].
  - specialize (Hax Hgt).
    rewrite (broadcast_to_tensor_spec _ _ _ c) in Hdo
      by (try done; cbn; unfold deltas; rewrite length_fmap, length_zip_with; lia).
    rewrite (broadcast_to_tensor_spec _ _ _ c) in Hdo
      by (try done; cbn; unfold offsets, deltas;
          rewrite length_fmap, length_zip_with, length_fmap, length_zip_with; lia).
    cbn [res_bind data] in Hdo.
    match type of Hdo with
    | _ = Ok (Tensor _ (?D <$> _), Tensor _ (?O <$> _)) =>
        destruct (forward_positions t emin emax q _ _ D O Hlen Hdo)
          as (s' & ctx & Hfw & Hs' & Hmask & _); [left; split; reflexivity|]
    end.
    eexists _, ctx. split; [exact Hfw|]. cbn [data shape].
    rewrite Hmask, !length_imap. repeat split; try done.
    intros i x Hx. unfold channel_at.
    destruct (decide (1 < length (data emin))) as [_|]; [|lia].
    assert (Hi : chan_of (shape t) (_ch_axis q) i < c).
    { apply chan_of_lt; [done|]. rewrite <- Hlen. by eapply lookup_lt_Some. }
    destruct (lookup_lt_is_Some_2 (data emin) _ ltac:(rewrite Hln; exact Hi)) as [mn Hmn].
    destruct (lookup_lt_is_Some_2 (data emax) _ ltac:(rewrite Hlx; exact Hi)) as [mx Hmx].
    exists mn, mx. split; [done|]. split; [done|].
    destruct (deltas_lookup _ _ (p q) _ _ _ Hmn Hmx) as [Hd Ho].
    cbv zeta. rewrite !list_lookup_imap, Hx. cbn [fmap option_fmap option_map].
    rewrite Hd, Ho. cbn [default].
    repeat split; try done. apply clamp1_inside.
  - assert (c = 1) as -> by lia.
    destruct (data emin) as [|mn [|? ?]] eqn:Emin; cbn in Hln; try lia.
    destruct (data emax) as [|mx [|? ?]] eqn:Emax; cbn in Hlx; try lia.
    cbn in Hdo.
    match type of Hdo with
    | _ = Ok (Tensor _ [?dl], Tensor _ [?off]) =>
        destruct (forward_positions t emin emax q _ _ (fun _ => dl) (fun _ => off) Hlen Hdo)
          as (s' & ctx & Hfw & Hs' & Hmask & _);
        [right; by exists dl, off|]
    end.
    eexists _, ctx. split; [exact Hfw|]. cbn [data shape].
    rewrite Hmask, !length_imap. repeat split; try done.
    intros i x Hx. unfold channel_at. rewrite Emin. cbn [length].
    destruct (decide (1 < 1)) as [|_]; [lia|].
    exists mn, mx. split; [done|]. split; [done|].
    cbv zeta. rewrite !list_lookup_imap, Hx. cbn [fmap option_fmap option_map].
    repeat split; try done. apply clamp1_inside.
Qed.

End Forward.

(** ** Reductions over the axes of a tensor *)

Section Reductions.
Context {R : Type} `{Scalar R}.

Lemma filter_none {A} (P : A -> Prop) `{!forall x, Decision (P x)} (l : list A) :
  (forall x, x ∈ l -> ~ P x) -> filter P l = [].
Proof.
  induction l as [|x l IH]; intros Hn; [done|].
  rewrite filter_cons_False by (apply Hn; left).
  apply IH. intros y Hy. apply Hn. by right.
Qed.

Lemma filter_all {A} (P : A -> Prop) `{!forall x, Decision (P x)} (l : list A) :
  (forall x, x ∈ l -> P x) -> filter P l = l.
Proof.
  induction l as [|x l IH]; intros Hn; [done|].
  rewrite filter_cons_True by (apply Hn; left).
  f_equal. apply IH. intros y Hy. apply Hn. by right.
Qed.

Lemma filter_ext_in {A} (P Q : A -> Prop) `{!forall x, Decision (P x)}
      `{!forall x, Decision (Q x)} (l : list A) :
  (forall x, x ∈ l -> P x <-> Q x) -> filter P l = filter Q l.
Proof.
  induction l as [|x l IH]; intros Hn; [done|].
  assert (filter P l = filter Q l) as IH' by (apply IH; intros y Hy; apply Hn; by right).
  destruct (decide (P x)) as [Hp|Hp].
  - rewrite !filter_cons_True; [by f_equal| |done]. apply Hn; [left|done].
  - rewrite !filter_cons_False; [done| |done]. intros Hq. apply Hp, Hn; [left|done].
Qed.

Lemma snd_indexed {A} (l : list A) : snd <$> indexed l = l.
Proof.
  unfold indexed. apply list_eq; intros i.
  rewrite list_lookup_fmap, list_lookup_imap. by destruct (l !! i).
Qed.

Lemma elem_of_indexed {A} (l : list A) (ix : nat * A) :
  ix ∈ indexed l -> l !! ix.1 = Some ix.2.
Proof.
  unfold indexed. intros (i & x & -> & Hx)%elem_of_lookup_imap. done.
Qed.

Lemma length_unravel (s : list nat) (i : nat) : length (unravel s i) = length s.
Proof. revert i. induction s as [|d s IH]; intros i; cbn; by rewrite ?IH. Qed.

(** Keeping one position of a list. *)
Lemma drop_dims_single {A} (dims : list nat) (x : list A) (a : nat) (xa : A) :
  x !! a = Some xa ->
  (forall i, i < length x -> i ∉ dims <-> i = a) ->
  drop_dims dims x = [xa].
Proof.
  intros Ha Hd. unfold drop_dims.
  rewrite (filter_ext_in _ (fun ix => ix.1 = a)).
  2:{ intros ix Hix%elem_of_indexed. apply Hd. by eapply lookup_lt_Some. }
  rewrite <- (take_drop_middle x a xa Ha). unfold indexed.
  assert (Hla : length (take a x) = a).
  { rewrite length_take. apply lookup_lt_Some in Ha. lia. }
  rewrite imap_app, filter_app, Hla.
  rewrite (filter_none _ (imap _ (take a x))).
  2:{ intros ix (i & v & -> & Hv)%elem_of_lookup_imap. cbn.
      apply lookup_lt_Some in Hv. lia. }
  rewrite imap_cons. rewrite filter_cons_True by (cbn; lia).
  rewrite filter_none; [done|].
  intros ix (i & v & -> & Hv)%elem_of_lookup_imap. cbn. lia.
Qed.

Lemma drop_dims_all {A} (x : list A) (k : nat) :
  length x = k -> drop_dims (seq 0 k) x = [].
Proof.
  intros Hk. unfold drop_dims. rewrite filter_none; [done|].
  intros ix Hix%elem_of_indexed Hn. apply Hn, elem_of_seq.
  apply lookup_lt_Some in Hix. lia.
Qed.

(** The dimensions left after popping the channel axis. *)
Lemma popped_dims (k a i : nat) :
  a < k -> i < k ->
  i ∉ take a (seq 0 k) ++ drop (S a) (seq 0 k) <-> i = a.
Proof.
  intros Ha Hi. rewrite take_seq, drop_seq, elem_of_app, !elem_of_seq.
  split; [|lia]. intros Hn. destruct (decide (i = a)); [done|]. exfalso. apply Hn. lia.
Qed.

(** Summing over every dimension gives the sum of all elements. *)
Lemma tsum_all (s : list nat) (l : list R) :
  tsum (Tensor s l) (seq 0 (length s)) = Tensor [] [lsum l].
Proof.
  unfold tsum. cbn [shape data].
  assert (Hd : match seq 0 (length s) with
               | [] => seq 0 (length s)
               | _ :: _ => seq 0 (length s)
               end = seq 0 (length s)) by (by destruct (seq 0 (length s))).
  rewrite Hd. rewrite (drop_dims_all s) by done. cbn.
  rewrite filter_all by done. by rewrite snd_indexed.
Qed.

(** Summing over every dimension but [axis] gives, for every index along
    [axis], the sum of the elements that have this index. *)
Lemma tsum_keep_axis (s : list nat) (l : list R) (axis c : nat) :
  s !! axis = Some c ->
  1 < length s ->
  tsum (Tensor s l) (take axis (seq 0 (length s)) ++ drop (S axis) (seq 0 (length s)))
  = Tensor [c] ((fun j => lsum (channel_elements s axis j l)) <$> seq 0 c).
Proof.
  intros Hc Hk. pose proof (lookup_lt_Some _ _ _ Hc) as Ha.
  set (dims := take axis (seq 0 (length s)) ++ drop (S axis) (seq 0 (length s))).
  assert (Hne : match dims with [] => seq 0 (length s) | _ :: _ => dims end = dims).
  { destruct dims eqn:E; [|done]. exfalso.
    assert (Hl : length dims = length s - 1).
    { unfold dims. rewrite length_app, length_take, length_drop, !length_seq. lia. }
    rewrite E in Hl. cbn in Hl. lia. }
  unfold tsum. cbn [shape data]. rewrite Hne.
  rewrite (drop_dims_single dims s axis c Hc)
    by (intros i Hi; by apply popped_dims).
  cbn [numel foldr]. rewrite Nat.mul_1_r. f_equal.
  apply list_fmap_ext; intros _ j _. f_equal. unfold channel_elements. f_equal.
  apply list_filter_iff. intros [i x]. cbn [fst].
  rewrite (drop_dims_single dims (unravel s i) axis (chan_of s axis i)).
  - cbn. lia.
  - unfold chan_of. apply nth_lookup_Some with (d := 0) in Hc as _.
    destruct (lookup_lt_is_Some_2 (unravel s i) axis) as [v Hv];
      [by rewrite length_unravel|].
    rewrite Hv. f_equal. symmetry. by apply nth_lookup_Some.
  - intros i' Hi'. rewrite length_unravel in Hi'. by apply popped_dims.
Qed.

End Reductions.

(** ** The learned-grid operator: backward *)

Section Backward.
Context {R : Type} `{Scalar R}.
Import Learned.

Lemma ew2_vec1_r (f : R -> R -> R) (s : list nat) (l : list R) (y : R) :
  s <> [] -> length l = numel s ->
  ew2 f (Tensor s l) (Tensor [1] [y]) = Ok (Tensor s ((fun x => f x y) <$> l)).
Proof.
  intros Hs Hl. destruct (ew2_vec1 f (Tensor s l) y Hl) as (s' & -> & _ & Hs').
  by rewrite (Hs' Hs).
Qed.

Lemma ew2_vec1_l (f : R -> R -> R) (s : list nat) (l : list R) (x : R) :
  s <> [] -> length l = numel s ->
  ew2 f (Tensor [1] [x]) (Tensor s l) = Ok (Tensor s (f x <$> l)).
Proof.
  intros Hs Hl. unfold ew2. cbn [shape data].
  destruct (decide ([1] = s)) as [<-|NE].
  - cbn in Hl. by destruct l as [|? [|? ?]].
  - assert (is_single (Tensor s l) = false) as ->.
    { unfold is_single. apply bool_decide_eq_false. cbn. intros [?|?]; congruence. }
    cbn. by destruct (decide (s = [])).
Qed.

Lemma ew2_scalar_l (f : R -> R -> R) (s : list nat) (l : list R) (x : R) :
  s <> [] -> length l = numel s ->
  ew2 f (Tensor [] [x]) (Tensor s l) = Ok (Tensor s (f x <$> l)).
Proof.
  intros Hs Hl. unfold ew2. cbn [shape data].
  destruct (decide ([] = s)) as [<-|NE]; [done|].
  destruct (decide (s = [1])) as [->|NE1].
  - cbn in Hl. by destruct l as [|? [|? ?]].
  - assert (is_single (Tensor s l) = false) as ->.
    { unfold is_single. apply bool_decide_eq_false. cbn. intros [?|?]; congruence. }
    cbn. by destruct (decide (s = [])).
Qed.

Lemma list_as_seq {A} (z : A) (l : list A) (k : nat) :
  length l = k -> l = (fun i => default z (l !! i)) <$> seq 0 k.
Proof.
  intros <-. apply list_eq; intros i. rewrite list_lookup_fmap.
  destruct (l !! i) as [x|] eqn:Hx.
  - rewrite lookup_seq_lt by (by eapply lookup_lt_Some). cbn. by rewrite Hx.
  - rewrite lookup_seq_ge; [done|]. by apply lookup_ge_None.
Qed.

Lemma zip_with_seq2 {A B C} (f : A -> B -> C) (F : nat -> A) (G : nat -> B) (k : nat) :
  zip_with f (F <$> seq 0 k) (G <$> seq 0 k) = (fun i => f (F i) (G i)) <$> seq 0 k.
Proof.
  apply list_eq; intros i. rewrite lookup_zip_with, !list_lookup_fmap.
  by destruct (seq 0 k !! i).
Qed.

Lemma fmap_seq_comp {A B} (g : A -> B) (F : nat -> A) (k : nat) :
  g <$> (F <$> seq 0 k) = (fun i => g (F i)) <$> seq 0 k.
Proof. by rewrite <- list_fmap_compose. Qed.

(** The element of a saved list at a position. *)
Definition at_ (l : list R) (i : nat) : R := default (of_Z 0) (l !! i).

Definition one_or_zero (b : bool) : R := if b then of_Z 1 else of_Z 0.

(** The mask as numbers, at a position. *)
Definition mask_at_ (ms : list bool) (i : nat) : R :=
  default (of_Z 0) (one_or_zero <$> ms !! i).

(** The summands of the two reductions of backward at one position. *)
Definition scale_at (x c o d m g : R) : R := mul (sub (add c o) (div (mul x m) d)) g.
Definition offset_at (d m g : R) : R := mul (mul d g) (sub (of_Z 1) m).

Definition scale_grads (xs cs gs : list R) (ms : list bool) (D O : nat -> R) (k : nat)
  : list R :=
  (fun i => scale_at (at_ xs i) (at_ cs i) (O i) (D i) (mask_at_ ms i) (at_ gs i))
    <$> seq 0 k.

Definition offset_grads (gs : list R) (ms : list bool) (D : nat -> R) (k : nat) : list R :=
  (fun i => offset_at (D i) (mask_at_ ms i) (at_ gs i)) <$> seq 0 k.

Definition tensor_grads (gs : list R) (ms : list bool) (k : nat) : list R :=
  (fun i => mul (at_ gs i) (mask_at_ ms i)) <$> seq 0 k.

(** The two gradients of the encoding from the two reduced sums. *)
Definition min_grad_of (mn mx steps scale_sum offset_sum : R) : R :=
  add (neg (div scale_sum steps))
      (mul mx (mul (div steps (pow (sub mx mn) 2)) offset_sum)).
Definition max_grad_of (mn mx steps scale_sum offset_sum : R) : R :=
  sub (div scale_sum steps)
      (mul mn (mul (div steps (pow (sub mx mn) 2)) offset_sum)).

Lemma mask_as_seq (s : list nat) (ms : list bool) :
  length ms = numel s ->
  mask_as s ms = Tensor s (mask_at_ ms <$> seq 0 (numel s)).
Proof.
  intros Hl. unfold mask_as. f_equal.
  apply list_eq; intros i. rewrite !list_lookup_fmap. unfold mask_at_.
  destruct (ms !! i) as [b|] eqn:Hb.
  - rewrite lookup_seq_lt by (rewrite <- Hl; by eapply lookup_lt_Some).
    cbn. by rewrite Hb.
  - rewrite lookup_seq_ge; [done|]. rewrite <- Hl. by apply lookup_ge_None.
Qed.

Ltac ew_step :=
  first [ rewrite ew2_vec1_r by (try done; by rewrite ?length_fmap, ?length_seq)
        | rewrite ew2_vec1_l by (try done; by rewrite ?length_fmap, ?length_seq)
        | rewrite ew2_scalar_l by (try done; by rewrite ?length_fmap, ?length_seq)
        | rewrite ew2_same by done ];
  cbn [res_bind shape data];
  rewrite ?fmap_seq_comp, ?zip_with_seq2.

(** Backward with a one-element encoding: both sums run over every element
    of the tensor. *)
Lemma backward_per_tensor (s : list nat) (xs cs gs : list R) (ms : list bool)
      (dl off mn mx steps : R) (axis : nat) :
  s <> [] ->
  length xs = numel s -> length cs = numel s ->
  length ms = numel s -> length gs = numel s ->
  QuantizeDequantizeFunc_backward
    (MkQdqCtx (Tensor s xs) (Tensor s cs) (Tensor [1] [dl]) (Tensor [1] [off])
              (Tensor [1] [mn]) (Tensor [1] [mx]) ms steps axis)
    (Tensor s gs)
  = Ok (Tensor s (tensor_grads gs ms (numel s)),
        Tensor [1] [min_grad_of mn mx steps
                      (lsum (scale_grads xs cs gs ms (fun _ => dl) (fun _ => off) (numel s)))
                      (lsum (offset_grads gs ms (fun _ => dl) (numel s)))],
        Tensor [1] [max_grad_of mn mx steps
                      (lsum (scale_grads xs cs gs ms (fun _ => dl) (fun _ => off) (numel s)))
                      (lsum (offset_grads gs ms (fun _ => dl) (numel s)))]).
Proof.
  intros Hs Hx Hc Hm Hg.
  unfold QuantizeDequantizeFunc_backward.
  cbn [ctx_tensor ctx_clamp_out ctx_delta ctx_offset ctx_encoding_min ctx_encoding_max
       ctx_mask_tensor ctx_steps ctx_channel_axis shape].
  match goal with |- _ = ?rhs => set (expected := rhs) end.
  rewrite (mask_as_seq s ms Hm).
  rewrite (list_as_seq (of_Z 0) xs _ Hx), (list_as_seq (of_Z 0) cs _ Hc),
    (list_as_seq (of_Z 0) gs _ Hg).
  fold (at_ xs) (at_ cs) (at_ gs).
  unfold tmul, tadd, tsub, tdiv, tneg, tmap, scalar_tensor.
  do 10 ew_step.
  cbn [len shape res_bind]. destruct (decide (1 < 1)) as [?|_]; [lia|].
  cbn [res_bind]. rewrite !tsum_all.
  subst expected. by vm_compute.
Qed.

(** Backward with per-channel encodings on a tensor of several dimensions
    whose first dimension is larger than one: both sums run, for every
    channel, over the elements of that channel. *)
Lemma backward_per_channel (d0 : nat) (s' : list nat) (xs cs gs ds os mins maxs : list R)
      (ms : list bool) (steps : R) (axis c : nat) :
  let s := d0 :: s' in
  1 < d0 -> s' <> [] -> 1 < c ->
  s !! axis = Some c ->
  length xs = numel s -> length cs = numel s ->
  length ms = numel s -> length gs = numel s ->
  length ds = numel s -> length os = numel s ->
  length mins = c -> length maxs = c ->
  QuantizeDequantizeFunc_backward
    (MkQdqCtx (Tensor s xs) (Tensor s cs) (Tensor s ds) (Tensor s os)
              (Tensor [c] mins) (Tensor [c] maxs) ms steps axis)
    (Tensor s gs)
  = Ok (Tensor s (tensor_grads gs ms (numel s)),
        Tensor [c]
          ((fun j =>
              min_grad_of (at_ mins j) (at_ maxs j) steps
                (lsum (channel_elements s axis j
                         (scale_grads xs cs gs ms (at_ ds) (at_ os) (numel s))))
                (lsum (channel_elements s axis j
                         (offset_grads gs ms (at_ ds) (numel s))))) <$> seq 0 c),
        Tensor [c]
          ((fun j =>
              max_grad_of (at_ mins j) (at_ maxs j) steps
                (lsum (channel_elements s axis j
                         (scale_grads xs cs gs ms (at_ ds) (at_ os) (numel s))))
                (lsum (channel_elements s axis j
                         (offset_grads gs ms (at_ ds) (numel s))))) <$> seq 0 c)).
Proof.
  intros s Hd0 Hs' Hc Hax Hx Hcl Hm Hg Hds Hos Hmn Hmx.
  assert (Hs : s <> []) by done.
  assert (Hc1 : [c] <> []) by done.
  assert (Hnc : numel [c] = c) by (cbn; lia).
  unfold QuantizeDequantizeFunc_backward.
  cbn [ctx_tensor ctx_clamp_out ctx_delta ctx_offset ctx_encoding_min ctx_encoding_max
       ctx_mask_tensor ctx_steps ctx_channel_axis shape].
  match goal with |- _ = ?rhs => set (expected := rhs) end.
  rewrite (mask_as_seq s ms Hm).
  rewrite (list_as_seq (of_Z 0) xs _ Hx), (list_as_seq (of_Z 0) cs _ Hcl),
    (list_as_seq (of_Z 0) gs _ Hg), (list_as_seq (of_Z 0) ds _ Hds),
    (list_as_seq (of_Z 0) os _ Hos), (list_as_seq (of_Z 0) mins _ Hmn),
    (list_as_seq (of_Z 0) maxs _ Hmx).
  fold (at_ xs) (at_ cs) (at_ gs) (at_ ds) (at_ os) (at_ mins) (at_ maxs).
  unfold tmul, tadd, tsub, tdiv, tneg, tmap, scalar_tensor.
  do 10 ew_step.
  assert (Hk : 1 < length (d0 :: s')) by (destruct s'; [done|cbn; lia]).
  assert (Hal : axis < length (d0 :: s')) by (by eapply lookup_lt_Some).
  subst s. unfold len, list_pop. cbn [shape res_bind]. rewrite length_seq.
  destruct (decide (1 < d0)) as [_|]; [|done].
  destruct (decide (1 < length (d0 :: s'))) as [_|]; [|done].
  destruct (decide (axis < length (d0 :: s'))) as [_|]; [|done].
  cbn [res_bind].
  rewrite !(tsum_keep_axis (d0 :: s') _ axis c Hax) by done.
  change (vec [steps]) with (Tensor [1] [steps]).
  rewrite ew2_vec1_r by (try done; by rewrite length_fmap, length_seq).
  cbn [res_bind shape data]. rewrite ?fmap_seq_comp.
  rewrite ew2_vec1_l by (try done; by rewrite length_fmap, length_seq).
  cbn [res_bind shape data]. rewrite ?fmap_seq_comp.
  do 5 ew_step.
  subst expected. reflexivity.
Qed.

(** The elements a sum of backward runs over for channel [j]. *)
Definition reduced (per_channel : bool) (s : list nat) (axis j : nat) (l : list R)
  : list R :=
  if per_channel then channel_elements s axis j l else l.

Lemma tensor_grads_lookup (gs : list R) (ms : list bool) (k i : nat) (g : R) :
  length gs = k -> gs !! i = Some g ->
  tensor_grads gs ms k !! i = Some (mul g (mask_at_ ms i)).
Proof.
  intros Hl Hg. unfold tensor_grads. rewrite list_lookup_fmap.
  rewrite lookup_seq_lt by (rewrite <- Hl; by eapply lookup_lt_Some).
  cbn. unfold at_. by rewrite Hg.
Qed.

(** C2 (as the code has it): backward returns the tensor gradient
    [g * mask], the min gradient [-scale_term + max * offset_term] and the
    max gradient [scale_term - min * offset_term], where [scale_term] is the
    sum of [(clamped + offset - tensor*mask/delta) * g] divided by [steps] and
    [offset_term] is [steps / (max - min)^2] times the sum of
    [delta * g * (1 - mask)].  With a one-element encoding both sums run over
    every element of the tensor; with per-channel encodings, on a tensor of
    several dimensions whose first dimension is larger than one, they run
    over every axis but the channel axis. *)
Theorem backward_spec (s sd : list nat) (xs cs gs ds os mins maxs : list R)
        (ms : list bool) (steps : R) (axis c : nat) :
  s <> [] ->
  length xs = numel s -> length cs = numel s ->
  length ms = numel s -> length gs = numel s ->
  length mins = c -> length maxs = c ->
  (sd = [1] /\ c = 1 /\ length ds = 1 /\ length os = 1)
  \/ (sd = s /\ 1 < c /\ s !! axis = Some c /\ 1 < length s /\ 1 < hd 0 s
      /\ length ds = numel s /\ length os = numel s) ->
  let per_channel := bool_decide (1 < c) in
  let D := fun i => at_ ds (if per_channel then i else 0) in
  let O := fun i => at_ os (if per_channel then i else 0) in
  exists tensor_grad min_grad max_grad,
    QuantizeDequantizeFunc_backward
      (MkQdqCtx (Tensor s xs) (Tensor s cs) (Tensor sd ds) (Tensor sd os)
                (Tensor [c] mins) (Tensor [c] maxs) ms steps axis)
      (Tensor s gs)
    = Ok (Tensor s tensor_grad, Tensor [c] min_grad, Tensor [c] max_grad)
    /\ (forall i g, gs !! i = Some g -> tensor_grad !! i = Some (mul g (mask_at_ ms i)))
    /\ (forall j mn mx,
           mins !! j = Some mn -> maxs !! j = Some mx ->
           let scale_term :=
             div (lsum (reduced per_channel s axis j
                          (scale_grads xs cs gs ms D O (numel s)))) steps in
           let offset_term :=
             mul (div steps (pow (sub mx mn) 2))
                 (lsum (reduced per_channel s axis j
                          (offset_grads gs ms D (numel s)))) in
           min_grad !! j = Some (add (neg scale_term) (mul mx offset_term))
           /\ max_grad !! j = Some (sub scale_term (mul mn offset_term))).
Proof.
  intros Hs Hx Hc Hm Hg Hmn Hmx
         [(-> & -> & Hds & Hos) | (-> & Hc1 & Hax & Hk & Hd0 & Hds & Hos)];
    intros per_channel D O; subst per_channel D O.
  - destruct ds as [|dl [|? ?]]; cbn in Hds; try lia.
    destruct os as [|off [|? ?]]; cbn in Hos; try lia.
    destruct mins as [|mn0 [|? ?]]; cbn in Hmn; try lia.
    destruct maxs as [|mx0 [|? ?]]; cbn in Hmx; try lia.
    rewrite (backward_per_tensor s xs cs gs ms dl off mn0 mx0 steps axis)
      by done.
    eexists _, _, _. split; [reflexivity|]. split.
    + intros i g Hgi. by apply tensor_grads_lookup.
    + intros [|j] mn mx Hj1 Hj2; cbn in Hj1, Hj2; [|done]. simplify_eq.
      cbv zeta. split; reflexivity.
  - destruct s as [|d0 s']; [done|]. cbn in Hd0.
    assert (Hs' : s' <> []) by (intros ->; cbn in Hk; lia).
    rewrite (backward_per_channel d0 s' xs cs gs ds os mins maxs ms steps axis c)
      by done.
    eexists _, _, _. split; [reflexivity|]. split.
    + intros i g Hgi. by apply tensor_grads_lookup.
    + intros j mn mx Hj1 Hj2. cbv zeta.
      rewrite bool_decide_eq_true_2 by done. cbn [reduced].
      rewrite !list_lookup_fmap.
      rewrite lookup_seq_lt by (rewrite <- Hmn; by eapply lookup_lt_Some).
      cbn. unfold at_. rewrite Hj1, Hj2. cbn. split; reflexivity.
Qed.

End Backward.

(** * The code run on concrete inputs *)

Module Examples.
Import QScalar.

Definition base_quantizer (enabled frozen : bool) : TensorQuantizer :=
  MkTensorQuantizer "nearest" training_range_learning_with_tf_init false false true 2
                    enabled DT_int frozen.

(** A two-bit learned-grid quantizer: [n = 0], [p = 3]. *)
Definition lq (enabled frozen : bool) : Learned.LearnedGridTensorQuantizer Q :=
  Learned.MkLearnedGrid (base_quantizer enabled frozen) "weight" 0%Q 3%Q None None 0.

Definition t22 : tensor Q := qt [2; 2] [-5; 1; 2; 9]%Z.
Definition g22 : tensor Q := qt [2; 2] [1; 10; 100; 1000]%Z.

(** *** Forward *)

Example forward_per_tensor_runs :
  res_bind (Learned.QuantizeDequantizeFunc_forward t22 (qt [1] [0%Z]) (qt [1] [3%Z])
              (lq true false))
           (fun r => Ok (r.1, Learned.ctx_mask_tensor r.2))
  = Ok (qt [2; 2] [0; 1; 2; 3]%Z, [false; true; true; false]).
Proof. by vm_compute. Qed.

Example forward_per_channel_runs :
  res_bind (Learned.QuantizeDequantizeFunc_forward t22 (qt [2] [0; 0]%Z) (qt [2] [3; 6]%Z)
              (lq true false))
           (fun r => Ok (r.1, Learned.ctx_mask_tensor r.2))
  = Ok (qt [2; 2] [0; 1; 2; 6]%Z, [false; true; true; false]).
Proof. by vm_compute. Qed.

Lemma forward_spec_witness :
  exists out ctx,
    Learned.QuantizeDequantizeFunc_forward t22 (qt [2] [0; 0]%Z) (qt [2] [3; 6]%Z)
      (lq true false) = Ok (out, ctx)
    /\ length (data out) = 4.
Proof.
  destruct (forward_spec t22 (qt [2] [0; 0]%Z) (qt [2] [3; 6]%Z) (lq true false) 2)
    as (out & ctx & Hfw & Hlen & _).
  - reflexivity.
  - reflexivity.
  - reflexivity.
  - reflexivity.
  - reflexivity.
  - lia.
  - intros _. reflexivity.
  - exists out, ctx. split; [exact Hfw | exact Hlen].
Defined.

(** *** Backward *)

(** The context the per-tensor forward above saves. *)
Definition ctx22 : Learned.QdqCtx Q :=
  Learned.MkQdqCtx t22 (qt [2; 2] [0; 1; 2; 3]%Z) (qt [1] [1%Z]) (qt [1] [0%Z])
                   (qt [1] [0%Z]) (qt [1] [3%Z]) [false; true; true; false] 3%Q 0.

Example ctx22_is_saved :
  res_bind (Learned.QuantizeDequantizeFunc_forward t22 (qt [1] [0%Z]) (qt [1] [3%Z])
              (lq true false))
           (fun r => Ok r.2)
  = Ok ctx22.
Proof. by vm_compute. Qed.

Example backward_per_tensor_runs :
  Learned.QuantizeDequantizeFunc_backward ctx22 g22
  = Ok (qt [2; 2] [0; 10; 100; 0]%Z, qt [1] [1%Z], qt [1] [1000%Z]).
Proof. by vm_compute. Qed.

Example backward_as_specified_runs :
  Learned.backward_as_specified ctx22 g22
  = Ok (qt [2; 2] [0; 10; 100; 0]%Z, qt [2] [1; 0]%Z, qt [2] [0; 1000]%Z).
Proof. by vm_compute. Qed.

(** With a one-element encoding the code sums over the channel axis too. *)
Lemma backward_sums_over_channel_axis :
  Learned.QuantizeDequantizeFunc_backward ctx22 g22
  <> Learned.backward_as_specified ctx22 g22.
Proof.
  rewrite backward_per_tensor_runs, backward_as_specified_runs. discriminate.
Qed.

Lemma backward_spec_witness :
  exists tensor_grad min_grad max_grad,
    Learned.QuantizeDequantizeFunc_backward
      (Learned.MkQdqCtx t22 (qt [2; 2] [0; 1; 1; 3]%Z)
         (qt [2; 2] [1; 1; 2; 2]%Z) (qt [2; 2] [0; 0; 0; 0]%Z)
         (qt [2] [0; 0]%Z) (qt [2] [3; 6]%Z) [false; true; true; false] 3%Q 0)
      g22
    = Ok (Tensor [2; 2] tensor_grad, Tensor [2] min_grad, Tensor [2] max_grad).
Proof.
  destruct (backward_spec [2; 2] [2; 2]
              (inject_Z <$> [-5; 1; 2; 9]%Z) (inject_Z <$> [0; 1; 1; 3]%Z)
              (inject_Z <$> [1; 10; 100; 1000]%Z) (inject_Z <$> [1; 1; 2; 2]%Z)
              (inject_Z <$> [0; 0; 0; 0]%Z) (inject_Z <$> [0; 0]%Z)
              (inject_Z <$> [3; 6]%Z) [false; true; true; false] 3%Q 0 2)
    as (tg & mng & mxg & Hbw & _).
  - discriminate.
  - reflexivity.
  - reflexivity.
  - reflexivity.
  - reflexivity.
  - reflexivity.
  - reflexivity.
  - right. repeat split; try reflexivity; cbn; lia.
  - exists tg, mng, mxg. exact Hbw.
Defined.

(** *** The learned-grid encoding setter *)

Definition enc4 : TfEncoding Q := MkTfEncoding 0%Q 15%Q 1%Q 0%Q 4.

Lemma set_encoding_disabled_noop_witness :
  Learned.set_encoding PyNone (Learned.MkState (lq false true) ∅)
  = (Ok tt, Learned.MkState (lq false true) ∅).
Proof. apply set_encoding_disabled_noop. reflexivity. Defined.

Lemma set_encoding_overwrites_bitwidth_witness :
  exists st',
    (Learned.set_encoding (PyList [PyEnc enc4; PyEnc enc4])
       (Learned.MkState (lq true false) ∅)).2 = st'
    /\ bitwidth (Learned.base (Learned.quantizer st')) = 4%Z.
Proof.
  pose proof (set_encoding_overwrites_bitwidth
                (Learned.MkState (lq true false) ∅)
                (PyList [PyEnc enc4; PyEnc enc4]) eq_refl eq_refl) as Hset.
  destruct (Learned.set_encoding _ _) as [[[]|e] st'] eqn:E.
  - exists st'. split; [reflexivity|].
    destruct Hset as (e0 & He0 & Hbw & _). cbn in He0. injection He0 as <-. exact Hbw.
  - exfalso. vm_compute in E. discriminate E.
Defined.

(** *** Static-grid quantizers *)

(** A stand-in for the native engine: it reports a fixed encoding and its
    validity, and quantize-dequantize hands the tensor back. *)
Definition engine : Type := TfEncoding Q * bool.
Definition getEncoding (e : engine) (_ : Z) (_ _ _ : bool) : TfEncoding Q * bool := e.
Definition new_engine (_ : QuantScheme) : engine := (enc4, false).
Definition updateStats (e : engine) (_ : tensor Q) : engine := e.
Definition resetEncodingStats (e : engine) : engine := e.
Definition quantizeDequantize (_ : engine) (t : tensor Q) (_ : pyenc Q) (_ : string)
  : res (tensor Q) := Ok t.
Definition half_float (t : tensor Q) : tensor Q := t.

Definition enc_a : TfEncoding Q := MkTfEncoding 0%Q 3%Q 1%Q 0%Q 2.
Definition enc_b : TfEncoding Q := MkTfEncoding 0%Q 6%Q 2%Q 0%Q 2.

(** A per-channel quantizer over two channels, after [compute_encoding]. *)
Definition per_channel (enabled frozen : bool) : Static.StaticGridTensorQuantizer Q engine :=
  Static.MkStaticGrid Static.PerChannel (base_quantizer enabled frozen)
                      [(enc_a, true); (enc_b, true)] (PyList [PyEnc enc_a; PyEnc enc_b]) 0.

Definition per_tensor (enabled frozen : bool) : Static.StaticGridTensorQuantizer Q engine :=
  Static.MkStaticGrid Static.PerTensor (base_quantizer enabled frozen)
                      [(enc_a, true)] (PyList [PyEnc enc_a]) 0.

Example backward_per_tensor_masks :
  Static.QuantizeDequantize_backward t22 (per_tensor true false) g22
  = Ok (qt [2; 2] [0; 10; 100; 0]%Z).
Proof. by vm_compute. Qed.

Lemma backward_per_channel_raises_witness :
  Static.QuantizeDequantize_backward t22 (per_channel true false) g22
  = Raise list_has_no_min.
Proof.
  apply (backward_per_channel_raises t22 (per_channel true false) g22
           [PyEnc enc_a; PyEnc enc_b]); reflexivity.
Defined.

(** One engine with a valid encoding and one without: the quantizer ends up
    disabled with one encoding, and the call fails. *)
Definition half_valid : Static.StaticGridTensorQuantizer Q engine :=
  Static.MkStaticGrid Static.PerChannel (base_quantizer true false)
                      [(enc_a, true); (enc_b, false)] PyNone 0.

Lemma compute_encoding_spec_witness :
  Static.compute_encoding getEncoding half_valid
  = (Raise (Exn AssertionError Static.invalid_encoding_msg),
     Static.MkStaticGrid Static.PerChannel (base_quantizer false false)
                         [(enc_a, true); (enc_b, false)] (PyList [PyEnc enc_a]) 0).
Proof.
  rewrite (compute_encoding_spec getEncoding half_valid eq_refl eq_refl).
  reflexivity.
Defined.




Lemma disabled_is_identity_witness :
  Static.quantize_dequantize quantizeDequantize half_float (per_channel false false)
                             t22 "nearest" = Ok t22
  /\ Learned.quantize_dequantize (lq false false) t22 None None = Ok t22
  /\ Learned.quantize_dequantize (lq true false) t22 None (Some (qt [1] [3%Z]))
     = Raise forward_mismatch.
Proof.
  destruct (disabled_is_identity quantizeDequantize half_float (per_channel false false)
              (lq false false) t22 "nearest" None None) as (Hs & Hl & _).
  destruct (disabled_is_identity quantizeDequantize half_float (per_channel false false)
              (lq true false) t22 "nearest" None (Some (qt [1] [3%Z]))) as (_ & _ & He).
  split; [apply Hs; reflexivity|]. split; [apply Hl; reflexivity|].
  apply He; [reflexivity | by left].
Defined.

(** *** The parameter-quantization operator *)

(** Stand-ins for the gradient formulas that are not at hand. *)
Definition intermediate (_ _ _ : tensor Q) : unit := tt.
Definition dloss_by_dx (_ grad : tensor Q) (_ : ParameterQuantizer.LearnedGridParams Q)
  : tensor Q := grad.
Definition dloss_by_dmax (_ _ : tensor Q) (_ : unit)
           (_ : ParameterQuantizer.LearnedGridParams Q) (_ : nat) : tensor Q := qt [1] [7%Z].
Definition dloss_by_dmin (_ _ : tensor Q) (_ : unit)
           (_ : ParameterQuantizer.LearnedGridParams Q) (_ : nat) : tensor Q := qt [1] [-7%Z].

Definition bias_quantizer : Learned.LearnedGridTensorQuantizer Q :=
  Learned.MkLearnedGrid (base_quantizer true false) "bias" 0%Q 3%Q
                        (Some (qt [1] [1%Z])) (Some (qt [1] [0%Z])) 0.

(** A layer whose weight quantizer is disabled and whose bias quantizer is
    enabled; both parameters have received a gradient. *)
Definition wrapper : ParameterQuantizer.Wrapper Q :=
  ParameterQuantizer.MkWrapper
    [("weight", ParameterQuantizer.MkLayerParam t22 (Some g22));
     ("bias", ParameterQuantizer.MkLayerParam (qt [2] [1; 2]%Z) (Some (qt [2] [1; 1]%Z)))]
    (<["weight" := lq false false]> (<["bias" := bias_quantizer]> ∅))
    false.

Example backward_pass_runs :
  (ParameterQuantizer.backward_pass_for_parameters intermediate dloss_by_dx
     dloss_by_dmax dloss_by_dmin wrapper).1
  = Ok [Some (qt [1] [-7%Z]); Some (qt [1] [7%Z])].
Proof. by vm_compute. Qed.

Example pairs_per_parameter_runs :
  pairs_per_parameter intermediate dloss_by_dx dloss_by_dmax dloss_by_dmin wrapper
  = [None; None; Some (qt [1] [-7%Z]); Some (qt [1] [7%Z])].
Proof. by vm_compute. Qed.

(** Forward reads the bias encodings at positions 2 and 3; backward returns
    the bias gradients at positions 0 and 1 and nothing for the weight. *)
Lemma backward_pass_skips_disabled :
  (ParameterQuantizer.backward_pass_for_parameters intermediate dloss_by_dx
     dloss_by_dmax dloss_by_dmin wrapper).1
  <> Ok (pairs_per_parameter intermediate dloss_by_dx dloss_by_dmax dloss_by_dmin wrapper).
Proof. rewrite backward_pass_runs, pairs_per_parameter_runs. discriminate. Qed.

Lemma backward_pass_enabled_pairs_witness :
  exists w',
    ParameterQuantizer.backward_pass_for_parameters intermediate dloss_by_dx
      dloss_by_dmax dloss_by_dmin wrapper
    = (Ok (enabled_pairs intermediate dloss_by_dx dloss_by_dmax dloss_by_dmin wrapper), w').
Proof.
  destruct (backward_pass_enabled_pairs intermediate dloss_by_dx dloss_by_dmax
              dloss_by_dmin wrapper) as (w' & Hrun & _).
  - by vm_compute.
  - by exists w'.
Defined.

End Examples.

(** * Further properties of the static-grid quantizers *)

Section StaticGridLifecycle.
Context {R : Type} `{Scalar R}.
Context {Engine : Type}.
Context (new_engine : QuantScheme -> Engine).
Context (getEncoding : Engine -> Z -> bool -> bool -> bool -> TfEncoding R * bool).
Context (updateStats : Engine -> tensor R -> Engine).
Context (resetEncodingStats : Engine -> Engine).
Context (getStatsHistogram : Engine -> list (R * R)).
Import Static.

Abbreviation quantizer := (StaticGridTensorQuantizer R Engine).

Ltac run_method :=
  cbv [Static.set_encoding StaticGridTensorQuantizer_set_encoding compute_encoding
       Static.freeze_encoding reset_encoding_stats set_scheme update_encoding_stats
       m_bind m_get m_ret m_raise m_lift m_modify assert_] in *;
  cbn [base with_base with_encoding with_cppOp _encoding _cppOp variant_of _ch_axis
       set_enabled set_frozen set_quant_scheme enabled _is_encoding_frozen
       data_type bitwidth fst snd] in *.

Definition cannot_freeze : exn :=
  Exn RuntimeError "Encoding can be frozen only when it is not None.".

(** Reading the encoding back after assigning it to an unfrozen quantizer
    gives the assigned value; only the per-tensor quantizer unwraps a list of
    one element. *)
Theorem encoding_assign_then_read (q : quantizer) (v : pyenc R) :
  _is_encoding_frozen (base q) = false ->
  exists q',
    Static.set_encoding v q = (Ok tt, q')
    /\ encoding q' = Ok (match variant_of q, v with
                         | PerTensor, PyList [x] => x
                         | _, _ => v
                         end).
Proof.
  intros Hf. run_method. destruct q as [[] b ops e ax]; cbn in *; rewrite Hf.
  - destruct v as [| |[|x [|y l]]]; eexists; (split; [reflexivity|]); reflexivity.
  - eexists; split; reflexivity.
Qed.

(** Assigning [None] to the encoding and then freezing: the per-tensor
    quantizer stores a one-element list and freezes, although its encoding
    reads [None]; the per-channel quantizer refuses to freeze. *)
Theorem freeze_after_assigning_None (q : quantizer) :
  _is_encoding_frozen (base q) = false ->
  exists q1,
    Static.set_encoding PyNone q = (Ok tt, q1)
    /\ encoding q1 = Ok PyNone
    /\ Static.freeze_encoding q1 =
       match variant_of q with
       | PerTensor => (Ok tt, with_base (set_frozen true) q1)
       | PerChannel => (Raise cannot_freeze, q1)
       end.
Proof.
  intros Hf. run_method. destruct q as [[] b ops e ax]; cbn in *; rewrite Hf.
  - eexists; split; [reflexivity|]. split; reflexivity.
  - eexists; split; [reflexivity|]. split; reflexivity.
Qed.

(** The quantizer [compute_encoding] leaves behind, whether or not it
    raises. *)
Lemma compute_encoding_state (q : quantizer) :
  enabled (base q) = true ->
  _is_encoding_frozen (base q) = false ->
  (compute_encoding getEncoding q).2 =
  match data_type (base q) with
  | DT_float => with_encoding PyNone q
  | DT_int => with_base (set_enabled (all_valid getEncoding q (_cppOp q)))
                (with_encoding (PyList (valid_encodings getEncoding q (_cppOp q))) q)
  end.
Proof.
  intros He Hf. run_method. rewrite He, Hf. cbn [andb negb].
  destruct (data_type (base q)) eqn:Hdt; cbn.
  - destruct (decide (DT_int = DT_float)) as [?|_]; [done|].
    rewrite (compute_encoding_loop_spec getEncoding _ _ []) by done.
    cbn [app base with_base with_encoding enabled set_enabled _encoding].
    assert (Hsame : forall ops,
               valid_encodings getEncoding (with_encoding (PyList []) q) ops
               = valid_encodings getEncoding q ops
               /\ all_valid getEncoding (with_encoding (PyList []) q) ops
                  = all_valid getEncoding q ops)
      by (by destruct q).
    destruct (Hsame (_cppOp q)) as [-> ->]. rewrite He. cbn [andb].
    destruct (all_valid getEncoding q (_cppOp q)); cbn [negb andb].
    + by destruct q.
    + destruct (valid_encodings getEncoding q (_cppOp q)); cbn; by destruct q.
  - destruct (decide (DT_float = DT_float)) as [_|]; [|done]. by destruct q.
Qed.

(** Freezing right after [compute_encoding] fails exactly when nothing was
    computed: for the float data type, and for the integer data type when no
    engine reported a valid encoding (an unused module).  It succeeds as soon
    as one engine did, also when [compute_encoding] raised. *)
Theorem freeze_after_compute_encoding (q : quantizer) :
  enabled (base q) = true ->
  _is_encoding_frozen (base q) = false ->
  let q1 := (compute_encoding getEncoding q).2 in
  Static.freeze_encoding q1 =
  if bool_decide (data_type (base q) = DT_int)
     && bool_decide (valid_encodings getEncoding q (_cppOp q) <> [])
  then (Ok tt, with_base (set_frozen true) q1)
  else (Raise cannot_freeze, q1).
Proof.
  intros He Hf q1. subst q1. rewrite (compute_encoding_state q He Hf).
  destruct (data_type (base q)); cbn [bool_decide andb].
  - rewrite bool_decide_eq_true_2 by done. cbn [andb].
    run_method. destruct (valid_encodings getEncoding q (_cppOp q)) as [|e l].
    + by rewrite bool_decide_eq_false_2 by (intros E; by apply E).
    + by rewrite bool_decide_eq_true_2 by done.
  - rewrite bool_decide_eq_false_2 by done. reflexivity.
Qed.

(** After [reset_encoding_stats] on an unfrozen quantizer every engine has
    been reset and the encoding is gone: freezing and reading the histogram
    both raise until an encoding is computed again.  On a frozen quantizer
    the reset changes nothing. *)
Theorem reset_discards_encoding (q : quantizer) :
  let q1 := (reset_encoding_stats resetEncodingStats q).2 in
  if _is_encoding_frozen (base q) then q1 = q
  else
    _cppOp q1 = resetEncodingStats <$> _cppOp q
    /\ _encoding q1 = PyNone
    /\ base q1 = base q
    /\ Static.freeze_encoding q1 = (Raise cannot_freeze, q1)
    /\ exists msg, get_stats_histogram getStatsHistogram q1 = Raise (Exn RuntimeError msg).
Proof.
  intros q1. subst q1. run_method. destruct (_is_encoding_frozen (base q)) eqn:Hf; cbn.
  - done.
  - repeat split. unfold get_stats_histogram. cbn.
    destruct (decide _); eexists; reflexivity.
Qed.

(** The histogram of an enabled scheme: one histogram per engine, in engine
    order; the scheme is checked before the encoding. *)
Theorem get_stats_histogram_spec (q : quantizer) :
  get_stats_histogram getStatsHistogram q =
  if bool_decide (_quant_scheme (base q) = post_training_tf_enhanced) then
    if truthy (_encoding q) then Ok (getStatsHistogram <$> _cppOp q)
    else Raise (Exn RuntimeError no_encoding_msg)
  else Raise (Exn RuntimeError wrong_scheme_msg).
Proof.
  unfold get_stats_histogram.
  destruct (decide (_quant_scheme (base q) <> post_training_tf_enhanced)) as [Hn|Hy].
  - by rewrite bool_decide_eq_false_2.
  - rewrite bool_decide_eq_true_2 by (by destruct (decide (_quant_scheme (base q)
                                                      = post_training_tf_enhanced))).
    by destruct (truthy (_encoding q)).
Qed.

(** Changing the quantization scheme replaces every engine by a fresh one of
    the new scheme and keeps their number, the encoding and the frozen flag,
    also on a frozen quantizer; without any engine it raises, after the scheme
    has already been changed. *)
Theorem set_scheme_recreates_engines (q : quantizer) (s : QuantScheme) :
  let r := set_scheme new_engine s q in
  _quant_scheme (base r.2) = s
  /\ _encoding r.2 = _encoding q
  /\ _is_encoding_frozen (base r.2) = _is_encoding_frozen (base q)
  /\ enabled (base r.2) = enabled (base q)
  /\ length (_cppOp r.2) = length (_cppOp q)
  /\ match _cppOp q with
     | [] => r.1 = Raise (Exn AssertionError "")
     | _ :: _ => r.1 = Ok tt /\ _cppOp r.2 = replicate (length (_cppOp q)) (new_engine s)
     end.
Proof.
  intros r. subst r. run_method. destruct q as [v b ops e ax]; cbn.
  destruct ops as [|op ops]; cbn; [done|].
  repeat split; try done.
  - by rewrite length_fmap.
  - f_equal. induction ops as [|o ops IH]; [done|]. cbn. by f_equal.
Qed.

End StaticGridLifecycle.

Section StaticGridStatistics.
Context {R : Type} `{Scalar R}.
Context {Engine : Type}.
Context (updateStats : Engine -> tensor R -> Engine).
Import Static.

Abbreviation quantizer := (StaticGridTensorQuantizer R Engine).

(** The slice of [t] at index [j] along [axis]. *)
Definition slice (t : tensor R) (axis j : nat) : tensor R :=
  Tensor (take axis (shape t) ++ drop (S axis) (shape t))
         (channel_elements (shape t) axis j (data t)).

(** What the per-channel statistics update does to the engine of channel [j]
    when the tensor has [d] channels. *)
Definition fed (t : tensor R) (axis d j : nat) (op : Engine) : Engine :=
  if decide (j < d) then updateStats op (slice t axis j) else op.

Lemma imap_same {A} (f : nat -> A -> A) (l : list A) :
  (forall i x, l !! i = Some x -> f i x = x) -> imap f l = l.
Proof.
  intros Hf. apply list_eq; intros i. rewrite list_lookup_imap.
  destruct (l !! i) as [x|] eqn:Hx; [|done]. cbn. by rewrite (Hf i x).
Qed.

Lemma update_channels_spec (t : tensor R) (d : nat) (ops pre : list Engine) (q : quantizer) :
  shape t !! _ch_axis q = Some d ->
  _cppOp q = pre ++ ops ->
  length pre <= d ->
  update_channels updateStats t (length pre) ops q =
  (if decide (length pre + length ops <= d) then Ok tt
   else Raise (Exn IndexError "index out of range"),
   with_cppOp (pre ++ imap (fun j => fed t (_ch_axis q) d (length pre + j)) ops) q).
Proof.
  revert pre q. induction ops as [|op ops IH]; intros pre q Hd Hops Hpre.
  - cbn. rewrite decide_True by lia.
    rewrite app_nil_r in *. rewrite <- Hops. by destruct q.
  - cbn [update_channels]. cbv [m_bind m_get m_lift m_modify].
    unfold tselect. rewrite Hd.
    destruct (decide (length pre < d)) as [Hlt|Hge].
    + cbn [length].
      assert (Hins : <[length pre := updateStats op (slice t (_ch_axis q) (length pre))]>
                       (_cppOp q)
                     = (pre ++ [updateStats op (slice t (_ch_axis q) (length pre))]) ++ ops).
      { rewrite Hops, insert_app_r_alt by lia. rewrite Nat.sub_diag. cbn.
        by rewrite <- app_assoc. }
      fold (slice t (_ch_axis q) (length pre)).
      set (q' := with_cppOp _ q).
      specialize (IH (pre ++ [updateStats op (slice t (_ch_axis q) (length pre))]) q').
      rewrite length_app in IH. cbn [length] in IH.
      replace (S (length pre)) with (length pre + 1) by lia.
      rewrite IH; [|done|exact Hins|lia].
      f_equal.
      * destruct (decide (length pre + 1 + length ops <= d)),
          (decide (length pre + S (length ops) <= d)); try done; lia.
      * subst q'. destruct q as [v b o e ax]. unfold with_cppOp. cbn. f_equal.
        rewrite <- app_assoc. cbn. f_equal.
        unfold fed at 2. rewrite Nat.add_0_r. rewrite decide_True by done.
        f_equal. apply imap_ext. intros j x _. cbn. f_equal. lia.
    + rewrite decide_False by (cbn; lia). f_equal.
      rewrite imap_same.
      * rewrite <- Hops. by destruct q.
      * intros j x _. unfold fed. by rewrite decide_False by lia.
Qed.

(** The per-channel statistics update feeds engine [j] the slice of channel
    [j] and nothing else.  When the quantizer has more engines than the tensor
    has channels, the engines of the existing channels are updated and the
    call then raises.  The encoding and the configuration are not touched. *)
Theorem update_encoding_stats_per_channel (t : tensor R) (d : nat) (q : quantizer) :
  variant_of q = PerChannel ->
  enabled (base q) = true ->
  _is_encoding_frozen (base q) = false ->
  shape t !! _ch_axis q = Some d ->
  update_encoding_stats updateStats t q =
  (if decide (length (_cppOp q) <= d) then Ok tt
   else Raise (Exn IndexError "index out of range"),
   with_cppOp (imap (fed t (_ch_axis q) d) (_cppOp q)) q).
Proof.
  intros Hv He Hf Hd. unfold update_encoding_stats. cbv [m_bind m_get].
  rewrite He, Hf, Hv. cbn [andb negb].
  pose proof (update_channels_spec t d (_cppOp q) [] q Hd eq_refl (Nat.le_0_l d)) as Hu.
  cbn [length app Nat.add] in Hu. exact Hu.
Qed.

(** A disabled or frozen quantizer ignores statistics. *)
Theorem update_encoding_stats_ignored (t : tensor R) (q : quantizer) :
  enabled (base q) = false \/ _is_encoding_frozen (base q) = true ->
  update_encoding_stats updateStats t q = (Ok tt, q).
Proof.
  intros Hd. unfold update_encoding_stats. cbv [m_bind m_get m_ret].
  destruct Hd as [-> | ->]; [done|]. by rewrite andb_false_r.
Qed.

End StaticGridStatistics.

Section StaticGridPickling.
Context {R : Type} `{Scalar R}.
Context {Engine : Type}.
Context (new_engine : QuantScheme -> Engine).
Import Static.

Abbreviation quantizer := (StaticGridTensorQuantizer R Engine).

Lemma tuple_encoding_inverse (l : list (pyenc R)) (encs : list (R * R * R * R * Z)) :
  res_mapM encoding_tuple l = Ok encs -> tuple_encoding <$> encs = l.
Proof.
  revert encs. induction l as [|v l IH]; intros encs Hm; cbn in Hm.
  - by simplify_eq.
  - destruct v as [|e|l']; cbn in Hm; try discriminate.
    destruct (res_mapM encoding_tuple l) as [encs'|] eqn:Hl; cbn in Hm; [|discriminate].
    simplify_eq. cbn. rewrite (IH encs' eq_refl). by destruct e.
Qed.

Lemma encoding_tuple_total (es : list (TfEncoding R)) :
  exists encs, res_mapM encoding_tuple (PyEnc <$> es) = Ok encs.
Proof.
  induction es as [|e es [encs IH]]; cbn; [by eexists|].
  rewrite IH. cbn. by eexists.
Qed.

(** Pickling and unpickling a quantizer whose encoding is [None] or a list of
    encodings keeps the configuration, the frozen flag, the channel axis and
    the encodings, but replaces every engine by a fresh one of the same scheme
    (accumulated statistics are lost) and turns an empty list of encodings
    into [None]. *)
Theorem pickle_roundtrip (q : quantizer) :
  _encoding q = PyNone \/ (exists es, _encoding q = PyList (PyEnc <$> es)) ->
  exists state,
    __getstate__ q = Ok state
    /\ __setstate__ new_engine state
       = MkStaticGrid (variant_of q) (base q)
           (replicate (length (_cppOp q)) (new_engine (_quant_scheme (base q))))
           (if truthy (_encoding q) then _encoding q else PyNone)
           (_ch_axis q).
Proof.
  intros [He | [es He]]; unfold __getstate__; rewrite He.
  - cbn. eexists; split; reflexivity.
  - destruct es as [|e es]; [cbn; eexists; split; reflexivity|].
    change (truthy (PyList (PyEnc <$> e :: es))) with true. cbv iota.
    destruct (encoding_tuple_total (e :: es)) as [encs Hencs].
    rewrite Hencs. cbn [res_bind]. eexists; split; [reflexivity|].
    unfold __setstate__. cbn. by rewrite (tuple_encoding_inverse _ _ Hencs).
Qed.

Lemma encoding_tuple_None_entry (l1 : list (TfEncoding R)) (l2 : list (pyenc R)) :
  exists msg, res_mapM encoding_tuple ((PyEnc <$> l1) ++ PyNone :: l2)
              = Raise (Exn AttributeError msg).
Proof.
  induction l1 as [|e l1 [msg IH]]; cbn.
  - by eexists.
  - rewrite IH. cbn. by eexists.
Qed.

(** A list holding something else than encodings (the [[None]] a per-tensor
    quantizer stores when [None] is assigned) cannot be pickled. *)
Theorem pickle_rejects_None_entry (q : quantizer) (l1 : list (TfEncoding R))
        (l2 : list (pyenc R)) :
  _encoding q = PyList ((PyEnc <$> l1) ++ PyNone :: l2) ->
  exists msg, __getstate__ q = Raise (Exn AttributeError msg).
Proof.
  intros He. unfold __getstate__. rewrite He.
  assert (truthy (PyList ((PyEnc <$> l1) ++ PyNone :: l2)) = true) as ->
    by (by destruct l1).
  destruct (encoding_tuple_None_entry l1 l2) as [msg ->]. by eexists.
Qed.

End StaticGridPickling.

Section StaticGridQuantizeOnly.
Context {R : Type} `{Scalar R}.
Context {Engine : Type}.
Context (quantize : Engine -> tensor R -> pyenc R -> string -> bool -> res (tensor R)).
Context (ltb : R -> R -> bool).
Import Static.

Abbreviation quantizer := (StaticGridTensorQuantizer R Engine).

Definition list_has_no_offset : exn :=
  Exn AttributeError "'list' object has no attribute offset".

(** The quantize-only operator on an enabled per-tensor quantizer that holds
    an encoding hands tensor and encoding to the first engine, with the
    shift-to-signed flag set exactly when the encodings are symmetric and the
    offset is negative. *)
Theorem quantize_per_tensor (t : tensor R) (q : quantizer) (round_mode : string)
        (e : TfEncoding R) (l : list (pyenc R)) (op : Engine) (ops : list Engine) :
  variant_of q = PerTensor ->
  enabled (base q) = true ->
  _encoding q = PyList (PyEnc e :: l) ->
  _cppOp q = op :: ops ->
  Quantize_forward quantize ltb t q round_mode
  = quantize op t (PyEnc e) round_mode
             (use_symmetric_encodings (base q) && ltb (enc_offset e) (of_Z 0)).
Proof.
  intros Hv He Henc Hops. unfold Quantize_forward, encoding.
  rewrite He, Hv, Henc, Hops. cbn.
  by destruct (use_symmetric_encodings (base q)).
Qed.

(** On an enabled per-channel quantizer the quantize-only operator is not
    wired through: with symmetric encodings it raises when it reads the offset
    off the list of encodings, and otherwise it hands the whole list of
    encodings to the first engine alone. *)
Theorem quantize_per_channel (t : tensor R) (q : quantizer) (round_mode : string)
        (l : list (pyenc R)) (op : Engine) (ops : list Engine) :
  variant_of q = PerChannel ->
  enabled (base q) = true ->
  _encoding q = PyList l ->
  _cppOp q = op :: ops ->
  Quantize_forward quantize ltb t q round_mode
  = if use_symmetric_encodings (base q) then Raise list_has_no_offset
    else quantize op t (PyList l) round_mode false.
Proof.
  intros Hv He Henc Hops. unfold Quantize_forward, encoding.
  rewrite He, Hv, Henc, Hops. cbn.
  by destruct (use_symmetric_encodings (base q)).
Qed.

End StaticGridQuantizeOnly.

(** * Further properties of the learned-grid quantizer *)

Section LearnedGridLifecycle.
Context {R : Type} `{Scalar R}.
Import Learned.

Ltac run_method :=
  cbv [set_encoding _set_encoding_min_max_parameters _set_p_and_n on_quantizer
       set_param m_bind m_get m_ret m_raise m_lift m_modify assert_] in *;
  cbn [quantizer _parameters base with_base with_n_p set_bitwidth bitwidth
       enabled _is_encoding_frozen use_symmetric_encodings use_strict_symmetric
       name n p fst snd] in *.

Lemma append_inj_r (s a b : string) : s +:+ a = s +:+ b -> a = b.
Proof. induction s as [|c s IH]; cbn; [done|]. intros E. injection E. exact IH. Qed.

Lemma min_max_keys_differ (s : string) : s +:+ "_encoding_min" <> s +:+ "_encoding_max".
Proof. intros E%append_inj_r. discriminate. Qed.

Lemma mapM_getattr {A} (attr : string) (f : TfEncoding R -> A) (es : list (TfEncoding R)) :
  res_mapM (getattr attr f) (PyEnc <$> es) = Ok (f <$> es).
Proof. induction es as [|e es IH]; cbn; [done|]. by rewrite IH. Qed.

Lemma mapM_getattr_raises {A} (attr : string) (f : TfEncoding R -> A) (l : list (pyenc R))
      (e : exn) :
  res_mapM (getattr attr f) l = Raise e -> exn_kind_of e = AttributeError.
Proof.
  revert e. induction l as [|x l IH]; intros e Hm; cbn in Hm; [done|].
  destruct x; cbn in Hm; simplify_eq; try done.
  destruct (res_mapM _ l) eqn:E; cbn in Hm; simplify_eq. by eapply IH.
Qed.

(** The state a successful assignment of the encodings [e0 :: es] leaves. *)
Definition assigned (st : State R) (n' p' : R) (e0 : TfEncoding R) (es : list (TfEncoding R))
  : State R :=
  MkState
    (with_n_p n' p' (with_base (set_bitwidth (bw e0)) (quantizer st)))
    (<[name (quantizer st) +:+ "_encoding_max"
       := MkParameter (FloatTensor (enc_max <$> e0 :: es)) true]>
       (<[name (quantizer st) +:+ "_encoding_min"
          := MkParameter (FloatTensor (enc_min <$> e0 :: es)) true]> (_parameters st))).

Lemma set_encoding_result (st : State R) (v : pyenc R) (e0 : TfEncoding R)
      (es : list (TfEncoding R)) :
  enabled (base (quantizer st)) = true ->
  _is_encoding_frozen (base (quantizer st)) = false ->
  v = PyList (PyEnc <$> e0 :: es) \/ (v = PyEnc e0 /\ es = []) ->
  set_encoding v st =
  match get_n_and_p (bw e0) (use_symmetric_encodings (base (quantizer st)))
                    (use_strict_symmetric (base (quantizer st))) with
  | Ok np => (Ok tt, assigned st np.1 np.2 e0 es)
  | Raise err => (Raise err, assigned st (n (quantizer st)) (p (quantizer st)) e0 es)
  end.
Proof.
  intros He Hf Hv. destruct st as [q ps].
  destruct Hv as [-> | [-> ->]]; run_method; rewrite He, Hf; cbn.
  - rewrite !(mapM_getattr _ _ es). cbn.
    rewrite bool_decide_eq_true_2 by done.
    destruct (get_n_and_p _ _ _) as [[n' p']|err]; cbn; try done; by destruct q.
  - rewrite bool_decide_eq_true_2 by done.
    destruct (get_n_and_p _ _ _) as [[n' p']|err]; cbn; try done; by destruct q.
Qed.

(** An assignment that fails leaves quantizer and wrapper as they were,
    unless it fails with the [ValueError] of [get_n_and_p]. *)
Theorem set_encoding_failure_is_atomic (st st' : State R) (v : pyenc R) (e : exn) :
  set_encoding v st = (Raise e, st') ->
  exn_kind_of e <> ValueError ->
  st' = st.
Proof.
  intros Hs Hk. destruct st as [q ps].
  destruct (enabled (base q)) eqn:He; run_method; rewrite He in Hs; [|done].
  destruct v as [|e1|[|[|e0|l0] l]]; cbn in Hs; simplify_eq; try done.
  - destruct (_is_encoding_frozen (base q)); cbn in Hs; simplify_eq; [done|].
    rewrite bool_decide_eq_true_2 in Hs by done.
    destruct (get_n_and_p _ _ _) as [[n' p']|err] eqn:Hnp; cbn in Hs; simplify_eq.
    unfold get_n_and_p in Hnp. repeat case_match; simplify_eq; done.
  - destruct (_is_encoding_frozen (base q)); cbn in Hs; by simplify_eq.
  - destruct (_is_encoding_frozen (base q)); cbn in Hs; by simplify_eq.
  - destruct (_is_encoding_frozen (base q)); cbn in Hs; simplify_eq; [done|].
    destruct (res_mapM (getattr "min" enc_min) l) as [mins|err] eqn:Hmin;
      cbn in Hs; simplify_eq; [|done].
    destruct (res_mapM (getattr "max" enc_max) l) as [maxs|err] eqn:Hmax;
      cbn in Hs; simplify_eq; [|done].
    rewrite bool_decide_eq_true_2 in Hs by done.
    destruct (get_n_and_p _ _ _) as [[n' p']|err] eqn:Hnp; cbn in Hs; simplify_eq.
    unfold get_n_and_p in Hnp. repeat case_match; simplify_eq; done.
  - destruct (_is_encoding_frozen (base q)); cbn in Hs; by simplify_eq.
Qed.

(** With strict-symmetric set but symmetric not, assigning an encoding to an
    enabled, unfrozen quantizer raises a [ValueError] only after the bitwidth
    and the wrapper's min/max parameters have been overwritten (by the
    single-precision values of the assigned min and max): [n] and [p] keep the
    values of the old bitwidth. *)
Theorem set_encoding_strict_without_symmetric (st : State R) (e0 : TfEncoding R) :
  enabled (base (quantizer st)) = true ->
  _is_encoding_frozen (base (quantizer st)) = false ->
  use_symmetric_encodings (base (quantizer st)) = false ->
  use_strict_symmetric (base (quantizer st)) = true ->
  exists msg st',
    set_encoding (PyEnc e0) st = (Raise (Exn ValueError msg), st')
    /\ bitwidth (base (quantizer st')) = bw e0
    /\ n (quantizer st') = n (quantizer st) /\ p (quantizer st') = p (quantizer st)
    /\ (param_data <$> _parameters st' !! (name (quantizer st) +:+ "_encoding_min"))
       = Some (FloatTensor [enc_min e0])
    /\ (param_data <$> _parameters st' !! (name (quantizer st) +:+ "_encoding_max"))
       = Some (FloatTensor [enc_max e0]).
Proof.
  intros He Hf Hsym Hstrict.
  rewrite (set_encoding_result st (PyEnc e0) e0 []) by auto.
  unfold get_n_and_p. rewrite Hsym, Hstrict. cbn [negb andb].
  eexists _, _. split; [reflexivity|]. unfold assigned. cbn.
  repeat split; try by destruct (quantizer st).
  - rewrite lookup_insert_ne by (apply not_eq_sym, min_max_keys_differ).
    by rewrite lookup_insert_eq.
  - by rewrite lookup_insert_eq.
Qed.

End LearnedGridLifecycle.

Section LearnedGridReadback.
Context {R : Type} `{Scalar R}.
Import Learned.

(** What the getter reports for an assigned encoding [e]: the
    single-precision values of its min and max (what the setter stored), step
    size and offset recomputed from these and from [p], and the bitwidth of the
    quantizer. *)
Definition relearned (p' : R) (b : Z) (e : TfEncoding R) : TfEncoding R :=
  let mn := cast float32 (enc_min e) in
  let mx := cast float32 (enc_max e) in
  let scale := div (sub mx mn) p' in
  MkTfEncoding mn mx scale (round (div (neg mn) scale)) b.

Lemma updated_encoding_relearned (q : LearnedGridTensorQuantizer R) (e : TfEncoding R) :
  updated_encoding q (cast float32 (enc_min e), cast float32 (enc_max e))
  = Ok (PyEnc (relearned (p q) (bitwidth (base q)) e)).
Proof. reflexivity. Qed.

Lemma mapM_updated_encoding (q : LearnedGridTensorQuantizer R) (es : list (TfEncoding R)) :
  res_mapM (updated_encoding q)
           (zip (cast float32 <$> (enc_min <$> es)) (cast float32 <$> (enc_max <$> es)))
  = Ok ((fun e => PyEnc (relearned (p q) (bitwidth (base q)) e)) <$> es).
Proof.
  induction es as [|e es IH]; [done|].
  change (res_mapM (updated_encoding q)
            (zip (cast float32 <$> (enc_min <$> e :: es))
                 (cast float32 <$> (enc_max <$> e :: es))))
    with (res_bind (updated_encoding q (cast float32 (enc_min e), cast float32 (enc_max e)))
            (fun y =>
               res_bind (res_mapM (updated_encoding q)
                           (zip (cast float32 <$> (enc_min <$> es))
                                (cast float32 <$> (enc_max <$> es))))
                        (fun ys => Ok (y :: ys)))).
  rewrite IH, updated_encoding_relearned. reflexivity.
Qed.

(** Reading the encoding back after a successful assignment: min and max are
    the single-precision values of the assigned ones, the bitwidth of every
    encoding is the [bw] of the first assigned encoding, and step size and
    offset are not the assigned ones but recomputed from the stored min and
    max as [(max - min) / p] and [round(-min / delta)] with the new [p].  One
    encoding is read back as such, several as a list. *)
Theorem encoding_read_after_assign (st : State R) (v : pyenc R) (e0 : TfEncoding R)
        (es : list (TfEncoding R)) (n' p' : R) :
  enabled (base (quantizer st)) = true ->
  _is_encoding_frozen (base (quantizer st)) = false ->
  v = PyList (PyEnc <$> e0 :: es) \/ (v = PyEnc e0 /\ es = []) ->
  get_n_and_p (bw e0) (use_symmetric_encodings (base (quantizer st)))
              (use_strict_symmetric (base (quantizer st))) = Ok (n', p') ->
  exists st',
    set_encoding v st = (Ok tt, st')
    /\ get_encoding st' =
       Ok (match es with
           | [] => PyEnc (relearned p' (bw e0) e0)
           | _ => PyList ((fun e => PyEnc (relearned p' (bw e0) e)) <$> e0 :: es)
           end).
Proof.
  intros He Hf Hv Hnp.
  rewrite (set_encoding_result st v e0 es He Hf Hv), Hnp.
  eexists. split; [reflexivity|].
  unfold get_encoding, assigned. cbn [quantizer base with_n_p with_base enabled set_bitwidth].
  rewrite He.
  unfold _compute_updated_encoding, wrapper_getattr.
  cbn [quantizer _parameters name with_n_p with_base fst snd].
  rewrite lookup_insert_ne by (apply not_eq_sym, min_max_keys_differ).
  rewrite !lookup_insert_eq. cbn [res_bind param_data].
  unfold iterate, FloatTensor, vec. cbn [shape data res_bind].
  rewrite (mapM_updated_encoding _ (e0 :: es)). cbn [res_bind].
  destruct es; reflexivity.
Qed.

End LearnedGridReadback.

Section LearnedGridFreeze.
Context {R : Type} `{Scalar R}.
Import Learned.

Definition is_zero (x : R) : bool := leb x (of_Z 0) && leb (of_Z 0) x.

Definition ambiguous_truth_value : exn :=
  Exn RuntimeError "Boolean value of Tensor with more than one value is ambiguous".

(** The state a successful [freeze_encoding] leaves: the flag set, both
    parameters without gradient tracking, their values untouched. *)
Definition frozen_state (st : State R) (pmin pmax : NNParameter R) : State R :=
  MkState (with_base (set_frozen true) (quantizer st))
    (<[name (quantizer st) +:+ "_encoding_max" := MkParameter (param_data pmax) false]>
       (<[name (quantizer st) +:+ "_encoding_min" := MkParameter (param_data pmin) false]>
          (_parameters st))).

Ltac run_freeze :=
  unfold freeze_encoding, clear_requires_grad, dict_get, on_quantizer, set_param;
  cbv [m_bind m_get m_ret m_raise m_lift m_modify];
  cbn [quantizer _parameters name with_base].

(** [freeze_encoding] with parameters of one element: it refuses when both
    the min and the max are zero, and otherwise freezes. *)
Lemma freeze_encoding_single (st : State R) (pmin pmax : NNParameter R) (mn mx : R) :
  _parameters st !! (name (quantizer st) +:+ "_encoding_min") = Some pmin ->
  _parameters st !! (name (quantizer st) +:+ "_encoding_max") = Some pmax ->
  data (param_data pmin) = [mn] -> data (param_data pmax) = [mx] ->
  freeze_encoding st =
  if is_zero mn && is_zero mx then (Raise (Exn RuntimeError not_frozen_msg), st)
  else (Ok tt, frozen_state st pmin pmax).
Proof.
  intros Hmin Hmax Hdn Hdx. run_freeze. rewrite Hmin.
  unfold tensor_bool. rewrite Hdn. fold (is_zero mn). rewrite negb_involutive.
  destruct (is_zero mn) eqn:Zn; cbn [andb].
  - rewrite Hmax, Hdx. fold (is_zero mx). rewrite negb_involutive.
    destruct (is_zero mx); [done|]. cbn [name with_base negb].
    rewrite Hmin. cbn [name with_base quantizer _parameters].
    rewrite lookup_insert_ne by apply min_max_keys_differ.
    by rewrite Hmax.
  - cbn [name with_base negb].
    rewrite Hmin. cbn [name with_base quantizer _parameters].
    rewrite lookup_insert_ne by apply min_max_keys_differ.
    by rewrite Hmax.
Qed.

(** [freeze_encoding] with a min parameter of several elements: the truth
    value of the parameter is asked for, which raises; nothing is frozen. *)
Lemma freeze_encoding_vector (st : State R) (pmin : NNParameter R) (x y : R) (l : list R) :
  _parameters st !! (name (quantizer st) +:+ "_encoding_min") = Some pmin ->
  data (param_data pmin) = x :: y :: l ->
  freeze_encoding st = (Raise ambiguous_truth_value, st).
Proof.
  intros Hmin Hd. run_freeze. rewrite Hmin. unfold tensor_bool. by rewrite Hd.
Qed.

(** Assigning encodings and then freezing.  After one encoding has been
    assigned, [freeze_encoding] freezes the quantizer and stops gradient
    tracking of min and max, unless the stored (single-precision) min and max
    are both zero, in which case it raises.  After two or more encodings
    (per-channel) have been assigned it raises and the quantizer stays
    unfrozen. *)
Theorem freeze_after_assign (st : State R) (v : pyenc R) (e0 : TfEncoding R)
        (es : list (TfEncoding R)) (n' p' : R) :
  enabled (base (quantizer st)) = true ->
  _is_encoding_frozen (base (quantizer st)) = false ->
  v = PyList (PyEnc <$> e0 :: es) \/ (v = PyEnc e0 /\ es = []) ->
  get_n_and_p (bw e0) (use_symmetric_encodings (base (quantizer st)))
              (use_strict_symmetric (base (quantizer st))) = Ok (n', p') ->
  exists st1,
    set_encoding v st = (Ok tt, st1)
    /\ match es with
       | [] =>
           if is_zero (cast float32 (enc_min e0)) && is_zero (cast float32 (enc_max e0))
           then freeze_encoding st1 = (Raise (Exn RuntimeError not_frozen_msg), st1)
           else exists st2,
               freeze_encoding st1 = (Ok tt, st2)
               /\ _is_encoding_frozen (base (quantizer st2)) = true
               /\ _parameters st2 !! (name (quantizer st) +:+ "_encoding_min")
                  = Some (MkParameter (FloatTensor [enc_min e0]) false)
               /\ _parameters st2 !! (name (quantizer st) +:+ "_encoding_max")
                  = Some (MkParameter (FloatTensor [enc_max e0]) false)
               /\ forall e, set_encoding (PyEnc e) st2
                            = (Raise (Exn RuntimeError
                                        "Encoding can be set only when it is not frozen."),
                               st2)
       | _ :: _ =>
           freeze_encoding st1 = (Raise ambiguous_truth_value, st1)
           /\ _is_encoding_frozen (base (quantizer st1)) = false
       end.
Proof.
  intros He Hf Hv Hnp.
  rewrite (set_encoding_result st v e0 es He Hf Hv), Hnp.
  eexists. split; [reflexivity|]. cbn [fst snd].
  assert (Hname : name (quantizer (assigned st n' p' e0 es)) = name (quantizer st))
    by (by destruct st as [[] ?]).
  assert (Hmin : _parameters (assigned st n' p' e0 es)
                   !! (name (quantizer (assigned st n' p' e0 es)) +:+ "_encoding_min")
                 = Some (MkParameter (FloatTensor (enc_min <$> e0 :: es)) true)).
  { rewrite Hname. unfold assigned. cbn [_parameters].
    rewrite lookup_insert_ne by (apply not_eq_sym, min_max_keys_differ).
    by rewrite lookup_insert_eq. }
  assert (Hmax : _parameters (assigned st n' p' e0 es)
                   !! (name (quantizer (assigned st n' p' e0 es)) +:+ "_encoding_max")
                 = Some (MkParameter (FloatTensor (enc_max <$> e0 :: es)) true)).
  { rewrite Hname. unfold assigned. cbn [_parameters]. by rewrite lookup_insert_eq. }
  destruct es as [|e1 es].
  - rewrite (freeze_encoding_single _ _ _ (cast float32 (enc_min e0))
               (cast float32 (enc_max e0)) Hmin Hmax) by reflexivity.
    destruct (is_zero (cast float32 (enc_min e0)) && is_zero (cast float32 (enc_max e0)));
      [done|].
    eexists. split; [reflexivity|]. unfold frozen_state. rewrite Hname.
    cbn [quantizer _parameters with_base param_data base].
    split; [by destruct st as [[[] ? ? ? ? ? ?] ?]|].
    split.
    { rewrite lookup_insert_ne by (apply not_eq_sym, min_max_keys_differ).
      by rewrite lookup_insert_eq. }
    split; [by rewrite lookup_insert_eq|].
    intros e. unfold set_encoding. cbv [m_bind m_get m_lift m_raise assert_].
    cbn [quantizer base with_base].
    destruct st as [[[] ? ? ? ? ? ?] ?]. cbn in He. cbn. by rewrite He.
  - split.
    + by apply (freeze_encoding_vector _ _ (cast float32 (enc_min e0))
                  (cast float32 (enc_min e1)) (cast float32 <$> (enc_min <$> es)) Hmin).
    + destruct st as [[[] ? ? ? ? ? ?] ?]. exact Hf.
Qed.

End LearnedGridFreeze.

(** * Further properties of the parameter-quantization operator *)

Section ParameterForward.
Context {R : Type} `{Scalar R}.
Import ParameterQuantizer.

Definition quantizer_disabled (w : Wrapper R) (np : string * LayerParam R) : bool :=
  match param_quantizers w !! np.1 with
  | Some q => negb (enabled (Learned.base q))
  | None => false
  end.

Definition index_error : exn := Exn IndexError "tuple index out of range".

Lemma quantize_loop_skips_disabled (ep : list (option (tensor R)))
      (pre rest : list (string * LayerParam R)) (index : nat) (w : Wrapper R) :
  forallb (quantizer_disabled w) pre = true ->
  quantize_parameters_loop ep index (pre ++ rest) w
  = quantize_parameters_loop ep (index + length pre) rest w.
Proof.
  revert index. induction pre as [|[name prm] pre IH]; intros index Hd.
  - cbn. by rewrite Nat.add_0_r.
  - cbn [forallb] in Hd. apply andb_true_iff in Hd as [Hd1 Hd2].
    unfold quantizer_disabled in Hd1. cbn [fst] in Hd1.
    cbn [app quantize_parameters_loop]. cbv [m_bind m_get m_lift m_ret lookup_quantizer].
    destruct (param_quantizers w !! name) as [q|]; [|done].
    apply negb_true_iff in Hd1. rewrite Hd1.
    rewrite (IH (S index) Hd2). cbn [length]. f_equal. lia.
Qed.

(** With every parameter quantizer disabled, forward changes nothing in the
    wrapper and returns its input, whatever encoding parameters it is given. *)
Theorem forward_all_disabled (w : Wrapper R) (input : tensor R)
        (ep : list (option (tensor R))) :
  forallb (quantizer_disabled w) (named_parameters w) = true ->
  forward input ep w = (Ok input, w).
Proof.
  intros Hd. unfold forward, quantize_parameters. cbv [m_bind m_get m_ret].
  rewrite <- (app_nil_r (named_parameters w)).
  by rewrite (quantize_loop_skips_disabled ep _ [] 0 w Hd).
Qed.

(** Forward reads the encodings of the parameter at index [i] at positions
    [2i] and [2i+1], counting disabled parameters too: when the first enabled
    parameter comes after [k] disabled ones and fewer than [2k + 2] encoding
    parameters are supplied, forward raises and leaves the wrapper as it
    was. *)
Theorem forward_too_few_encodings (w : Wrapper R) (input : tensor R)
        (ep : list (option (tensor R))) (pre post : list (string * LayerParam R))
        (name : string) (prm : LayerParam R) (q : Learned.LearnedGridTensorQuantizer R) :
  named_parameters w = pre ++ (name, prm) :: post ->
  forallb (quantizer_disabled w) pre = true ->
  param_quantizers w !! name = Some q ->
  enabled (Learned.base q) = true ->
  length ep < 2 * length pre + 2 ->
  forward input ep w = (Raise index_error, w).
Proof.
  intros Hnp Hd Hq He Hlen. unfold forward, quantize_parameters.
  cbv [m_bind m_get m_ret]. rewrite Hnp.
  rewrite (quantize_loop_skips_disabled ep pre _ 0 w Hd).
  cbn [quantize_parameters_loop Nat.add]. cbv [m_bind m_get m_lift lookup_quantizer].
  rewrite Hq, He. unfold list_get.
  destruct (ep !! (length pre * 2)) as [emin|] eqn:E1; [|done].
  destruct (ep !! (length pre * 2 + 1)) as [emax|] eqn:E2; [|done].
  apply lookup_lt_Some in E2. lia.
Qed.

End ParameterForward.

Section ParameterFrame.
Context {R : Type} `{Scalar R}.
Import ParameterQuantizer.

(** What forward keeps of a wrapper: the names and the gradients of the
    parameters, which quantizers exist and are enabled, and the parameters
    whose quantizer is disabled. *)
Record Frame (w w' : Wrapper R) : Prop := MkFrame {
  frame_names : (fun np => np.1) <$> named_parameters w'
                = (fun np => np.1) <$> named_parameters w;
  frame_grads : (fun np => param_grad np.2) <$> named_parameters w'
                = (fun np => param_grad np.2) <$> named_parameters w;
  frame_enabled : forall name,
      (fun q => enabled (Learned.base q)) <$> (param_quantizers w' !! name)
      = (fun q => enabled (Learned.base q)) <$> (param_quantizers w !! name);
  frame_disabled : forall i np,
      named_parameters w !! i = Some np ->
      quantizer_disabled w np = true ->
      named_parameters w' !! i = Some np;
}.

Lemma Frame_refl (w : Wrapper R) : Frame w w.
Proof. by split. Qed.

Lemma quantizer_disabled_frame (w w' : Wrapper R) (np : string * LayerParam R) :
  Frame w w' -> quantizer_disabled w' np = quantizer_disabled w np.
Proof.
  intros F. unfold quantizer_disabled. pose proof (frame_enabled _ _ F np.1) as E.
  destruct (param_quantizers w' !! np.1), (param_quantizers w !! np.1);
    cbn in E; try discriminate; [|done].
  injection E as E. by rewrite E.
Qed.

Lemma Frame_trans (w1 w2 w3 : Wrapper R) : Frame w1 w2 -> Frame w2 w3 -> Frame w1 w3.
Proof.
  intros F12 F23. split.
  - by rewrite (frame_names _ _ F23), (frame_names _ _ F12).
  - by rewrite (frame_grads _ _ F23), (frame_grads _ _ F12).
  - intros name. by rewrite (frame_enabled _ _ F23), (frame_enabled _ _ F12).
  - intros i np Hi Hd. apply (frame_disabled _ _ F23).
    + by apply (frame_disabled _ _ F12).
    + by rewrite (quantizer_disabled_frame _ _ _ F12).
Qed.

Lemma Frame_set_quantizer (w : Wrapper R) (name : string)
      (q : Learned.LearnedGridTensorQuantizer R) (s o : tensor R) :
  param_quantizers w !! name = Some q ->
  Frame w (set_quantizer name (Learned.with_scaling_offset s o q) w).
Proof.
  intros Hq. split; try done.
  intros name'. unfold set_quantizer. cbn [param_quantizers].
  destruct (decide (name = name')) as [<-|Hne].
  - rewrite lookup_insert_eq, Hq. by destruct q.
  - by rewrite lookup_insert_ne.
Qed.

Lemma Frame_set_values (w : Wrapper R) (index : nat) (name : string) (prm : LayerParam R)
      (new_data : tensor R) :
  named_parameters w !! index = Some (name, prm) ->
  quantizer_disabled w (name, prm) = false ->
  Frame w (set_named_parameter index name (MkLayerParam new_data (param_grad prm)) w).
Proof.
  intros Hi Hen. unfold set_named_parameter. split; cbn [named_parameters param_quantizers].
  - rewrite list_fmap_insert. cbn. apply list_insert_id.
    by rewrite list_lookup_fmap, Hi.
  - rewrite list_fmap_insert. cbn. apply list_insert_id.
    by rewrite list_lookup_fmap, Hi.
  - done.
  - intros i np Hnp Hd. destruct (decide (i = index)) as [->|Hne].
    + rewrite Hi in Hnp. simplify_eq. congruence.
    + by rewrite list_lookup_insert_ne.
Qed.

Lemma quantize_loop_frame (ep : list (option (tensor R)))
      (todo : list (string * LayerParam R)) (index : nat) (w : Wrapper R) :
  drop index (named_parameters w) = todo ->
  Frame w (quantize_parameters_loop ep index todo w).2.
Proof.
  revert index w. induction todo as [|[name prm] todo IH]; intros index w Hdrop.
  - apply Frame_refl.
  - assert (Hi : named_parameters w !! index = Some (name, prm)).
    { rewrite <- (Nat.add_0_r index), <- lookup_drop, Hdrop. done. }
    assert (Hnext : drop (S index) (named_parameters w) = todo).
    { rewrite <- Nat.add_1_r, <- drop_drop. by rewrite Hdrop. }
    cbn [quantize_parameters_loop]. cbv [m_bind m_get m_lift m_ret m_modify lookup_quantizer].
    destruct (param_quantizers w !! name) as [q|] eqn:Hq; [|apply Frame_refl].
    destruct (enabled (Learned.base q)) eqn:He.
    2:{ by apply IH. }
    destruct (list_get ep (index * 2)) as [emin|]; [|apply Frame_refl].
    destruct (list_get ep (index * 2 + 1)) as [emax|]; [|apply Frame_refl].
    destruct (match emin with
              | Some mn => match emax with
                           | Some mx => Learned.compute_scaling_offset q mn mx
                           | None => _
                           end
              | None => _
              end) as [so|]; [|apply Frame_refl].
    pose proof (Frame_set_quantizer w name q so.1 so.2 Hq) as F1.
    destruct (Learned.quantize_dequantize _ _ _ _) as [new_data|]; [|exact F1].
    set (w1 := set_quantizer name _ w) in *.
    assert (F2 : Frame w1 (set_named_parameter index name
                             (MkLayerParam new_data (param_grad prm)) w1)).
    { apply Frame_set_values; [exact Hi|].
      rewrite (quantizer_disabled_frame _ _ _ F1). unfold quantizer_disabled.
      cbn [fst]. by rewrite Hq, He. }
    eapply Frame_trans; [exact F1|]. eapply Frame_trans; [exact F2|].
    apply IH. unfold set_named_parameter, w1. cbn [named_parameters set_quantizer].
    rewrite drop_insert_lt by lia. exact Hnext.
Qed.

(** Forward, whether it returns or raises, keeps the names and the gradients
    of all parameters, keeps which quantizers are enabled, and does not touch
    a parameter whose quantizer is disabled. *)
Theorem forward_frame (w : Wrapper R) (input : tensor R) (ep : list (option (tensor R))) :
  Frame w (forward input ep w).2.
Proof.
  unfold forward, quantize_parameters. cbv [m_bind m_get m_ret].
  pose proof (quantize_loop_frame ep (named_parameters w) 0 w eq_refl) as F.
  by destruct (quantize_parameters_loop ep 0 (named_parameters w) w) as [[[]|e] w'].
Qed.

End ParameterFrame.

Section ParameterBackward.
Context {R : Type} `{Scalar R}.
Context {IntermediateResult : Type}.
Context (compute_intermediate_result_for_learned_grid :
           tensor R -> tensor R -> tensor R -> IntermediateResult).
Context (compute_dloss_by_dx_using_scale_offset :
           tensor R -> tensor R -> ParameterQuantizer.LearnedGridParams R -> tensor R).
Context (compute_dloss_by_dmax compute_dloss_by_dmin :
           tensor R -> tensor R -> IntermediateResult ->
           ParameterQuantizer.LearnedGridParams R -> nat -> tensor R).
Import ParameterQuantizer.

Abbreviation quantizers := (gmap string (Learned.LearnedGridTensorQuantizer R)).
Abbreviation gradients :=
  (compute_gradients compute_intermediate_result_for_learned_grid
     compute_dloss_by_dx_using_scale_offset compute_dloss_by_dmax compute_dloss_by_dmin).
Abbreviation backward_loop_ :=
  (backward_loop compute_intermediate_result_for_learned_grid
     compute_dloss_by_dx_using_scale_offset compute_dloss_by_dmax compute_dloss_by_dmin).
Abbreviation backward_ :=
  (backward compute_intermediate_result_for_learned_grid
     compute_dloss_by_dx_using_scale_offset compute_dloss_by_dmax compute_dloss_by_dmin).
Abbreviation computable_ :=
  (computable compute_intermediate_result_for_learned_grid
     compute_dloss_by_dx_using_scale_offset compute_dloss_by_dmax compute_dloss_by_dmin).

(** A parameter after backward: when its quantizer is enabled and it has a
    gradient, the gradient is replaced by the one [compute_gradients] assigns;
    otherwise nothing changes. *)
Definition graded (qs : quantizers) (np : string * LayerParam R) : string * LayerParam R :=
  match qs !! np.1, param_grad np.2 with
  | Some q, Some g =>
      if enabled (Learned.base q) then
        match gradients (param_values np.2) q g with
        | Ok r => (np.1, MkLayerParam (param_values np.2) (Some r.2))
        | Raise _ => np
        end
      else np
  | _, _ => np
  end.

Lemma backward_loop_state (todo : list (string * LayerParam R)) (index : nat)
      (acc : list (option (tensor R))) (w : Wrapper R) :
  drop index (named_parameters w) = todo ->
  forallb (computable_ (param_quantizers w)) todo = true ->
  (backward_loop_ index todo acc w).2
  = MkWrapper (take index (named_parameters w) ++ (graded (param_quantizers w) <$> todo))
              (param_quantizers w) (_is_replica w).
Proof.
  revert index acc w. induction todo as [|[name prm] todo IH]; intros index acc w Hdrop Hc.
  - cbn. rewrite app_nil_r.
    pose proof (take_drop index (named_parameters w)) as E.
    rewrite Hdrop, app_nil_r in E. rewrite E. by destruct w.
  - assert (Hi : named_parameters w !! index = Some (name, prm)).
    { rewrite <- (Nat.add_0_r index), <- lookup_drop, Hdrop. done. }
    assert (Hnext : drop (S index) (named_parameters w) = todo).
    { rewrite <- Nat.add_1_r, <- drop_drop. by rewrite Hdrop. }
    cbn [forallb] in Hc. apply andb_true_iff in Hc as [Hc1 Hc2].
    unfold computable in Hc1. cbn [fst snd] in Hc1.
    cbn [backward_loop fmap list_fmap]. unfold graded at 1. cbn [fst snd].
    cbv [m_bind m_get m_lift m_ret m_modify lookup_quantizer].
    destruct (param_quantizers w !! name) as [q|] eqn:Hq; [|done].
    destruct (enabled (Learned.base q)) eqn:He; cbn [negb orb] in Hc1.
    + destruct (param_grad prm) as [g|] eqn:Hg.
      * destruct (gradients (param_values prm) q g) as [r|] eqn:Hr; [|done].
        set (w1 := set_named_parameter index name _ w).
        rewrite (IH (S index) _ w1); [| |exact Hc2].
        -- unfold w1, set_named_parameter. cbn [named_parameters param_quantizers _is_replica].
           f_equal. rewrite (take_S_r _ _ (name, MkLayerParam (param_values prm) (Some r.2))).
           ++ rewrite take_insert_ge by lia. by rewrite <- app_assoc.
           ++ apply list_lookup_insert_eq. by eapply lookup_lt_Some.
        -- unfold w1, set_named_parameter. cbn [named_parameters].
           rewrite drop_insert_lt by lia. exact Hnext.
      * rewrite (IH (S index) _ w Hnext Hc2). f_equal.
        rewrite (take_S_r _ _ _ Hi). destruct prm; cbn in Hg; subst.
        by rewrite <- app_assoc.
    + rewrite (IH (S index) _ w Hnext Hc2). f_equal.
      rewrite (take_S_r _ _ _ Hi).
      destruct (param_grad prm); by rewrite <- app_assoc.
Qed.

(** Backward leaves the values of all parameters and all quantizers as they
    are; it overwrites the gradient of every parameter that has one and whose
    quantizer is enabled by the gradient with respect to the parameter, and
    returns its own gradients followed by [None] for the wrapper. *)
Theorem backward_updates_gradients (w : Wrapper R) (output_grad : list (option (tensor R))) :
  gradients_computable compute_intermediate_result_for_learned_grid
    compute_dloss_by_dx_using_scale_offset compute_dloss_by_dmax compute_dloss_by_dmin w
  = true ->
  exists param_encoding_grads,
    backward_ output_grad w
    = (Ok (output_grad ++ None :: param_encoding_grads),
       MkWrapper (graded (param_quantizers w) <$> named_parameters w)
                 (param_quantizers w) (_is_replica w)).
Proof.
  intros Hc. unfold backward, backward_pass_for_parameters. cbv [m_bind m_get m_ret].
  pose proof (backward_loop_state (named_parameters w) 0 [] w eq_refl Hc) as Hst.
  destruct (backward_loop_spec compute_intermediate_result_for_learned_grid
              compute_dloss_by_dx_using_scale_offset compute_dloss_by_dmax
              compute_dloss_by_dmin (named_parameters w) 0 [] w Hc) as (w' & Hrun & _).
  rewrite Hrun in Hst |- *. cbn [snd] in Hst. rewrite Hst. by eexists.
Qed.

Definition no_work (w : Wrapper R) (np : string * LayerParam R) : bool :=
  match param_quantizers w !! np.1 with
  | Some q => negb (enabled (Learned.base q)) || bool_decide (param_grad np.2 = None)
  | None => false
  end.

Lemma backward_loop_skips (pre rest : list (string * LayerParam R)) (index : nat)
      (acc : list (option (tensor R))) (w : Wrapper R) :
  forallb (no_work w) pre = true ->
  exists acc', backward_loop_ index (pre ++ rest) acc w
               = backward_loop_ (index + length pre) rest acc' w.
Proof.
  revert index acc. induction pre as [|[name prm] pre IH]; intros index acc Hd.
  - exists acc. cbn. by rewrite Nat.add_0_r.
  - cbn [forallb] in Hd. apply andb_true_iff in Hd as [Hd1 Hd2].
    unfold no_work in Hd1. cbn [fst snd] in Hd1.
    cbn [app backward_loop]. cbv [m_bind m_get m_lift m_ret lookup_quantizer].
    destruct (param_quantizers w !! name) as [q|]; [|done].
    destruct (enabled (Learned.base q)); cbn [negb orb] in Hd1.
    + apply bool_decide_eq_true_1 in Hd1. rewrite Hd1.
      destruct (IH (S index) (acc ++ [None; None]) Hd2) as [acc' ->].
      exists acc'. cbn [length]. f_equal. lia.
    + destruct (IH (S index) acc Hd2) as [acc' ->].
      exists acc'. cbn [length]. f_equal. lia.
Qed.

Definition no_len : exn := Exn TypeError "object of type 'NoneType' has no len()".

(** Backward before any forward: the quantizer of an enabled parameter with a
    gradient has no scaling yet, so backward raises when it reaches the first
    such parameter, and the wrapper is left as it was. *)
Theorem backward_before_forward (w : Wrapper R) (output_grad : list (option (tensor R)))
        (pre post : list (string * LayerParam R)) (name : string) (prm : LayerParam R)
        (q : Learned.LearnedGridTensorQuantizer R) (g : tensor R) :
  named_parameters w = pre ++ (name, prm) :: post ->
  forallb (no_work w) pre = true ->
  param_quantizers w !! name = Some q ->
  enabled (Learned.base q) = true ->
  param_grad prm = Some g ->
  Learned.scaling q = None ->
  backward_ output_grad w = (Raise no_len, w).
Proof.
  intros Hnp Hd Hq He Hg Hs. unfold backward, backward_pass_for_parameters.
  cbv [m_bind m_get m_ret]. rewrite Hnp.
  destruct (backward_loop_skips pre ((name, prm) :: post) 0 [] w Hd) as [acc' ->].
  cbn [backward_loop]. cbv [m_bind m_get m_lift lookup_quantizer].
  rewrite Hq, He, Hg. unfold compute_gradients. by rewrite Hs.
Qed.

End ParameterBackward.

Section StaticGridRecompute.
Context {R : Type} `{Scalar R}.
Context {Engine : Type}.
Context (getEncoding : Engine -> Z -> bool -> bool -> bool -> TfEncoding R * bool).
Import Static.

Abbreviation quantizer := (StaticGridTensorQuantizer R Engine).

Lemma compute_encoding_skipped (q : quantizer) :
  enabled (base q) && negb (_is_encoding_frozen (base q)) = false ->
  compute_encoding getEncoding q = (Ok tt, q).
Proof. intros Hs. unfold compute_encoding. cbv [m_bind m_get m_ret]. by rewrite Hs. Qed.

(** Computing the encoding a second time changes nothing: the encodings are
    computed afresh and not appended to those of the first run, and a
    quantizer the first run disabled is left alone by the second. *)
Theorem compute_encoding_twice (q : quantizer) :
  (compute_encoding getEncoding (compute_encoding getEncoding q).2).2
  = (compute_encoding getEncoding q).2.
Proof.
  destruct (enabled (base q) && negb (_is_encoding_frozen (base q))) eqn:Hs.
  2:{ rewrite (compute_encoding_skipped q Hs). cbn [snd].
      by rewrite (compute_encoding_skipped q Hs). }
  apply andb_true_iff in Hs as [He Hf%negb_true_iff].
  rewrite (compute_encoding_state getEncoding q He Hf).
  destruct (data_type (base q)) eqn:Hdt.
  - destruct (all_valid getEncoding q (_cppOp q)) eqn:Hav.
    + rewrite compute_encoding_state.
      * destruct q as [v [] ops e ax]; cbn in *. subst.
        unfold all_valid, valid_encodings, answer in *; cbn in *. by rewrite Hav.
      * by destruct q as [v [] ops e ax].
      * by destruct q as [v [] ops e ax].
    + rewrite compute_encoding_skipped; [done|]. by destruct q as [v [] ops e ax].
  - rewrite compute_encoding_state.
    + destruct q as [v [] ops e ax]; cbn in *. by subst.
    + by destruct q as [v [] ops e ax].
    + by destruct q as [v [] ops e ax].
Qed.

End StaticGridRecompute.

(** * More of the code run on concrete inputs *)

Module MoreExamples.
Import QScalar Examples.

(** *** Static-grid quantizers *)

Lemma encoding_assign_then_read_witness :
  exists q',
    Static.set_encoding (PyList [PyEnc enc_b]) (per_tensor true false) = (Ok tt, q')
    /\ Static.encoding q' = Ok (PyEnc enc_b).
Proof. exact (encoding_assign_then_read (per_tensor true false) (PyList [PyEnc enc_b]) eq_refl). Defined.

Lemma freeze_after_assigning_None_witness :
  exists q1,
    Static.set_encoding PyNone (per_tensor true false) = (Ok tt, q1)
    /\ Static.encoding q1 = Ok PyNone
    /\ Static.freeze_encoding q1 = (Ok tt, Static.with_base (set_frozen true) q1).
Proof. exact (freeze_after_assigning_None (per_tensor true false) eq_refl). Defined.

Lemma freeze_after_compute_encoding_witness :
  (Static.freeze_encoding (Static.compute_encoding getEncoding half_valid).2).1 = Ok tt.
Proof.
  pose proof (freeze_after_compute_encoding getEncoding half_valid eq_refl eq_refl) as Hfz.
  cbv zeta in Hfz. rewrite Hfz. reflexivity.
Defined.

Lemma update_encoding_stats_per_channel_witness :
  (Static.update_encoding_stats updateStats t22 (per_channel true false)).1 = Ok tt.
Proof.
  rewrite (update_encoding_stats_per_channel updateStats t22 2 (per_channel true false));
    reflexivity.
Defined.

Lemma pickle_roundtrip_witness :
  exists state,
    Static.__getstate__ (per_channel true true) = Ok state
    /\ Static.__setstate__ new_engine state
       = Static.MkStaticGrid Static.PerChannel (base_quantizer true true)
           [(enc4, false); (enc4, false)] (PyList [PyEnc enc_a; PyEnc enc_b]) 0.
Proof.
  apply (pickle_roundtrip new_engine (per_channel true true)).
  right. exists [enc_a; enc_b]. reflexivity.
Defined.

(** The per-tensor quantizer after [None] has been assigned to its encoding. *)
Definition none_holder : Static.StaticGridTensorQuantizer Q engine :=
  Static.MkStaticGrid Static.PerTensor (base_quantizer true false)
                      [(enc_a, true)] (PyList [PyNone]) 0.

Lemma pickle_rejects_None_entry_witness :
  exists msg, Static.__getstate__ none_holder = Raise (Exn AttributeError msg).
Proof.
  apply (pickle_rejects_None_entry none_holder [] []). reflexivity.
Defined.

(** Stand-ins for the engine's quantize primitive and for [<]. *)
Definition quantize (_ : engine) (t : tensor Q) (_ : pyenc Q) (_ : string) (_ : bool)
  : res (tensor Q) := Ok t.
Definition Qltb (a b : Q) : bool := negb (Qle_bool b a).

Lemma quantize_per_tensor_witness :
  Static.Quantize_forward quantize Qltb t22 (per_tensor true false) "nearest" = Ok t22.
Proof.
  rewrite (quantize_per_tensor quantize Qltb t22 (per_tensor true false) "nearest"
             enc_a [] (enc_a, true) []); reflexivity.
Defined.

Definition symmetric_per_channel : Static.StaticGridTensorQuantizer Q engine :=
  Static.MkStaticGrid Static.PerChannel
    (MkTensorQuantizer "nearest" post_training_tf true false true 8 true DT_int false)
    [(enc_a, true); (enc_b, true)] (PyList [PyEnc enc_a; PyEnc enc_b]) 0.

Lemma quantize_per_channel_witness :
  Static.Quantize_forward quantize Qltb t22 symmetric_per_channel "nearest"
  = Raise list_has_no_offset.
Proof.
  rewrite (quantize_per_channel quantize Qltb t22 symmetric_per_channel "nearest"
             [PyEnc enc_a; PyEnc enc_b] (enc_a, true) [(enc_b, true)]); reflexivity.
Defined.

(** *** The learned-grid quantizer *)

Definition st0 : Learned.State Q := Learned.MkState (lq true false) ∅.

Lemma set_encoding_failure_is_atomic_witness :
  exists e st', Learned.set_encoding (PyList []) st0 = (Raise e, st') /\ st' = st0.
Proof.
  eexists _, _. split; [reflexivity|].
  apply (set_encoding_failure_is_atomic st0 _ (PyList []) _ eq_refl). discriminate.
Defined.

Definition strict_state : Learned.State Q :=
  Learned.MkState
    (Learned.MkLearnedGrid
       (MkTensorQuantizer "nearest" training_range_learning_with_tf_init false true true 2
                          true DT_int false)
       "weight" 0%Q 3%Q None None 0) ∅.

Lemma set_encoding_strict_without_symmetric_witness :
  exists msg st',
    Learned.set_encoding (PyEnc enc4) strict_state = (Raise (Exn ValueError msg), st')
    /\ bitwidth (Learned.base (Learned.quantizer st')) = 4%Z
    /\ Learned.p (Learned.quantizer st') = 3%Q.
Proof.
  destruct (set_encoding_strict_without_symmetric strict_state enc4
              eq_refl eq_refl eq_refl eq_refl) as (msg & st' & Hs & Hb & _ & Hp & _).
  exists msg, st'. split; [exact Hs|]. split; [exact Hb | exact Hp].
Defined.

Lemma st0_bounds :
  Learned.get_n_and_p (bw enc_a)
    (use_symmetric_encodings (Learned.base (Learned.quantizer st0)))
    (use_strict_symmetric (Learned.base (Learned.quantizer st0)))
  = Ok (0%Q, 3%Q).
Proof. by vm_compute. Defined.

Lemma encoding_read_after_assign_witness :
  exists st' r,
    Learned.set_encoding (PyList [PyEnc enc_a; PyEnc enc_b]) st0 = (Ok tt, st')
    /\ Learned.get_encoding st' = Ok r.
Proof.
  destruct (encoding_read_after_assign st0 (PyList [PyEnc enc_a; PyEnc enc_b])
              enc_a [enc_b] 0%Q 3%Q eq_refl eq_refl (or_introl eq_refl) st0_bounds)
    as (st' & Hs & Hg).
  eexists st', _. split; [exact Hs | exact Hg].
Defined.

(** An assigned min of one tenth is stored, and read back, as the nearest
    single-precision number. *)
Example read_back_is_single_precision :
  res_bind (Learned.get_encoding
              (Learned.set_encoding (PyEnc (MkTfEncoding (1 # 10) 1%Q 0%Q 0%Q 2)) st0).2)
           (getattr "min" enc_min)
  = Ok (13421773 # 134217728).
Proof. by vm_compute. Qed.

Lemma freeze_after_assign_witness :
  exists st1,
    Learned.set_encoding (PyList [PyEnc enc_a; PyEnc enc_b]) st0 = (Ok tt, st1)
    /\ Learned.freeze_encoding st1 = (Raise ambiguous_truth_value, st1).
Proof.
  destruct (freeze_after_assign st0 (PyList [PyEnc enc_a; PyEnc enc_b])
              enc_a [enc_b] 0%Q 3%Q eq_refl eq_refl (or_introl eq_refl) st0_bounds)
    as (st1 & Hs & Hfz & _).
  exists st1. split; [exact Hs | exact Hfz].
Defined.

Example freeze_after_one_encoding :
  (Learned.freeze_encoding (Learned.set_encoding (PyEnc enc_a) st0).2).1 = Ok tt.
Proof. by vm_compute. Qed.

(** *** The parameter-quantization operator *)

Definition wrapper_off : ParameterQuantizer.Wrapper Q :=
  ParameterQuantizer.MkWrapper
    [("weight", ParameterQuantizer.MkLayerParam t22 (Some g22))]
    (<["weight" := lq false false]> ∅) false.

Lemma forward_all_disabled_witness :
  ParameterQuantizer.forward t22 [] wrapper_off = (Ok t22, wrapper_off).
Proof. apply forward_all_disabled. by vm_compute. Defined.

Lemma forward_too_few_encodings_witness :
  ParameterQuantizer.forward t22 [Some (qt [1] [0%Z]); Some (qt [1] [3%Z])] wrapper
  = (Raise index_error, wrapper).
Proof.
  apply (forward_too_few_encodings wrapper t22 _
           [("weight", ParameterQuantizer.MkLayerParam t22 (Some g22))] []
           "bias" (ParameterQuantizer.MkLayerParam (qt [2] [1; 2]%Z) (Some (qt [2] [1; 1]%Z)))
           bias_quantizer).
  - reflexivity.
  - by vm_compute.
  - by vm_compute.
  - reflexivity.
  - cbn. lia.
Defined.

Lemma backward_updates_gradients_witness :
  exists grads w',
    ParameterQuantizer.backward intermediate dloss_by_dx dloss_by_dmax dloss_by_dmin
      [Some g22] wrapper
    = (Ok (Some g22 :: None :: grads), w').
Proof.
  destruct (backward_updates_gradients intermediate dloss_by_dx dloss_by_dmax dloss_by_dmin
              wrapper [Some g22]) as (grads & Hb).
  - by vm_compute.
  - eexists grads, _. exact Hb.
Defined.

(** The wrapper before any forward pass: the bias quantizer has no scaling. *)
Definition fresh_wrapper : ParameterQuantizer.Wrapper Q :=
  ParameterQuantizer.MkWrapper
    [("weight", ParameterQuantizer.MkLayerParam t22 (Some g22));
     ("bias", ParameterQuantizer.MkLayerParam (qt [2] [1; 2]%Z) (Some (qt [2] [1; 1]%Z)))]
    (<["weight" := lq false false]> (<["bias" := lq true false]> ∅))
    false.

Lemma backward_before_forward_witness :
  ParameterQuantizer.backward intermediate dloss_by_dx dloss_by_dmax dloss_by_dmin
    [Some g22] fresh_wrapper
  = (Raise no_len, fresh_wrapper).
Proof.
  apply (backward_before_forward intermediate dloss_by_dx dloss_by_dmax dloss_by_dmin
           fresh_wrapper [Some g22]
           [("weight", ParameterQuantizer.MkLayerParam t22 (Some g22))] []
           "bias" (ParameterQuantizer.MkLayerParam (qt [2] [1; 2]%Z) (Some (qt [2] [1; 1]%Z)))
           (lq true false) (qt [2] [1; 1]%Z)).
  - reflexivity.
  - by vm_compute.
  - by vm_compute.
  - reflexivity.
  - reflexivity.
  - reflexivity.
Defined.

End MoreExamples.
